(** * GenLayer price feed: the library contract and the example contract

    A shallow embedding of [Price-feed-library.py] (class [PriceFeedLibrary])
    and [Price-feed-example.py] (class [PriceFeedExample]) together with the
    properties the specification states about them.

    Python values are the values [json.loads] can produce.  Integers are
    unbounded ([Z]); floats are IEEE 754 binary64 numbers, taken from the
    standard library's executable specification [SpecFloat], so NaN, the
    infinities and the signed zeros are there.  Strings are byte strings
    and case conversion is the ASCII one; memory is unbounded.  A method
    body is a computation over the contract state which either returns a
    value or raises a Python exception; an exception nobody catches reaches
    the caller of the method.

    What the repository does not contain is a parameter of the methods: the
    model behind [gl.exec_llm], [json.loads], the ordering of two lists, and
    [str] and the format [,.2f] in an f-string.  [gl.call_contract] on the
    stored address runs the named method of the library contract. *)

From Stdlib Require Import ZArith List String Ascii Bool Lia.
From Stdlib Require Import SpecFloat DecimalString.
Import ListNotations.

#[local] Set Warnings "-register-all".

Local Open Scope string_scope.
Local Open Scope Z_scope.

(** ** Python values, exceptions and results *)

Module Py.

Inductive val : Type :=
| PNone
| PBool (b : bool)
| PInt (z : Z)
| PFloat (f : spec_float)
| PStr (s : string)
| PList (l : list val)
| PDict (d : list (string * val)).

Inductive exn_kind : Type :=
| TypeError
| AttributeError
| KeyError
| ZeroDivisionError
| OverflowError
| HostError (name : string).

(** An exception object: its class and what [str(e)] gives. *)
Record exn : Type := Exn { exn_class : exn_kind; exn_str : string }.

Inductive Res (A : Type) : Type :=
| Ok (a : A)
| Raise (e : exn).
Arguments Ok {A} a.
Arguments Raise {A} e.

Definition res_bind {A B} (r : Res A) (k : A -> Res B) : Res B :=
  match r with
  | Ok a => k a
  | Raise e => Raise e
  end.

Definition type_name (v : val) : string :=
  match v with
  | PNone => "NoneType"
  | PBool _ => "bool"
  | PInt _ => "int"
  | PFloat _ => "float"
  | PStr _ => "str"
  | PList _ => "list"
  | PDict _ => "dict"
  end.

(** [bool(v)]. *)
Definition truthy (v : val) : bool :=
  match v with
  | PNone => false
  | PBool b => b
  | PInt z => negb (z =? 0)
  | PFloat (S754_zero _) => false
  | PFloat _ => true
  | PStr EmptyString => false
  | PStr _ => true
  | PList [] => false
  | PList _ => true
  | PDict [] => false
  | PDict _ => true
  end.

(** *** Insertion-ordered dictionaries with string keys *)

Section Dict.
Context {V : Type}.

Fixpoint dict_find (d : list (string * V)) (k : string) : option V :=
  match d with
  | [] => None
  | (k', v) :: r => if String.eqb k' k then Some v else dict_find r k
  end.

(** [d[k] = v]: an existing key keeps its position. *)
Fixpoint dict_set (d : list (string * V)) (k : string) (v : V)
  : list (string * V) :=
  match d with
  | [] => [(k, v)]
  | (k', v') :: r =>
      if String.eqb k' k then (k', v) :: r else (k', v') :: dict_set r k v
  end.

Definition dict_mem (d : list (string * V)) (k : string) : bool :=
  match dict_find d k with Some _ => true | None => false end.

Definition dict_keys (d : list (string * V)) : list string := map fst d.
End Dict.

Definition attribute_error (v : val) (attr : string) : exn :=
  Exn AttributeError
      ("'" ++ type_name v ++ "' object has no attribute '" ++ attr ++ "'").

(** [v.get(k, default)]. *)
Definition py_get (v : val) (k : string) (default : val) : Res val :=
  match v with
  | PDict d =>
      Ok (match dict_find d k with Some x => x | None => default end)
  | _ => Raise (attribute_error v "get")
  end.

(** [v[k]] for a string key [k]. *)
Definition py_getitem (v : val) (k : string) : Res val :=
  match v with
  | PDict d =>
      match dict_find d k with
      | Some x => Ok x
      | None => Raise (Exn KeyError ("'" ++ k ++ "'"))
      end
  | PStr _ => Raise (Exn TypeError "string indices must be integers, not 'str'")
  | PList _ =>
      Raise (Exn TypeError "list indices must be integers or slices, not str")
  | _ => Raise (Exn TypeError
                  ("'" ++ type_name v ++ "' object is not subscriptable"))
  end.

(** [v == s] for a string literal [s]. *)
Definition py_eq_str (v : val) (s : string) : bool :=
  match v with
  | PStr t => String.eqb t s
  | _ => false
  end.

(** *** The numeric tower: [bool] <= [int] <= [float] *)

Definition prec : Z := 53.
Definition emax : Z := 1024.

Inductive num : Type :=
| NInt (z : Z)
| NFloat (f : spec_float).

Definition as_num (v : val) : option num :=
  match v with
  | PBool b => Some (NInt (Z.b2z b))
  | PInt z => Some (NInt z)
  | PFloat f => Some (NFloat f)
  | _ => None
  end.

(** [float(z)]: round to nearest even, [OverflowError] out of range. *)
Definition float_of_int (z : Z) : Res spec_float :=
  match binary_normalize prec emax z 0 false with
  | S754_infinity _ =>
      Raise (Exn OverflowError "int too large to convert to float")
  | f => Ok f
  end.

Definition to_float (n : num) : Res spec_float :=
  match n with
  | NInt z => float_of_int z
  | NFloat f => Ok f
  end.

(** Exact comparison of an integer with a float, as CPython does it. *)
Definition compare_int_float (z : Z) (f : spec_float) : option comparison :=
  match f with
  | S754_nan => None
  | S754_infinity s => Some (if s then Gt else Lt)
  | S754_zero _ => Some (Z.compare z 0)
  | S754_finite s m e =>
      let v := cond_Zopp s (Zpos m) in
      Some (match e with
            | Zneg p => Z.compare (z * 2 ^ Zpos p) v
            | _ => Z.compare z (v * 2 ^ e)
            end)
  end.

Definition num_compare (a b : num) : option comparison :=
  match a, b with
  | NInt x, NInt y => Some (Z.compare x y)
  | NFloat x, NFloat y => SFcompare x y
  | NInt x, NFloat y => compare_int_float x y
  | NFloat x, NInt y => option_map CompOpp (compare_int_float y x)
  end.

Definition num_gt (a b : num) : bool :=
  match num_compare a b with Some Gt => true | _ => false end.

Definition num_le (a b : num) : bool :=
  match num_compare a b with Some (Lt | Eq) => true | _ => false end.

Definition num_is_zero (n : num) : bool :=
  match n with
  | NInt z => z =? 0
  | NFloat (S754_zero _) => true
  | NFloat _ => false
  end.

Definition float_binop (op : spec_float -> spec_float -> spec_float)
           (a b : num) : Res val :=
  res_bind (to_float a) (fun x =>
  res_bind (to_float b) (fun y => Ok (PFloat (op x y)))).

Definition num_add (a b : num) : Res val :=
  match a, b with
  | NInt x, NInt y => Ok (PInt (x + y))
  | _, _ => float_binop (SFadd prec emax) a b
  end.

Definition num_sub (a b : num) : Res val :=
  match a, b with
  | NInt x, NInt y => Ok (PInt (x - y))
  | _, _ => float_binop (SFsub prec emax) a b
  end.

Definition num_mul (a b : num) : Res val :=
  match a, b with
  | NInt x, NInt y => Ok (PInt (x * y))
  | _, _ => float_binop (SFmul prec emax) a b
  end.

Definition exact_float (z : Z) : spec_float :=
  match z with
  | Z0 => S754_zero false
  | Zpos p => S754_finite false p 0
  | Zneg p => S754_finite true p 0
  end.

Definition zero_division : exn := Exn ZeroDivisionError "division by zero".
Definition float_zero_division : exn :=
  Exn ZeroDivisionError "float division by zero".

(** [a / b]: true division.  Two integers give the correctly rounded
    quotient; otherwise both operands are converted first. *)
Definition num_truediv (a b : num) : Res val :=
  match a, b with
  | NInt x, NInt y =>
      if y =? 0 then Raise zero_division
      else match SFdiv prec emax (exact_float x) (exact_float y) with
           | S754_infinity _ =>
               Raise (Exn OverflowError
                        "integer division result too large for a float")
           | q => Ok (PFloat q)
           end
  | _, _ =>
      res_bind (to_float a) (fun x =>
      res_bind (to_float b) (fun y =>
        match y with
        | S754_zero _ => Raise float_zero_division
        | _ => Ok (PFloat (SFdiv prec emax x y))
        end))
  end.

(** *** Binary operators on values *)

Definition operand_error (op : string) (a b : val) : exn :=
  Exn TypeError
      ("unsupported operand type(s) for " ++ op ++ ": '" ++ type_name a
         ++ "' and '" ++ type_name b ++ "'").

Definition order_error (op : string) (a b : val) : exn :=
  Exn TypeError
      ("'" ++ op ++ "' not supported between instances of '" ++ type_name a
         ++ "' and '" ++ type_name b ++ "'").

Fixpoint str_repeat (s : string) (n : nat) : string :=
  match n with
  | O => EmptyString
  | S k => s ++ str_repeat s k
  end.

Fixpoint list_repeat {A} (l : list A) (n : nat) : list A :=
  match n with
  | O => []
  | S k => (l ++ list_repeat l k)%list
  end.

Section Operators.
(** [a > b] on two lists compares elements by identity before equality;
    object identity is not part of [val], so the ordering of lists is
    left to the host. *)
Variable list_gt : list val -> list val -> Res bool.

(** [a > b] *)
Definition py_gt (a b : val) : Res bool :=
  match as_num a, as_num b with
  | Some x, Some y => Ok (num_gt x y)
  | _, _ =>
      match a, b with
      | PStr s, PStr t =>
          Ok (match String.compare s t with Gt => true | _ => false end)
      | PList l, PList m => list_gt l m
      | _, _ => Raise (order_error ">" a b)
      end
  end.
End Operators.

Definition num_lt (a b : num) : bool :=
  match num_compare a b with Some Lt => true | _ => false end.

Section Less.
(** [a < b] on two lists is the host's, as [a > b] is. *)
Variable list_lt : list val -> list val -> Res bool.

(** [a < b] *)
Definition py_lt (a b : val) : Res bool :=
  match as_num a, as_num b with
  | Some x, Some y => Ok (num_lt x y)
  | _, _ =>
      match a, b with
      | PStr s, PStr t =>
          Ok (match String.compare s t with Lt => true | _ => false end)
      | PList l, PList m => list_lt l m
      | _, _ => Raise (order_error "<" a b)
      end
  end.
End Less.

(** [a - b] *)
Definition py_sub (a b : val) : Res val :=
  match as_num a, as_num b with
  | Some x, Some y => num_sub x y
  | _, _ => Raise (operand_error "-" a b)
  end.

(** [a / b] *)
Definition py_truediv (a b : val) : Res val :=
  match as_num a, as_num b with
  | Some x, Some y => num_truediv x y
  | _, _ => Raise (operand_error "/" a b)
  end.

(** An operand that has [sq_repeat] and [sq_concat]. *)
Definition is_sequence (v : val) : bool :=
  match v with
  | PStr _ | PList _ => true
  | _ => false
  end.

(** [for x in v], for what [list.extend] is given: the characters of a
    string, the elements of a list, the keys of a dictionary. *)
Definition py_iter (v : val) : Res (list val) :=
  match v with
  | PStr s =>
      Ok (map (fun c => PStr (String c EmptyString)) (list_ascii_of_string s))
  | PList l => Ok l
  | PDict d => Ok (map PStr (dict_keys d))
  | _ => Raise (Exn TypeError ("'" ++ type_name v ++ "' object is not iterable"))
  end.

(** [a += b] on a name no other name shares.  Numbers are added; a string
    is concatenated with a string and a list extended by an iterable;
    anything else has neither [__iadd__] nor [__add__] for it. *)
Definition py_iadd (a b : val) : Res val :=
  match as_num a, as_num b with
  | Some x, Some y => num_add x y
  | _, _ =>
      match a with
      | PStr s =>
          match b with
          | PStr t => Ok (PStr (s ++ t))
          | _ =>
              Raise (Exn TypeError
                         ("can only concatenate str (not "
                            ++ String (ascii_of_nat 34) (type_name b)
                            ++ String (ascii_of_nat 34) ") to str"))
          end
      | PList l => res_bind (py_iter b) (fun m => Ok (PList (l ++ m)%list))
      | _ => Raise (operand_error "+=" a b)
      end
  end.

(** [seq * n] for a string or a list: the count is an [int] that fits an
    index (64 bits), and a negative one counts as zero.  Memory is not a
    limit here. *)
Definition sequence_repeat (seq n : val) : Res val :=
  match n with
  | PInt _ | PBool _ =>
      let count := match n with
                   | PInt z => z
                   | PBool b => Z.b2z b
                   | _ => 0
                   end in
      if (- 2 ^ 63 <=? count) && (count <? 2 ^ 63) then
        match seq with
        | PStr s => Ok (PStr (str_repeat s (Z.to_nat count)))
        | PList l => Ok (PList (list_repeat l (Z.to_nat count)))
        | _ => Raise (operand_error "*" seq n)
        end
      else
        Raise (Exn OverflowError "cannot fit 'int' into an index-sized integer")
  | _ =>
      Raise (Exn TypeError
                 ("can't multiply sequence by non-int of type '"
                    ++ type_name n ++ "'"))
  end.

(** [a * b]: two numbers are multiplied; otherwise the operand that is a
    sequence, the left one first, is repeated by the other. *)
Definition py_mul (a b : val) : Res val :=
  match as_num a, as_num b with
  | Some x, Some y => num_mul x y
  | _, _ =>
      if is_sequence a then sequence_repeat a b
      else if is_sequence b then sequence_repeat b a
      else Raise (operand_error "*" a b)
  end.

(** *** Strings *)

Definition ascii_upper (c : ascii) : ascii :=
  let n := nat_of_ascii c in
  if (97 <=? n)%nat && (n <=? 122)%nat then ascii_of_nat (n - 32) else c.

Definition ascii_lower (c : ascii) : ascii :=
  let n := nat_of_ascii c in
  if (65 <=? n)%nat && (n <=? 90)%nat then ascii_of_nat (n + 32) else c.

Fixpoint str_map (f : ascii -> ascii) (s : string) : string :=
  match s with
  | EmptyString => EmptyString
  | String c r => String (f c) (str_map f r)
  end.

(** [s.upper()] and [s.lower()], on the letters of ASCII: a string is a
    sequence of bytes here, and the letters outside ASCII that [str.upper]
    and [str.lower] also map are left as they are. *)
Definition upper (s : string) : string := str_map ascii_upper s.
Definition lower (s : string) : string := str_map ascii_lower s.

End Py.

Import Py.

(** ** Contract state and method bodies as computations *)

(** The state a call of [PriceFeedLibrary] runs in: the two dictionaries of
    the contract, and the prompts [gl.exec_llm] has been given so far (the
    external fetches issued, oldest first). *)
Record State : Type := mkState {
  llm_calls : list string;
  price_cache : list (string * val);
  last_update : list (string * val)
}.

Definition M (A : Type) : Type := State -> Res A * State.

Definition ret {A} (a : A) : M A := fun st => (Ok a, st).

Definition bind {A B} (m : M A) (k : A -> M B) : M B :=
  fun st =>
    match m st with
    | (Ok a, st') => k a st'
    | (Raise e, st') => (Raise e, st')
    end.

Definition lift {A} (r : Res A) : M A := fun st => (r, st).

(** [try: body except Exception as e: handler]: what [body] did to the
    state before it raised stays done. *)
Definition try_except {A} (body : M A) (handler : exn -> M A) : M A :=
  fun st =>
    match body st with
    | (Ok a, st') => (Ok a, st')
    | (Raise e, st') => handler e st'
    end.

Declare Scope py_scope.
Delimit Scope py_scope with py.
Notation "x <- m ;; k" := (bind m (fun x => k))
  (at level 61, m at next level, right associativity) : py_scope.
Notation "m ;;; k" := (bind m (fun _ => k))
  (at level 61, right associativity) : py_scope.
Local Open Scope py_scope.

Definition nl : string := String (ascii_of_nat 10) EmptyString.
Definition dq : string := String (ascii_of_nat 34) EmptyString.
Definition indent12 : string := "            ".
Definition indent16 : string := "                ".

(** ** PriceFeedLibrary *)

Module PriceFeedLibrary.

Definition SUPPORTED_COINS : list (string * string) :=
  [ ("BTC", "bitcoin"); ("ETH", "ethereum"); ("SOL", "solana");
    ("USDT", "tether"); ("USDC", "usd-coin"); ("BNB", "binancecoin");
    ("XRP", "ripple"); ("ADA", "cardano"); ("DOGE", "dogecoin");
    ("MATIC", "matic-network"); ("DOT", "polkadot");
    ("AVAX", "avalanche-2"); ("LINK", "chainlink"); ("UNI", "uniswap");
    ("ATOM", "cosmos") ].

(** [__init__] *)
Definition init (calls : list string) : State := mkState calls [] [].

(** The f-string of [get_price]. *)
Definition prompt_of (coin_id currency : string) : string :=
  nl
  ++ indent12 ++ "Fetch the current price data for " ++ coin_id
  ++ " from CoinGecko API." ++ nl
  ++ indent12 ++ nl
  ++ indent12 ++ "Use this API endpoint:" ++ nl
  ++ indent12 ++ "https://api.coingecko.com/api/v3/simple/price?ids="
  ++ coin_id ++ "&vs_currencies=" ++ currency
  ++ "&include_24hr_change=true&include_market_cap=true" ++ nl
  ++ indent12 ++ nl
  ++ indent12 ++ "Return ONLY a JSON object with this exact structure:" ++ nl
  ++ indent12 ++ "{" ++ nl
  ++ indent16 ++ dq ++ "price" ++ dq ++ ": <current price as number>," ++ nl
  ++ indent16 ++ dq ++ "change_24h" ++ dq
  ++ ": <24 hour percentage change as number>," ++ nl
  ++ indent16 ++ dq ++ "market_cap" ++ dq ++ ": <market cap as number>" ++ nl
  ++ indent12 ++ "}" ++ nl
  ++ indent12 ++ nl
  ++ indent12
  ++ "Do not include any other text, explanations, or markdown formatting."
  ++ nl
  ++ indent12.

Section Methods.
(** The host: what [gl.exec_llm] answers to a prompt, given the prompts it
    answered before; [json.loads]; and the ordering of two lists. *)
Variable llm : list string -> string -> Res string.
Variable json_loads : string -> Res val.
Variable list_gt : list val -> list val -> Res bool.

(** [gl.exec_llm(prompt)] *)
Definition exec_llm (prompt : string) : M string :=
  fun st =>
    (llm (llm_calls st) prompt,
     mkState (llm_calls st ++ [prompt])%list (price_cache st)
             (last_update st)).

(** [self.price_cache[key] = v] *)
Definition cache_store (key : string) (v : val) : M unit :=
  fun st =>
    (Ok tt,
     mkState (llm_calls st) (dict_set (price_cache st) key v)
             (last_update st)).

Definition get_price (symbol currency : string) : M val :=
  let symbol := upper symbol in
  let currency := lower currency in
  match dict_find SUPPORTED_COINS symbol with
  | None =>
      ret (PDict
             [ ("success", PBool false);
               ("error", PStr ("Unsupported symbol: " ++ symbol));
               ("supported_coins",
                PList (map PStr (dict_keys SUPPORTED_COINS))) ])
  | Some coin_id =>
      try_except
        (let prompt := prompt_of coin_id currency in
         result <- exec_llm prompt ;;
         price_data <- lift (json_loads result) ;;
         let cache_key := symbol ++ "_" ++ currency in
         cache_store cache_key price_data ;;;
         price <- lift (py_get price_data "price" PNone) ;;
         change_24h <- lift (py_get price_data "change_24h" PNone) ;;
         market_cap <- lift (py_get price_data "market_cap" PNone) ;;
         ret (PDict
                [ ("success", PBool true);
                  ("symbol", PStr symbol);
                  ("currency", PStr currency);
                  ("price", price);
                  ("change_24h", change_24h);
                  ("market_cap", market_cap);
                  ("timestamp", PStr "current") ]))
        (fun e =>
           ret (PDict
                  [ ("success", PBool false);
                    ("error", PStr ("Failed to fetch price: " ++ exn_str e));
                    ("symbol", PStr symbol) ]))
  end.

(** The loop of [get_multiple_prices]; [results] is the dictionary so far. *)
Fixpoint get_multiple_prices_loop (symbols : list string) (currency : string)
         (results : list (string * val)) : M (list (string * val)) :=
  match symbols with
  | [] => ret results
  | symbol :: rest =>
      price_data <- get_price symbol currency ;;
      get_multiple_prices_loop rest currency
                               (dict_set results symbol price_data)
  end.

Definition get_multiple_prices (symbols : list string) (currency : string)
  : M val :=
  results <- get_multiple_prices_loop symbols currency [] ;;
  ret (PDict
         [ ("success", PBool true);
           ("currency", PStr currency);
           ("count", PInt (Z.of_nat (List.length results)));
           ("prices", PDict results) ]).

Definition compare_prices (symbol1 symbol2 : string) : M val :=
  price1_data <- get_price symbol1 "usd" ;;
  price2_data <- get_price symbol2 "usd" ;;
  ok1 <- lift (py_get price1_data "success" PNone) ;;
  failed <- (if negb (truthy ok1) then ret true
             else ok2 <- lift (py_get price2_data "success" PNone) ;;
                  ret (negb (truthy ok2))) ;;
  if failed : bool then
    ret (PDict
           [ ("success", PBool false);
             ("error", PStr "Failed to fetch one or both prices") ])
  else
    price1 <- lift (py_get price1_data "price" (PInt 0)) ;;
    price2 <- lift (py_get price2_data "price" (PInt 0)) ;;
    positive <- lift (py_gt list_gt price2 (PInt 0)) ;;
    ratio <- (if positive then lift (py_truediv price1 price2)
              else ret (PInt 0)) ;;
    first_higher <- lift (py_gt list_gt price1 price2) ;;
    ret (PDict
           [ ("success", PBool true);
             ("comparison", PStr (symbol1 ++ "/" ++ symbol2));
             ("symbol1", PStr symbol1);
             ("price1", price1);
             ("symbol2", PStr symbol2);
             ("price2", price2);
             ("ratio", ratio);
             ("higher", PStr (if first_higher then symbol1 else symbol2)) ]).

Definition is_price_above (symbol : string) (threshold : val)
           (currency : string) : M val :=
  price_data <- get_price symbol currency ;;
  ok <- lift (py_get price_data "success" PNone) ;;
  if negb (truthy ok) then ret price_data
  else
    current_price <- lift (py_get price_data "price" (PInt 0)) ;;
    is_above <- lift (py_gt list_gt current_price threshold) ;;
    difference <- lift (py_sub current_price threshold) ;;
    positive <- lift (py_gt list_gt threshold (PInt 0)) ;;
    percentage_diff <-
      (if positive then
         d <- lift (py_sub current_price threshold) ;;
         q <- lift (py_truediv d threshold) ;;
         lift (py_mul q (PInt 100))
       else ret (PInt 0)) ;;
    ret (PDict
           [ ("success", PBool true);
             ("symbol", PStr symbol);
             ("current_price", current_price);
             ("threshold", threshold);
             ("is_above", PBool is_above);
             ("difference", difference);
             ("percentage_diff", percentage_diff) ]).
End Methods.

Definition get_supported_coins : M val :=
  ret (PDict
         [ ("success", PBool true);
           ("count", PInt (Z.of_nat (List.length SUPPORTED_COINS)));
           ("supported_coins", PList (map PStr (dict_keys SUPPORTED_COINS))) ]).

End PriceFeedLibrary.

(** ** PriceFeedExample *)

Module PriceFeedExample.

Record Contract : Type := mkContract {
  price_feed_address : val;
  user_alerts : list (string * list val)
}.

(** [__init__] *)
Definition init (address : val) : Contract := mkContract address [].

Section Methods.
Variable llm : list string -> string -> Res string.
Variable json_loads : string -> Res val.
Variable list_gt : list val -> list val -> Res bool.
(** [str(v)] as an f-string formats it. *)
Variable py_str : val -> string.

(** A string argument on which the callee first calls [method]. *)
Definition str_receiver (v : val) (method : string) : Res string :=
  match v with
  | PStr s => Ok s
  | _ => Raise (attribute_error v method)
  end.

(** [gl.call_contract(self.price_feed_address, method, args)], the address
    being that of a deployed [PriceFeedLibrary]: the call runs the named
    method on the library's state and hands back what it returns or
    raises. *)
Definition call_contract (method : string) (args : list val) : M val :=
  match args with
  | [symbol; currency] =>
      if String.eqb method "get_price" then
        s <- lift (str_receiver symbol "upper") ;;
        c <- lift (str_receiver currency "lower") ;;
        PriceFeedLibrary.get_price llm json_loads s c
      else lift (Raise (Exn (HostError "call_contract") method))
  | [symbol; threshold; currency] =>
      if String.eqb method "is_price_above" then
        s <- lift (str_receiver symbol "upper") ;;
        c <- lift (str_receiver currency "lower") ;;
        PriceFeedLibrary.is_price_above llm json_loads list_gt s threshold c
      else lift (Raise (Exn (HostError "call_contract") method))
  | _ => lift (Raise (Exn (HostError "call_contract") method))
  end.

(** The loop of [check_portfolio_value] over [holdings.items()]. *)
Fixpoint check_portfolio_value_loop (holdings : list (string * val))
         (total_value : val) (breakdown : list (string * val))
  : M (val * list (string * val)) :=
  match holdings with
  | [] => ret (total_value, breakdown)
  | (symbol, amount) :: rest =>
      price_data <- call_contract "get_price" [PStr symbol; PStr "usd"] ;;
      ok <- lift (py_get price_data "success" PNone) ;;
      if truthy ok then
        price <- lift (py_get price_data "price" (PInt 0)) ;;
        value <- lift (py_mul price amount) ;;
        total_value' <- lift (py_iadd total_value value) ;;
        check_portfolio_value_loop
          rest total_value'
          (dict_set breakdown symbol
                    (PDict [ ("amount", amount);
                             ("price", price);
                             ("value", value) ]))
      else check_portfolio_value_loop rest total_value breakdown
  end.

Definition check_portfolio_value (holdings : list (string * val)) : M val :=
  r <- check_portfolio_value_loop holdings (PInt 0) [] ;;
  ret (PDict
         [ ("total_value_usd", fst r);
           ("breakdown", PDict (snd r));
           ("currency", PStr "USD") ]).

(** [set_price_alert]; [sender] is [str(gl.message.sender_address)]. *)
Definition set_price_alert (sender : string)
           (symbol threshold alert_type : val) (self : Contract)
  : val * Contract :=
  let user := sender in
  let alerts0 :=
    if dict_mem (user_alerts self) user then user_alerts self
    else dict_set (user_alerts self) user [] in
  let alert :=
    PDict [ ("symbol", symbol);
            ("threshold", threshold);
            ("type", alert_type);
            ("active", PBool true) ] in
  let mine :=
    match dict_find alerts0 user with Some l => l | None => [] end in
  (PDict
     [ ("success", PBool true);
       ("message",
        PStr ("Alert set: " ++ py_str symbol ++ " " ++ py_str alert_type
                ++ " $" ++ py_str threshold));
       ("alert", alert) ],
   mkContract (price_feed_address self)
              (dict_set alerts0 user (mine ++ [alert])%list)).

(** The loop of [check_alerts] over [self.user_alerts[user]]. *)
Fixpoint check_alerts_loop (alerts : list val) (triggered : list val)
  : M (list val) :=
  match alerts with
  | [] => ret triggered
  | alert :: rest =>
      active <- lift (py_get alert "active" PNone) ;;
      if negb (truthy active) then check_alerts_loop rest triggered
      else
        symbol <- lift (py_getitem alert "symbol") ;;
        threshold <- lift (py_getitem alert "threshold") ;;
        result <- call_contract "is_price_above"
                                [symbol; threshold; PStr "usd"] ;;
        ok <- lift (py_get result "success" PNone) ;;
        if truthy ok then
          is_above <- lift (py_get result "is_above" PNone) ;;
          current_price <- lift (py_get result "current_price" PNone) ;;
          type1 <- lift (py_getitem alert "type") ;;
          should_trigger <-
            (if py_eq_str type1 "above" && truthy is_above then ret true
             else
               type2 <- lift (py_getitem alert "type") ;;
               ret (py_eq_str type2 "below" && negb (truthy is_above))) ;;
          if should_trigger : bool then
            symbol' <- lift (py_getitem alert "symbol") ;;
            threshold' <- lift (py_getitem alert "threshold") ;;
            type' <- lift (py_getitem alert "type") ;;
            check_alerts_loop
              rest
              (triggered ++
                 [PDict [ ("symbol", symbol');
                          ("threshold", threshold');
                          ("current_price", current_price);
                          ("type", type') ]])%list
          else check_alerts_loop rest triggered
        else check_alerts_loop rest triggered
  end.

Definition check_alerts (sender : string) (self : Contract) : M val :=
  let user := sender in
  match dict_find (user_alerts self) user with
  | None =>
      ret (PDict
             [ ("success", PBool true);
               ("message", PStr "No alerts set");
               ("triggered_alerts", PList []) ])
  | Some alerts =>
      triggered <- check_alerts_loop alerts [] ;;
      ret (PDict
             [ ("success", PBool true);
               ("triggered_count", PInt (Z.of_nat (List.length triggered)));
               ("triggered_alerts", PList triggered) ])
  end.
End Methods.

Section MoreMethods.
Variable llm : list string -> string -> Res string.
Variable json_loads : string -> Res val.
Variable list_gt : list val -> list val -> Res bool.
Variable list_lt : list val -> list val -> Res bool.
(** [format(v, ",.2f")], the format of the f-string of [check_btc_price]. *)
Variable format_money : val -> Res string.

Definition check_btc_price : M val :=
  result <- call_contract llm json_loads list_gt "get_price"
                          [PStr "BTC"; PStr "usd"] ;;
  price <- lift (py_getitem result "price") ;;
  text <- lift (format_money price) ;;
  ret (PDict
         [ ("message", PStr ("Current BTC price: $" ++ text));
           ("data", result) ]).

Definition should_buy_signal (symbol ma_threshold : val) : M val :=
  price_data <- call_contract llm json_loads list_gt "get_price"
                              [symbol; PStr "usd"] ;;
  ok <- lift (py_get price_data "success" PNone) ;;
  if negb (truthy ok) then ret price_data
  else
    current_price <- lift (py_get price_data "price" (PInt 0)) ;;
    change_24h <- lift (py_get price_data "change_24h" (PInt 0)) ;;
    below <- lift (py_lt list_lt current_price ma_threshold) ;;
    should_buy <- (if below then lift (py_gt list_gt change_24h (PInt 0))
                   else ret false) ;;
    ret (PDict
           [ ("success", PBool true);
             ("symbol", symbol);
             ("current_price", current_price);
             ("ma_threshold", ma_threshold);
             ("change_24h", change_24h);
             ("should_buy", PBool should_buy);
             ("reason",
              PStr (if should_buy : bool
                    then "Price below MA with positive momentum"
                    else "Conditions not met")) ]).
End MoreMethods.

End PriceFeedExample.

(** ** A concrete host for the worked examples *)

Module Demo.

(** A reply text of the shape the prompt asks for. *)
Definition quote_text (price : string) : string :=
  "{" ++ dq ++ "price" ++ dq ++ ": " ++ price ++ ", "
      ++ dq ++ "change_24h" ++ dq ++ ": 2, "
      ++ dq ++ "market_cap" ++ dq ++ ": 1000}".

Definition quote (price : val) : val :=
  PDict [ ("price", price); ("change_24h", PInt 2); ("market_cap", PInt 1000) ].

(** [json.loads] on the reply texts the examples use; any other text is
    rejected the way [json.loads("oops")] is. *)
Definition payloads : list (string * val) :=
  [ (quote_text "50000", quote (PInt 50000));
    (quote_text "100", quote (PInt 100));
    (quote_text "6", quote (PInt 6));
    (quote_text "2", quote (PInt 2));
    (quote_text "1", quote (PInt 1));
    (quote_text "0", quote (PInt 0));
    (quote_text "-2", quote (PInt (-2)));
    (quote_text "2.5",
     quote (PFloat (S754_finite false 5629499534213120 (-51))));
    (quote_text "NaN", quote (PFloat S754_nan));
    ("{" ++ dq ++ "price" ++ dq ++ ": " ++ dq ++ "high" ++ dq ++ "}",
     PDict [("price", PStr "high")]);
    ("{}", PDict []);
    ("[1]", PList [PInt 1]) ].

Definition json_loads (text : string) : Res val :=
  match dict_find payloads text with
  | Some v => Ok v
  | None =>
      Raise (Exn (HostError "JSONDecodeError")
                 "Expecting value: line 1 column 1 (char 0)")
  end.

(** A model that answers its n-th prompt with the n-th scripted reply. *)
Definition scripted (replies : list (Res string))
  : list string -> string -> Res string :=
  fun calls _ =>
    nth (List.length calls) replies
        (Raise (Exn (HostError "TimeoutError") "no reply")).

(** No example orders two lists. *)
Definition list_gt (l m : list val) : Res bool :=
  Raise (order_error ">" (PList l) (PList m)).

(** [str(v)] for what the examples format: strings, integers, booleans and
    [None]. *)
Definition py_str (v : val) : string :=
  match v with
  | PStr s => s
  | PInt z => NilZero.string_of_int (Z.to_int z)
  | PBool true => "True"
  | PBool false => "False"
  | PNone => "None"
  | _ => "<" ++ type_name v ++ ">"
  end.

(** No example orders two lists with [<] either. *)
Definition list_lt (l m : list val) : Res bool :=
  Raise (order_error "<" (PList l) (PList m)).

(** Digits, last one first, with a comma after every third. *)
Fixpoint group_thousands (digits : list ascii) (seen : nat) : list ascii :=
  match digits with
  | [] => []
  | c :: rest =>
      match seen with
      | 3%nat => ","%char :: c :: group_thousands rest 1
      | _ => c :: group_thousands rest (S seen)
      end
  end.

(** The decimal digits of [n], a comma between groups of three. *)
Definition grouped (n : N) : string :=
  string_of_list_ascii
    (rev (group_thousands
            (rev (list_ascii_of_string (NilZero.string_of_uint (N.to_uint n))))
            0)).

(** [m * 2 ^ e] in hundredths, rounded to the nearest one, a tie to the
    even one. *)
Definition hundredths (m : positive) (e : Z) : N :=
  match e with
  | Zneg p =>
      let d := (2 ^ Npos p)%N in
      let n := (100 * Npos m)%N in
      let q := (n / d)%N in
      let r := (n mod d)%N in
      if (2 * r <? d)%N then q
      else if (d <? 2 * r)%N then (q + 1)%N
           else if N.even q then q else (q + 1)%N
  | _ => (100 * Npos m * 2 ^ Z.to_N e)%N
  end.

(** [n] hundredths, written with two decimals. *)
Definition two_decimals (n : N) : string :=
  grouped (n / 100)
    ++ "." ++ NilZero.string_of_uint (N.to_uint ((n mod 100) / 10))
    ++ NilZero.string_of_uint (N.to_uint (n mod 10)).

(** [format(f, ",.2f")] for a float. *)
Definition format_float (f : spec_float) : string :=
  let sign (s : bool) := if s then "-" else EmptyString in
  match f with
  | S754_nan => "nan"
  | S754_infinity s => sign s ++ "inf"
  | S754_zero s => sign s ++ "0.00"
  | S754_finite s m e => sign s ++ two_decimals (hundredths m e)
  end.

(** [format(v, ",.2f")]: an integer or a boolean is converted to a float
    first; [None], a list and a dictionary take no format, and a string
    does not take this one. *)
Definition format_money (v : val) : Res string :=
  match v with
  | PInt z => res_bind (float_of_int z) (fun f => Ok (format_float f))
  | PBool b => res_bind (float_of_int (Z.b2z b)) (fun f => Ok (format_float f))
  | PFloat f => Ok (format_float f)
  | PStr _ =>
      Raise (Exn (HostError "ValueError")
                 "Unknown format code 'f' for object of type 'str'")
  | _ =>
      Raise (Exn TypeError
                 ("unsupported format string passed to " ++ type_name v
                    ++ ".__format__"))
  end.

End Demo.

(** ** Result shapes and the external fetch, for the statements below *)

(** What [get_price] returns for a symbol outside [SUPPORTED_COINS]. *)
Definition unsupported_result (symbol : string) : val :=
  PDict [ ("success", PBool false);
          ("error", PStr ("Unsupported symbol: " ++ symbol));
          ("supported_coins",
           PList (map PStr (dict_keys PriceFeedLibrary.SUPPORTED_COINS))) ].

(** What the [except] branch of [get_price] returns. *)
Definition failure_result (symbol : string) (e : exn) : val :=
  PDict [ ("success", PBool false);
          ("error", PStr ("Failed to fetch price: " ++ exn_str e));
          ("symbol", PStr symbol) ].

(** What [get_price] returns from a payload that is a JSON object. *)
Definition quote_result (symbol currency : string)
           (payload : list (string * val)) : val :=
  let field k := match dict_find payload k with Some x => x | None => PNone end in
  PDict [ ("success", PBool true);
          ("symbol", PStr symbol);
          ("currency", PStr currency);
          ("price", field "price");
          ("change_24h", field "change_24h");
          ("market_cap", field "market_cap");
          ("timestamp", PStr "current") ].

(** [result.get("success")] is truthy. *)
Definition succeeded (result : val) : bool :=
  match py_get result "success" PNone with
  | Ok ok => truthy ok
  | Raise _ => false
  end.

(** The key [get_price] stores a payload under. *)
Definition cache_key (symbol currency : string) : string :=
  upper symbol ++ "_" ++ lower currency.

(** The state once [prompt] has been sent to the model. *)
Definition sent (prompt : string) (st : State) : State :=
  mkState (llm_calls st ++ [prompt]) (price_cache st) (last_update st).

(** The state once [payload] has been stored under [key]. *)
Definition stored (key : string) (payload : val) (st : State) : State :=
  mkState (llm_calls st) (dict_set (price_cache st) key payload)
          (last_update st).

Section Fetch.
Variable llm : list string -> string -> Res string.
Variable json_loads : string -> Res val.

(** The external fetch of [get_price] in state [st]: the model's reply to
    the prompt, parsed.  It fails when the model call raises or when the
    reply does not parse. *)
Definition fetch (coin_id currency : string) (st : State) : Res val :=
  res_bind (llm (llm_calls st) (PriceFeedLibrary.prompt_of coin_id currency))
           json_loads.

(** What [get_price] returns, as a function of the registry and of the
    external fetch alone. *)
Definition get_price_result (symbol currency : string) (st : State) : val :=
  match dict_find PriceFeedLibrary.SUPPORTED_COINS (upper symbol) with
  | None => unsupported_result (upper symbol)
  | Some coin_id =>
      match fetch coin_id (lower currency) st with
      | Raise e => failure_result (upper symbol) e
      | Ok (PDict payload) =>
          quote_result (upper symbol) (lower currency) payload
      | Ok v => failure_result (upper symbol) (attribute_error v "get")
      end
  end.

(** The state [get_price] leaves. *)
Definition get_price_state (symbol currency : string) (st : State) : State :=
  match dict_find PriceFeedLibrary.SUPPORTED_COINS (upper symbol) with
  | None => st
  | Some coin_id =>
      let st1 := sent (PriceFeedLibrary.prompt_of coin_id (lower currency)) st in
      match fetch coin_id (lower currency) st with
      | Raise e => st1
      | Ok v => stored (cache_key symbol currency) v st1
      end
  end.

(** An entry of [results]: a symbol with what some [get_price] call for it
    returned. *)
Definition price_entry (currency : string) (entry : string * val) : Prop :=
  exists st,
    fst (PriceFeedLibrary.get_price llm json_loads (fst entry) currency st)
    = Ok (snd entry).

(** The [get_price] calls of a valuation, in the order of
    [holdings.items()]: each holding with what its call returned. *)
Fixpoint quotes_of (holdings : list (string * val))
  : M (list (string * val * val)) :=
  match holdings with
  | [] => ret []
  | (symbol, amount) :: rest =>
      q <- PriceFeedLibrary.get_price llm json_loads symbol "usd" ;;
      quotes <- quotes_of rest ;;
      ret ((symbol, amount, q) :: quotes)
  end.
End Fetch.

(** ** compare_prices and is_price_above: what they return *)

(** What [compare_prices] returns when neither fetch failed. *)
Definition comparison_result (symbol1 symbol2 : string)
           (price1 price2 ratio : val) (higher : string) : val :=
  PDict [ ("success", PBool true);
          ("comparison", PStr (symbol1 ++ "/" ++ symbol2));
          ("symbol1", PStr symbol1);
          ("price1", price1);
          ("symbol2", PStr symbol2);
          ("price2", price2);
          ("ratio", ratio);
          ("higher", PStr higher) ].

(** [(current_price - threshold) / threshold * 100] *)
Definition percentage_formula (current_price threshold : val) : Res val :=
  res_bind (py_sub current_price threshold) (fun d =>
  res_bind (py_truediv d threshold) (fun q => py_mul q (PInt 100))).

(** What [is_price_above] returns when the fetch did not fail. *)
Definition above_result (symbol : string)
           (current_price threshold : val) (is_above : bool)
           (difference percentage_diff : val) : val :=
  PDict [ ("success", PBool true);
          ("symbol", PStr symbol);
          ("current_price", current_price);
          ("threshold", threshold);
          ("is_above", PBool is_above);
          ("difference", difference);
          ("percentage_diff", percentage_diff) ].

(** ** Alerts: what is stored and what is reported *)

(** The alert [set_price_alert] stores. *)
Definition alert_of (symbol threshold alert_type : val) : val :=
  PDict [ ("symbol", symbol);
          ("threshold", threshold);
          ("type", alert_type);
          ("active", PBool true) ].

(** The entry [check_alerts] reports for a triggered alert. *)
Definition triggered_entry (symbol threshold current_price alert_type : val)
  : val :=
  PDict [ ("symbol", symbol);
          ("threshold", threshold);
          ("current_price", current_price);
          ("type", alert_type) ].

(** [entry] reports [alert], and the type of [alert] is one of the two
    strings [check_alerts] knows. *)
Definition triggered_by (alert entry : val) : Prop :=
  exists symbol threshold alert_type current_price,
    py_getitem alert "symbol" = Ok symbol
    /\ py_getitem alert "threshold" = Ok threshold
    /\ py_getitem alert "type" = Ok alert_type
    /\ (alert_type = PStr "above" \/ alert_type = PStr "below")
    /\ entry = triggered_entry symbol threshold current_price alert_type.

(** ** Valuation: the entries and the total *)

(** One entry of [breakdown]. *)
Definition breakdown_item (amount price value : val) : val :=
  PDict [ ("amount", amount); ("price", price); ("value", value) ].

(** The entries a valuation owes to the quotes it fetched, [(symbol,
    amount, what get_price returned)] in order: one per quote that
    succeeded, none for a quote that failed. *)
Fixpoint valued (quotes : list (string * val * val))
  : Res (list (string * val)) :=
  match quotes with
  | [] => Ok []
  | (symbol, amount, q) :: rest =>
      if succeeded q then
        res_bind (py_get q "price" (PInt 0)) (fun price =>
        res_bind (py_mul price amount) (fun value =>
        res_bind (valued rest) (fun items =>
          Ok ((symbol, breakdown_item amount price value) :: items))))
      else valued rest
  end.

(** [total] with the [value] of every entry added to it, in order. *)
Fixpoint sum_values (total : val) (items : list (string * val)) : Res val :=
  match items with
  | [] => Ok total
  | (_, item) :: rest =>
      res_bind (py_get item "value" PNone) (fun value =>
      res_bind (py_iadd total value) (fun total' => sum_values total' rest))
  end.

Definition holding_of (quote : string * val * val) : string * val :=
  (fst (fst quote), snd (fst quote)).

Definition symbol_of (quote : string * val * val) : string := fst (fst quote).

(** A quote on which the arithmetic of a valuation is float arithmetic:
    when it succeeded, its price and the amount held are floats. *)
Definition float_quote (quote : string * val * val) : Prop :=
  succeeded (snd quote) = true ->
  exists price amount,
    py_get (snd quote) "price" (PInt 0) = Ok (PFloat price)
    /\ snd (fst quote) = PFloat amount.

(** ** Values and states of the worked examples *)

(** A state whose cache already holds a quote for BTC in usd. *)
Definition cached_state : State :=
  mkState [] [("BTC_usd", Demo.quote (PInt 1))] [].

(** The floats the examples name. *)
Definition minus_three : spec_float := S754_finite true 6755399441055744 (-51).
Definition minus_three_hundred : spec_float :=
  S754_finite true 5277655813324800 (-44).
Definition two_and_a_half : spec_float :=
  S754_finite false 5629499534213120 (-51).

(** The contract after alice set one alert. *)
Definition alice_alert (threshold alert_type : val) : PriceFeedExample.Contract :=
  snd (PriceFeedExample.set_price_alert
         Demo.py_str "alice" (PStr "BTC") threshold alert_type
         (PriceFeedExample.init (PStr "0xfeed"))).

(** ** Further vocabulary: fetches, signals, alert histories *)

(** The prompt a [get_price] call sends: one for a supported symbol, none
    for any other. *)
Definition prompt_for (symbol currency : string) : list string :=
  match dict_find PriceFeedLibrary.SUPPORTED_COINS (upper symbol) with
  | Some coin_id => [PriceFeedLibrary.prompt_of coin_id (lower currency)]
  | None => []
  end.

(** The prompts a run of [get_price] calls sends, in order. *)
Definition prompts_for (symbols : list string) (currency : string)
  : list string :=
  flat_map (fun symbol => prompt_for symbol currency) symbols.

(** The generic failure of [compare_prices]. *)
Definition comparison_failure : val :=
  PDict [ ("success", PBool false);
          ("error", PStr "Failed to fetch one or both prices") ].

(** What [should_buy_signal] returns when the fetch did not fail. *)
Definition signal_result (symbol current_price ma_threshold change_24h : val)
           (should_buy : bool) : val :=
  PDict [ ("success", PBool true);
          ("symbol", symbol);
          ("current_price", current_price);
          ("ma_threshold", ma_threshold);
          ("change_24h", change_24h);
          ("should_buy", PBool should_buy);
          ("reason",
           PStr (if should_buy
                 then "Price below MA with positive momentum"
                 else "Conditions not met")) ].

(** [l] is [m] with some elements left out, the order kept. *)
Inductive subseq {A : Type} : list A -> list A -> Prop :=
| subseq_nil : subseq [] []
| subseq_skip x l m : subseq l m -> subseq l (x :: m)
| subseq_take x l m : subseq l m -> subseq (x :: l) (x :: m).

(** [alert[k]], [None] standing for a missing key. *)
Definition alert_field (alert : val) (k : string) : val :=
  match py_getitem alert k with
  | Ok v => v
  | Raise _ => PNone
  end.

(** [result.get(k)], [None] standing for what cannot be read. *)
Definition result_field (result : val) (k : string) : val :=
  match py_get result k PNone with
  | Ok v => v
  | Raise _ => PNone
  end.

Section Checks.
Variable llm : list string -> string -> Res string.
Variable json_loads : string -> Res val.
Variable list_gt : list val -> list val -> Res bool.

(** The [is_price_above] calls of a check, in the order of the sender's
    list: each active alert with what the call made for it returned. *)
Fixpoint checks_of (alerts : list val) : M (list (val * val)) :=
  match alerts with
  | [] => ret []
  | alert :: rest =>
      active <- lift (py_get alert "active" PNone) ;;
      if negb (truthy active) then checks_of rest
      else
        symbol <- lift (py_getitem alert "symbol") ;;
        threshold <- lift (py_getitem alert "threshold") ;;
        result <- PriceFeedExample.call_contract
                    llm json_loads list_gt "is_price_above"
                    [symbol; threshold; PStr "usd"] ;;
        checks <- checks_of rest ;;
        ret ((alert, result) :: checks)
  end.
End Checks.

(** The alert of a check is due: its call succeeded, and its type is
    "above" with [is_above] true, or "below" with [is_above] false. *)
Definition due (check : val * val) : bool :=
  let is_above := truthy (result_field (snd check) "is_above") in
  let alert_type := alert_field (fst check) "type" in
  succeeded (snd check)
  && ((py_eq_str alert_type "above" && is_above)
      || (py_eq_str alert_type "below" && negb is_above)).

(** The entry [check_alerts] reports for the alert of a check: the alert's
    symbol, threshold and type, and the [current_price] its call
    returned. *)
Definition report (check : val * val) : val :=
  triggered_entry (alert_field (fst check) "symbol")
                  (alert_field (fst check) "threshold")
                  (result_field (snd check) "current_price")
                  (alert_field (fst check) "type").

(** One call of [set_price_alert]: who sent it, and its arguments. *)
Record AlertCall : Type := mkAlertCall {
  call_sender : string;
  call_symbol : val;
  call_threshold : val;
  call_type : val
}.

Section AlertHistory.
Variable py_str : val -> string.

(** The contract after the calls of a history, oldest first. *)
Fixpoint set_alerts (calls : list AlertCall)
         (self : PriceFeedExample.Contract) : PriceFeedExample.Contract :=
  match calls with
  | [] => self
  | c :: rest =>
      set_alerts rest
                 (snd (PriceFeedExample.set_price_alert
                         py_str (call_sender c) (call_symbol c)
                         (call_threshold c) (call_type c) self))
  end.
End AlertHistory.

(** The alerts the calls of [user] in a history ask for, oldest first. *)
Definition alerts_asked (user : string) (calls : list AlertCall) : list val :=
  map (fun c => alert_of (call_symbol c) (call_threshold c) (call_type c))
      (filter (fun c => String.eqb (call_sender c) user) calls).

(** No underscore in [s]. *)
Fixpoint no_underscore (s : string) : bool :=
  match s with
  | EmptyString => true
  | String c r => negb (Ascii.eqb c "_"%char) && no_underscore r
  end.

(** The value of the quotes that succeeded, when prices and amounts are
    integers. *)
Fixpoint int_total (quotes : list (string * val * val)) : Z :=
  match quotes with
  | [] => 0
  | (_, amount, q) :: rest =>
      (if succeeded q then
         match py_get q "price" (PInt 0), amount with
         | Ok (PInt p), PInt a => p * a
         | _, _ => 0
         end
       else 0) + int_total rest
  end.

(** A quote on which the arithmetic of a valuation is integer arithmetic. *)
Definition int_quote (quote : string * val * val) : Prop :=
  succeeded (snd quote) = true ->
  exists price amount,
    py_get (snd quote) "price" (PInt 0) = Ok (PInt price)
    /\ snd (fst quote) = PInt amount.

(** The model is down: every call raises. *)
Definition outage (llm : list string -> string -> Res string) : Prop :=
  forall calls prompt, exists e, llm calls prompt = Raise e.

(** A model that is down: no reply is scripted. *)
Definition down : list string -> string -> Res string := Demo.scripted [].

(** ** Proof steps *)

Ltac raised_type_error H :=
  try discriminate H; injection H as <-; discriminate.

(** One step through a method body run in hypothesis [H]: decide a test,
    or split on what a call returned. *)
Ltac step H :=
  match type of H with
  | context [if ?b then _ else _] =>
      let E := fresh "T" in destruct b eqn:E; simpl in H
  | context [match ?r with Ok _ => _ | Raise _ => _ end] =>
      let E := fresh "E" in
      destruct r eqn:E; simpl in H; try discriminate H
  | context [let (_, _) := ?p in _] =>
      let E := fresh "E" in destruct p eqn:E; simpl in H
  end.

(** ** Dictionaries *)

Lemma dict_find_set_same {V} (d : list (string * V)) k v :
  dict_find (dict_set d k v) k = Some v.
Proof.
  induction d as [|[k' v'] d IH]; simpl.
  - now rewrite String.eqb_refl.
  - destruct (String.eqb k' k) eqn:E; simpl; rewrite E; auto.
Qed.

Lemma dict_find_set_other {V} (d : list (string * V)) k k' v :
  k' <> k -> dict_find (dict_set d k v) k' = dict_find d k'.
Proof.
  intros N.
  induction d as [|[k0 v0] d IH]; simpl.
  - destruct (String.eqb k k') eqn:E; auto.
    apply String.eqb_eq in E. congruence.
  - destruct (String.eqb k0 k) eqn:E; simpl.
    + apply String.eqb_eq in E. subst k0.
      destruct (String.eqb k k') eqn:E'; auto.
      apply String.eqb_eq in E'. congruence.
    + now rewrite IH.
Qed.

Lemma dict_find_In {V} (d : list (string * V)) k :
  dict_find d k <> None <-> In k (dict_keys d).
Proof.
  induction d as [|[k' v'] d IH]; simpl.
  - split; [congruence | tauto].
  - destruct (String.eqb k' k) eqn:E.
    + apply String.eqb_eq in E. split; [auto | congruence].
    + apply String.eqb_neq in E. rewrite IH. tauto.
Qed.

Lemma dict_keys_set {V} (d : list (string * V)) k v :
  dict_keys (dict_set d k v) =
  if dict_mem d k then dict_keys d else (dict_keys d ++ [k])%list.
Proof.
  unfold dict_mem.
  induction d as [|[k' v'] d IH]; simpl; auto.
  destruct (String.eqb k' k) eqn:E; simpl; auto.
  rewrite IH. now destruct (dict_find d k).
Qed.

(** ** get_price, case by case *)

Section GetPrice.
Variable llm : list string -> string -> Res string.
Variable json_loads : string -> Res val.

Local Abbreviation get_price := (PriceFeedLibrary.get_price llm json_loads).
Local Abbreviation SUPPORTED_COINS := PriceFeedLibrary.SUPPORTED_COINS.
Local Abbreviation prompt_of := PriceFeedLibrary.prompt_of.

Lemma get_price_unsupported symbol currency st :
  dict_find SUPPORTED_COINS (upper symbol) = None ->
  get_price symbol currency st = (Ok (unsupported_result (upper symbol)), st).
Proof.
  intros H. unfold PriceFeedLibrary.get_price. now rewrite H.
Qed.

Lemma get_price_fetch_failed symbol currency st coin_id e :
  dict_find SUPPORTED_COINS (upper symbol) = Some coin_id ->
  fetch llm json_loads coin_id (lower currency) st = Raise e ->
  get_price symbol currency st =
  (Ok (failure_result (upper symbol) e),
   sent (prompt_of coin_id (lower currency)) st).
Proof.
  intros H F. unfold PriceFeedLibrary.get_price. rewrite H.
  unfold fetch in F.
  unfold try_except, bind, PriceFeedLibrary.exec_llm, lift. simpl.
  destruct (llm (llm_calls st) (prompt_of coin_id (lower currency)))
    as [text|e'] eqn:L; simpl in F.
  - rewrite F. reflexivity.
  - injection F as ->. reflexivity.
Qed.

Lemma get_price_object symbol currency st coin_id payload :
  dict_find SUPPORTED_COINS (upper symbol) = Some coin_id ->
  fetch llm json_loads coin_id (lower currency) st = Ok (PDict payload) ->
  get_price symbol currency st =
  (Ok (quote_result (upper symbol) (lower currency) payload),
   stored (cache_key symbol currency) (PDict payload)
          (sent (prompt_of coin_id (lower currency)) st)).
Proof.
  intros H F. unfold PriceFeedLibrary.get_price. rewrite H.
  unfold fetch in F.
  unfold try_except, bind, PriceFeedLibrary.exec_llm, lift. simpl.
  destruct (llm (llm_calls st) (prompt_of coin_id (lower currency)))
    as [text|e'] eqn:L; simpl in F; [|discriminate].
  rewrite F. reflexivity.
Qed.

Lemma get_price_not_object symbol currency st coin_id v :
  dict_find SUPPORTED_COINS (upper symbol) = Some coin_id ->
  fetch llm json_loads coin_id (lower currency) st = Ok v ->
  (forall payload, v <> PDict payload) ->
  get_price symbol currency st =
  (Ok (failure_result (upper symbol) (attribute_error v "get")),
   stored (cache_key symbol currency) v
          (sent (prompt_of coin_id (lower currency)) st)).
Proof.
  intros H F N. unfold PriceFeedLibrary.get_price. rewrite H.
  unfold fetch in F.
  unfold try_except, bind, PriceFeedLibrary.exec_llm, lift. simpl.
  destruct (llm (llm_calls st) (prompt_of coin_id (lower currency)))
    as [text|e'] eqn:L; simpl in F; [|discriminate].
  rewrite F.
  destruct v; try reflexivity. now destruct (N d).
Qed.

Lemma get_price_run symbol currency st :
  get_price symbol currency st =
  (Ok (get_price_result llm json_loads symbol currency st),
   get_price_state llm json_loads symbol currency st).
Proof.
  unfold get_price_result, get_price_state.
  destruct (dict_find SUPPORTED_COINS (upper symbol)) as [coin_id|] eqn:H.
  - destruct (fetch llm json_loads coin_id (lower currency) st) as [v|e] eqn:F.
    + destruct v;
        try (rewrite (get_price_not_object _ _ _ _ _ H F); [reflexivity|];
             intros payload; discriminate).
      now rewrite (get_price_object _ _ _ _ _ H F).
    + now apply get_price_fetch_failed.
  - now apply get_price_unsupported.
Qed.
End GetPrice.

(** ** The cache and the external fetch *)

(** [get_price] never reads [price_cache], and nothing in the contract
    reads a clock or writes [last_update]: no entry has an age.  For a
    supported symbol every call sends its prompt to the model, whatever the
    cache holds; what it returns does not depend on the cache; and when it
    succeeds the parsed payload has been written over the entry for the
    key, so that entry is the payload whose fields the caller received. *)
Theorem get_price_always_refetches :
  forall llm json_loads symbol currency st coin_id,
    dict_find PriceFeedLibrary.SUPPORTED_COINS (upper symbol) = Some coin_id ->
    let run := PriceFeedLibrary.get_price llm json_loads symbol currency st in
    llm_calls (snd run) =
      (llm_calls st ++ [PriceFeedLibrary.prompt_of coin_id (lower currency)])%list
    /\ (forall cache updates,
          fst (PriceFeedLibrary.get_price
                 llm json_loads symbol currency
                 (mkState (llm_calls st) cache updates)) = fst run)
    /\ (forall result,
          fst run = Ok result -> succeeded result = true ->
          exists payload,
            fetch llm json_loads coin_id (lower currency) st = Ok (PDict payload)
            /\ result = quote_result (upper symbol) (lower currency) payload
            /\ dict_find (price_cache (snd run)) (cache_key symbol currency)
               = Some (PDict payload)).
Proof.
  intros llm json_loads symbol currency st coin_id H run.
  subst run. rewrite get_price_run. simpl.
  repeat split.
  - unfold get_price_state. rewrite H.
    now destruct (fetch llm json_loads coin_id (lower currency) st).
  - intros cache updates. rewrite get_price_run. simpl.
    unfold get_price_result. now rewrite H.
  - intros result R S. injection R as <-.
    unfold get_price_result, get_price_state in *. rewrite H in *.
    destruct (fetch llm json_loads coin_id (lower currency) st) as [v|e];
      [|discriminate].
    destruct v; try discriminate.
    exists d. repeat split. simpl. apply dict_find_set_same.
Qed.

(** Nothing coalesces two requests for one key: the second call sends the
    prompt again. *)
Lemma get_price_twice_fetches_twice llm json_loads symbol currency st coin_id :
  dict_find PriceFeedLibrary.SUPPORTED_COINS (upper symbol) = Some coin_id ->
  let first := PriceFeedLibrary.get_price llm json_loads symbol currency st in
  let second :=
    PriceFeedLibrary.get_price llm json_loads symbol currency (snd first) in
  llm_calls (snd second) =
    (llm_calls st ++ [PriceFeedLibrary.prompt_of coin_id (lower currency);
                      PriceFeedLibrary.prompt_of coin_id (lower currency)])%list.
Proof.
  intros H first second. subst first second.
  rewrite !get_price_run. simpl.
  assert (forall s, llm_calls (get_price_state llm json_loads symbol currency s)
                    = (llm_calls s
                         ++ [PriceFeedLibrary.prompt_of coin_id (lower currency)])%list)
    as Once.
  { intros s. unfold get_price_state. rewrite H.
    now destruct (fetch llm json_loads coin_id (lower currency) s). }
  rewrite !Once, <- app_assoc. reflexivity.
Qed.

(** A call touches no entry of the cache but the one of its own key. *)
Lemma get_price_touches_one_key llm json_loads symbol currency st key :
  key <> cache_key symbol currency ->
  dict_find
    (price_cache
       (snd (PriceFeedLibrary.get_price llm json_loads symbol currency st)))
    key
  = dict_find (price_cache st) key.
Proof.
  intros N. rewrite get_price_run. simpl. unfold get_price_state.
  destruct (dict_find PriceFeedLibrary.SUPPORTED_COINS (upper symbol));
    [|reflexivity].
  destruct (fetch llm json_loads s (lower currency) st); simpl;
    [now apply dict_find_set_other | reflexivity].
Qed.

(** C3, as the code has it.  For a supported symbol [get_price] returns
    a failure in two cases and no other.  When the model call raises or
    its reply does not parse, the call returns
    [{"success": False, "error": "Failed to fetch price: ...", "symbol": ...}]
    with the error's text and leaves both dictionaries of the contract as
    they were.  When the reply parses to a value that is not an object, the
    call returns the same kind of failure, with the text of the
    [AttributeError] of the first [.get], but the value has been stored
    under the key by then: the store comes before the fields are read, and
    nothing takes it back.  [last_update] is not written in either case. *)
Theorem get_price_failed_fetch_is_surfaced :
  forall llm json_loads symbol currency st coin_id,
    dict_find PriceFeedLibrary.SUPPORTED_COINS (upper symbol) = Some coin_id ->
    let run := PriceFeedLibrary.get_price llm json_loads symbol currency st in
    let failure text :=
      PDict [ ("success", PBool false);
              ("error", PStr ("Failed to fetch price: " ++ text));
              ("symbol", PStr (upper symbol)) ] in
    (forall e,
        fetch llm json_loads coin_id (lower currency) st = Raise e ->
        fst run = Ok (failure (exn_str e))
        /\ price_cache (snd run) = price_cache st
        /\ last_update (snd run) = last_update st)
    /\ (forall v,
          fetch llm json_loads coin_id (lower currency) st = Ok v ->
          (forall payload, v <> PDict payload) ->
          fst run
          = Ok (failure ("'" ++ type_name v
                             ++ "' object has no attribute 'get'"))
          /\ price_cache (snd run)
             = dict_set (price_cache st) (cache_key symbol currency) v
          /\ dict_find (price_cache (snd run)) (cache_key symbol currency)
             = Some v
          /\ last_update (snd run) = last_update st)
    /\ (forall result,
          fst run = Ok result -> succeeded result = false ->
          (exists e, fetch llm json_loads coin_id (lower currency) st = Raise e)
          \/ (exists v,
                fetch llm json_loads coin_id (lower currency) st = Ok v
                /\ forall payload, v <> PDict payload)).
Proof.
  intros llm json_loads symbol currency st coin_id H run failure.
  subst run failure. split; [|split].
  - intros e F. rewrite (get_price_fetch_failed _ _ _ _ _ _ _ H F).
    repeat split.
  - intros v F N. rewrite (get_price_not_object _ _ _ _ _ _ _ H F N).
    cbn [fst snd stored sent price_cache last_update].
    split; [reflexivity|]. split; [reflexivity|].
    split; [apply dict_find_set_same | reflexivity].
  - intros result R S. rewrite get_price_run in R. injection R as <-.
    unfold get_price_result in S. rewrite H in S.
    destruct (fetch llm json_loads coin_id (lower currency) st) as [v|e];
      [|left; now exists e].
    right. exists v. split; [reflexivity|].
    intros payload ->. discriminate S.
Qed.

(** C9, as the code has it: [get_price] catches what the fetch raises, and a
    payload that is not a JSON object fails on its first [.get]; both give
    the failure result.  A payload that is a JSON object is not looked at
    any further: the call succeeds with [price], [change_24h] and
    [market_cap] read by [.get], [None] standing for a missing field and a
    value of any type passed on as it is. *)
Theorem get_price_does_not_validate_fields :
  forall llm json_loads symbol currency st coin_id,
    dict_find PriceFeedLibrary.SUPPORTED_COINS (upper symbol) = Some coin_id ->
    fst (PriceFeedLibrary.get_price llm json_loads symbol currency st) =
    Ok (match fetch llm json_loads coin_id (lower currency) st with
        | Raise e => failure_result (upper symbol) e
        | Ok (PDict payload) =>
            PDict [ ("success", PBool true);
                    ("symbol", PStr (upper symbol));
                    ("currency", PStr (lower currency));
                    ("price",
                     match dict_find payload "price" with
                     | Some x => x | None => PNone end);
                    ("change_24h",
                     match dict_find payload "change_24h" with
                     | Some x => x | None => PNone end);
                    ("market_cap",
                     match dict_find payload "market_cap" with
                     | Some x => x | None => PNone end);
                    ("timestamp", PStr "current") ]
        | Ok v => failure_result (upper symbol) (attribute_error v "get")
        end).
Proof.
  intros llm json_loads symbol currency st coin_id H.
  rewrite get_price_run. simpl. unfold get_price_result. rewrite H.
  destruct (fetch llm json_loads coin_id (lower currency) st) as [v|e];
    [destruct v|]; reflexivity.
Qed.

(** ** get_multiple_prices *)

Lemma dict_mem_In {V} (d : list (string * V)) k :
  dict_mem d k = true <-> In k (dict_keys d).
Proof.
  rewrite <- dict_find_In. unfold dict_mem.
  destruct (dict_find d k); split; congruence.
Qed.

Lemma dict_set_Forall {V} (P : string * V -> Prop) (d : list (string * V)) k v :
  Forall P d -> P (k, v) -> Forall P (dict_set d k v).
Proof.
  intros F Pk.
  induction d as [|[k' v'] d IH]; simpl.
  - constructor; auto.
  - inversion F; subst.
    destruct (String.eqb k' k) eqn:E.
    + apply String.eqb_eq in E. subst k'. constructor; auto.
    + constructor; auto.
Qed.

Section GetMultiplePrices.
Variable llm : list string -> string -> Res string.
Variable json_loads : string -> Res val.
Variable currency : string.

Lemma get_multiple_prices_loop_spec symbols :
  forall results st,
  exists results' st',
    PriceFeedLibrary.get_multiple_prices_loop
      llm json_loads symbols currency results st = (Ok results', st')
    /\ (forall s, In s (dict_keys results') <->
                  In s (dict_keys results) \/ In s symbols)
    /\ (NoDup (dict_keys results) -> NoDup (dict_keys results'))
    /\ (NoDup (dict_keys results ++ symbols) ->
        dict_keys results' = (dict_keys results ++ symbols)%list)
    /\ (Forall (price_entry llm json_loads currency) results -> Forall (price_entry llm json_loads currency) results').
Proof.
  induction symbols as [|symbol rest IH]; intros results st.
  - exists results, st. simpl.
    split; [reflexivity|]. split; [|split; [|split]]; auto.
    + intros s. tauto.
    + now rewrite app_nil_r.
  - simpl. unfold bind at 1. rewrite get_price_run.
    set (v := get_price_result llm json_loads symbol currency st).
    set (st1 := get_price_state llm json_loads symbol currency st).
    destruct (IH (dict_set results symbol v) st1)
      as (results' & st' & Run & Mem & Nd & Ord & All).
    exists results', st'. split; [exact Run|].
    assert (K := dict_keys_set results symbol v).
    assert (price_entry llm json_loads currency (symbol, v)) as PE.
    { exists st. simpl. now rewrite get_price_run. }
    destruct (dict_mem results symbol) eqn:E.
    + apply dict_mem_In in E. rewrite K in *.
      split; [|split; [|split]].
      * intros s. rewrite Mem. simpl. intuition (subst; auto).
      * exact Nd.
      * intros N. apply NoDup_remove_2 in N. destruct N.
        apply in_or_app. now left.
      * intros F. apply All. now apply dict_set_Forall.
    + assert (~ In symbol (dict_keys results)) as NI.
      { rewrite <- dict_mem_In. congruence. }
      rewrite K in *.
      split; [|split; [|split]].
      * intros s. rewrite Mem, in_app_iff. simpl. intuition (subst; auto).
      * intros N. apply Nd. apply NoDup_app; auto.
        -- constructor; [intros []|constructor].
        -- intros x Hx [<-|[]]. contradiction.
      * intros N. rewrite <- app_assoc in Ord. simpl in Ord.
        rewrite <- Ord; auto.
      * intros F. apply All. now apply dict_set_Forall.
Qed.
End GetMultiplePrices.

(** C4, as the code has it: [count] is the number of entries of [prices],
    and [prices] has one entry per distinct symbol of the input -- a symbol
    asked for twice keeps a single entry -- each holding what [get_price]
    returned for it, a failure as well as a success.  When no symbol
    repeats, the entries follow the input and [count] is its length. *)
Theorem get_multiple_prices_counts_entries :
  forall llm json_loads symbols currency st,
  exists results st',
    PriceFeedLibrary.get_multiple_prices llm json_loads symbols currency st =
    (Ok (PDict [ ("success", PBool true);
                 ("currency", PStr currency);
                 ("count", PInt (Z.of_nat (List.length results)));
                 ("prices", PDict results) ]),
     st')
    /\ NoDup (dict_keys results)
    /\ (forall s, In s (dict_keys results) <-> In s symbols)
    /\ Forall (price_entry llm json_loads currency) results
    /\ (NoDup symbols ->
        dict_keys results = symbols
        /\ List.length results = List.length symbols).
Proof.
  intros llm json_loads symbols currency st.
  destruct (get_multiple_prices_loop_spec llm json_loads currency symbols [] st)
    as (results & st' & Run & Mem & Nd & Ord & All).
  exists results, st'.
  unfold PriceFeedLibrary.get_multiple_prices, bind. rewrite Run.
  split; [reflexivity|].
  split; [apply Nd; constructor|].
  split; [intros s; rewrite Mem; simpl; tauto|].
  split; [apply All; constructor|].
  intros N. specialize (Ord N). simpl in Ord. split; [exact Ord|].
  rewrite <- Ord. unfold dict_keys. now rewrite length_map.
Qed.

(** ** Arithmetic: when a division can raise ZeroDivisionError *)

Lemma digits2_pos_size p : digits2_pos p = Pos.size p.
Proof. induction p; simpl; congruence. Qed.

Lemma iter_pos_nat {A} (f : A -> A) p : forall x,
  iter_pos f p x = Nat.iter (Pos.to_nat p) f x.
Proof.
  induction p as [p IH|p IH|]; intros x; cbn [iter_pos].
  - rewrite !IH, Pos2Nat.inj_xI, Nat.iter_succ_r.
    replace (2 * Pos.to_nat p)%nat with (Pos.to_nat p + Pos.to_nat p)%nat by lia.
    now rewrite Nat.iter_add.
  - rewrite !IH, Pos2Nat.inj_xO.
    replace (2 * Pos.to_nat p)%nat with (Pos.to_nat p + Pos.to_nat p)%nat by lia.
    now rewrite Nat.iter_add.
  - reflexivity.
Qed.

Lemma shr_1_m mrs : 0 <= shr_m mrs -> shr_m (shr_1 mrs) = shr_m mrs / 2.
Proof.
  destruct mrs as [m r s]. cbn [shr_m]. intros H.
  destruct m as [|[p|p|]|p]; cbn [shr_1 shr_m]; try lia.
  - reflexivity.
  - apply Z.div_unique with (r := 1); lia.
  - apply Z.div_unique with (r := 0); lia.
  - reflexivity.
Qed.

Lemma shr_iter_m n : forall mrs, 0 <= shr_m mrs ->
  shr_m (Nat.iter n shr_1 mrs) = shr_m mrs / 2 ^ Z.of_nat n.
Proof.
  induction n as [|n IH]; intros mrs H.
  - simpl. now rewrite Z.div_1_r.
  - rewrite Nat.iter_succ_r, IH.
    + rewrite shr_1_m by assumption.
      rewrite Nat2Z.inj_succ, Z.pow_succ_r by lia.
      rewrite Z.div_div by lia. reflexivity.
    + rewrite shr_1_m by assumption. apply Z.div_pos; lia.
Qed.

Lemma size_lower p : 2 ^ (Zpos (Pos.size p) - 1) <= Zpos p.
Proof.
  induction p as [p IH|p IH|]; simpl Pos.size.
  - rewrite Pos2Z.inj_succ. replace (Z.succ (Zpos (Pos.size p)) - 1) with (Z.succ (Zpos (Pos.size p) - 1)) by lia.
    rewrite Z.pow_succ_r by lia. lia.
  - rewrite Pos2Z.inj_succ. replace (Z.succ (Zpos (Pos.size p)) - 1) with (Z.succ (Zpos (Pos.size p) - 1)) by lia.
    rewrite Z.pow_succ_r by lia. lia.
  - simpl. lia.
Qed.

Section Fexp.
Variables prec emax : Z.
Hypothesis prec_pos : 0 < prec.
Hypothesis emin_neg : emin prec emax <= 0.

Lemma shr_fexp_positive m e l :
  0 < m -> emin prec emax <= e ->
  0 < shr_m (fst (shr_fexp prec emax m e l))
  /\ emin prec emax <= snd (shr_fexp prec emax m e l).
Proof.
  intros Hm He. unfold shr_fexp, shr.
  destruct m as [|q|q]; try lia. simpl Zdigits2.
  set (d := Zpos (digits2_pos q)).
  assert (shr_m (shr_record_of_loc (Zpos q) l) = Zpos q) as Hrec.
  { destruct l as [|[]]; reflexivity. }
  destruct (fexp prec emax (d + e) - e) as [|n|n] eqn:E; simpl.
  - rewrite Hrec. lia.
  - rewrite iter_pos_nat, shr_iter_m by (rewrite Hrec; lia).
    rewrite Hrec, positive_nat_Z. split.
    + apply Z.div_str_pos. split; [apply Z.pow_pos_nonneg; lia|].
      eapply Z.le_trans; [|apply size_lower].
      apply Z.pow_le_mono_r; [lia|].
      unfold fexp in E. subst d. rewrite digits2_pos_size in E. lia.
    + unfold fexp in E. lia.
  - rewrite Hrec. lia.
Qed.

Lemma binary_round_aux_nonzero sx mx ex lx :
  0 < mx -> emin prec emax <= ex ->
  forall s, binary_round_aux prec emax sx mx ex lx <> S754_zero s.
Proof.
  intros Hm He s. unfold binary_round_aux.
  destruct (shr_fexp_positive mx ex lx Hm He) as [P1 E1].
  destruct (shr_fexp prec emax mx ex lx) as [mrs' e'] eqn:S1. simpl in P1, E1.
  set (m2 := round_nearest_even (shr_m mrs') (loc_of_shr_record mrs')).
  assert (0 < m2) as P2.
  { unfold m2, round_nearest_even.
    destruct (loc_of_shr_record mrs') as [|[]]; try lia.
    destruct (Z.even (shr_m mrs')); lia. }
  destruct (shr_fexp_positive m2 e' loc_Exact P2 E1) as [P3 E3].
  destruct (shr_fexp prec emax m2 e' loc_Exact) as [mrs'' e''] eqn:S2.
  simpl in P3.
  destruct (shr_m mrs''); try lia.
  destruct (e'' <=? emax - prec); discriminate.
Qed.

Lemma binary_normalize_nonzero m szero :
  m <> 0 -> forall s, binary_normalize prec emax m 0 szero <> S754_zero s.
Proof.
  intros Hm s. unfold binary_normalize.
  destruct m as [|p|p]; try congruence; unfold binary_round.
  - destruct (shl_align p 0 (fexp prec emax (Zpos (digits2_pos p) + 0))) as [mz ez] eqn:A.
    apply binary_round_aux_nonzero; [lia|].
    unfold shl_align in A.
    destruct (fexp prec emax (Zpos (digits2_pos p) + 0) - 0) eqn:F;
      injection A as <- <-; unfold fexp in *; lia.
  - destruct (shl_align p 0 (fexp prec emax (Zpos (digits2_pos p) + 0))) as [mz ez] eqn:A.
    apply binary_round_aux_nonzero; [lia|].
    unfold shl_align in A.
    destruct (fexp prec emax (Zpos (digits2_pos p) + 0) - 0) eqn:F;
      injection A as <- <-; unfold fexp in *; lia.
Qed.
End Fexp.

Lemma float_of_int_nonzero z f :
  z <> 0 -> float_of_int z = Ok f -> forall s, f <> S754_zero s.
Proof.
  intros Hz H s. unfold float_of_int in H.
  assert (N := binary_normalize_nonzero prec emax eq_refl
                 ltac:(discriminate) z false Hz s).
  destruct (binary_normalize prec emax z 0 false); inversion H; subst;
    congruence.
Qed.

Lemma to_float_class n e :
  to_float n = Raise e -> exn_class e = OverflowError.
Proof.
  destruct n as [z|f]; simpl; [|discriminate].
  unfold float_of_int.
  destruct (binary_normalize prec emax z 0 false); intros H; inversion H;
    reflexivity.
Qed.

Lemma to_float_zero n s :
  to_float n = Ok (S754_zero s) -> num_is_zero n = true.
Proof.
  destruct n as [z|f]; simpl.
  - intros H. destruct (Z.eqb_spec z 0) as [|N]; [reflexivity|].
    now destruct (float_of_int_nonzero z _ N H s).
  - now intros [= ->].
Qed.

(** [a / b] raises nothing but [OverflowError], unless [b] is zero. *)
Lemma num_truediv_raises a b e :
  num_truediv a b = Raise e ->
  exn_class e = OverflowError
  \/ (exn_class e = ZeroDivisionError /\ num_is_zero b = true).
Proof.
  unfold num_truediv.
  assert (forall x y,
             res_bind (to_float x) (fun x' =>
             res_bind (to_float y) (fun y' =>
               match y' with
               | S754_zero _ => Raise float_zero_division
               | _ => Ok (PFloat (SFdiv prec emax x' y'))
               end)) = Raise e ->
             exn_class e = OverflowError
             \/ (exn_class e = ZeroDivisionError /\ num_is_zero y = true))
    as Mixed.
  { intros x y H.
    destruct (to_float x) as [x'|ex] eqn:X; simpl in H;
      [|injection H as <-; left; eapply to_float_class; eauto].
    destruct (to_float y) as [y'|ey] eqn:Y; simpl in H;
      [|injection H as <-; left; eapply to_float_class; eauto].
    destruct y'; try discriminate.
    injection H as <-. right. split; [reflexivity|].
    eapply to_float_zero; eauto. }
  destruct a as [x|x], b as [y|y]; try apply Mixed.
  destruct (Z.eqb_spec y 0) as [->|N].
  - intros [= <-]. right. split; reflexivity.
  - destruct (SFdiv prec emax (exact_float x) (exact_float y));
      intros H; inversion H. now left.
Qed.

Lemma num_gt_zero_nonzero n :
  num_gt n (NInt 0) = true -> num_is_zero n = false.
Proof.
  unfold num_gt. destruct n as [z|f]; simpl.
  - destruct (Z.compare_spec z 0); try discriminate.
    intros _. apply Z.eqb_neq. lia.
  - destruct f as [s|s| |s m x]; simpl; try discriminate; reflexivity.
Qed.

Lemma num_zero_not_positive n :
  num_is_zero n = true -> num_gt n (NInt 0) = false.
Proof.
  intros Z. destruct (num_gt n (NInt 0)) eqn:G; [|reflexivity].
  apply num_gt_zero_nonzero in G. congruence.
Qed.

Lemma num_arith_class (op : num -> num -> Res val) a b e :
  op = num_add \/ op = num_sub \/ op = num_mul ->
  op a b = Raise e -> exn_class e = OverflowError.
Proof.
  intros Hop H.
  assert (forall f, float_binop f a b = Raise e ->
                    exn_class e = OverflowError) as FB.
  { intros f. unfold float_binop.
    destruct (to_float a) eqn:A; simpl;
      [|intros [= <-]; eapply to_float_class; eauto].
    destruct (to_float b) eqn:B; simpl;
      [discriminate|intros [= <-]; eapply to_float_class; eauto]. }
  destruct Hop as [->|[->| ->]];
    destruct a, b; simpl in H; try discriminate; eapply FB; eauto.
Qed.

(** Comparing with a number asks nothing of the host. *)
Lemma py_gt_number list_gt a b n :
  as_num b = Some n ->
  py_gt list_gt a b =
  match as_num a with
  | Some m => Ok (num_gt m n)
  | None => Raise (order_error ">" a b)
  end.
Proof.
  intros B. unfold py_gt. rewrite B.
  destruct (as_num a) eqn:A; [reflexivity|].
  destruct a; try reflexivity; destruct b; try reflexivity; discriminate.
Qed.

(** ** compare_prices *)

Lemma get_price_result_dict llm json_loads symbol currency st :
  exists d, get_price_result llm json_loads symbol currency st = PDict d.
Proof.
  unfold get_price_result, unsupported_result, failure_result, quote_result.
  destruct (dict_find _ _); [|eexists; reflexivity].
  destruct (fetch _ _ _ _ _) as [[]|]; eexists; reflexivity.
Qed.

Lemma py_truediv_guarded p1 p2 n2 e :
  as_num p2 = Some n2 -> num_gt n2 (NInt 0) = true ->
  py_truediv p1 p2 = Raise e -> exn_class e <> ZeroDivisionError.
Proof.
  intros N2 G. unfold py_truediv. rewrite N2.
  destruct (as_num p1) as [n1|]; [|intros [= <-]; discriminate].
  intros H. apply num_truediv_raises in H.
  apply num_gt_zero_nonzero in G.
  destruct H as [-> | [_ Z]]; [discriminate | congruence].
Qed.

(** C5, as the code has it.  [compare_prices] never raises
    [ZeroDivisionError].  When both fetches succeed with prices that are
    numbers, [ratio] is [price1 / price2] if [price2 > 0] and [0] otherwise
    -- for a zero, a negative and a NaN [price2] alike -- and [higher] is
    [symbol1] if [price1 > price2] and [symbol2] otherwise. *)
Theorem compare_prices_guards_ratio :
  forall llm json_loads list_gt symbol1 symbol2 st,
    (forall e,
        fst (PriceFeedLibrary.compare_prices
               llm json_loads list_gt symbol1 symbol2 st) = Raise e ->
        exn_class e <> ZeroDivisionError)
    /\ (forall q1 st1 q2 st2 price1 price2 n1 n2,
          PriceFeedLibrary.get_price llm json_loads symbol1 "usd" st
          = (Ok q1, st1) ->
          PriceFeedLibrary.get_price llm json_loads symbol2 "usd" st1
          = (Ok q2, st2) ->
          succeeded q1 = true -> succeeded q2 = true ->
          py_get q1 "price" (PInt 0) = Ok price1 ->
          py_get q2 "price" (PInt 0) = Ok price2 ->
          as_num price1 = Some n1 -> as_num price2 = Some n2 ->
          let higher := if num_gt n1 n2 then symbol1 else symbol2 in
          (num_gt n2 (NInt 0) = true ->
           forall ratio,
             py_truediv price1 price2 = Ok ratio ->
             PriceFeedLibrary.compare_prices
               llm json_loads list_gt symbol1 symbol2 st
             = (Ok (comparison_result symbol1 symbol2 price1 price2
                                      ratio higher), st2))
          /\ (num_gt n2 (NInt 0) = false ->
              PriceFeedLibrary.compare_prices
                llm json_loads list_gt symbol1 symbol2 st
              = (Ok (comparison_result symbol1 symbol2 price1 price2
                                       (PInt 0) higher), st2))).
Proof.
  intros llm json_loads list_gt symbol1 symbol2 st. split.
  - intros e. unfold PriceFeedLibrary.compare_prices, bind.
    rewrite get_price_run. rewrite get_price_run.
    destruct (get_price_result_dict llm json_loads symbol1 "usd" st)
      as [d1 ->].
    destruct (get_price_result_dict
                llm json_loads symbol2 "usd"
                (get_price_state llm json_loads symbol1 "usd" st))
      as [d2 ->].
    unfold lift, ret. simpl.
    destruct (negb (truthy _)); simpl; [discriminate|].
    destruct (negb (truthy _)); simpl; [discriminate|].
    set (p1 := match dict_find d1 "price" with Some x => x | None => PInt 0 end).
    set (p2 := match dict_find d2 "price" with Some x => x | None => PInt 0 end).
    rewrite (py_gt_number list_gt p2 (PInt 0) (NInt 0) eq_refl).
    destruct (as_num p2) as [n2|] eqn:N2; simpl; [|intros [= <-]; discriminate].
    rewrite (py_gt_number list_gt p1 p2 n2 N2).
    destruct (num_gt n2 (NInt 0)) eqn:G; simpl.
    + destruct (py_truediv p1 p2) as [r|e'] eqn:D; simpl.
      * destruct (as_num p1); simpl; [discriminate|intros [= <-]; discriminate].
      * intros [= <-]. eapply py_truediv_guarded; eauto.
    + destruct (as_num p1); simpl; [discriminate|intros [= <-]; discriminate].
  - intros q1 st1 q2 st2 price1 price2 n1 n2 R1 R2 S1 S2 P1 P2 N1 N2 higher.
    unfold PriceFeedLibrary.compare_prices, bind. rewrite R1, R2.
    unfold succeeded in S1, S2. unfold lift, ret.
    destruct (py_get q1 "success" PNone) as [ok1|]; [|discriminate].
    rewrite S1. simpl.
    destruct (py_get q2 "success" PNone) as [ok2|]; [|discriminate].
    rewrite S2. simpl. rewrite P1, P2.
    rewrite (py_gt_number list_gt price2 (PInt 0) (NInt 0) eq_refl), N2.
    rewrite (py_gt_number list_gt price1 price2 n2 N2), N1.
    split.
    + intros G ratio D. rewrite G, D. reflexivity.
    + intros G. rewrite G. reflexivity.
Qed.

(** ** is_price_above *)

Lemma py_sub_class a b e :
  py_sub a b = Raise e -> exn_class e <> ZeroDivisionError.
Proof.
  unfold py_sub.
  destruct (as_num a) as [x|], (as_num b) as [y|]; intros H;
    try raised_type_error H.
  apply (num_arith_class num_sub) in H; [rewrite H; discriminate | auto].
Qed.

Lemma sequence_repeat_class seq n e :
  sequence_repeat seq n = Raise e -> exn_class e <> ZeroDivisionError.
Proof.
  unfold sequence_repeat. intros H.
  destruct n; try raised_type_error H;
    destruct (_ && _); try raised_type_error H;
    destruct seq; raised_type_error H.
Qed.

Lemma py_mul_class a b e :
  py_mul a b = Raise e -> exn_class e <> ZeroDivisionError.
Proof.
  unfold py_mul. intros H.
  assert ((if is_sequence a then sequence_repeat a b
           else if is_sequence b then sequence_repeat b a
                else Raise (operand_error "*" a b)) = Raise e ->
          exn_class e <> ZeroDivisionError) as Seq.
  { destruct (is_sequence a); [apply sequence_repeat_class|].
    destruct (is_sequence b); [apply sequence_repeat_class|].
    intros [= <-]. discriminate. }
  destruct (as_num a) as [x|], (as_num b) as [y|]; try (now apply Seq).
  apply (num_arith_class num_mul) in H; [rewrite H; discriminate | auto].
Qed.

Lemma py_iadd_class a b e :
  py_iadd a b = Raise e -> exn_class e <> ZeroDivisionError.
Proof.
  unfold py_iadd. intros H.
  assert (match a with
          | PStr s =>
              match b with
              | PStr t => Ok (PStr (s ++ t))
              | _ =>
                  Raise (Exn TypeError
                             ("can only concatenate str (not "
                                ++ String (ascii_of_nat 34) (type_name b)
                                ++ String (ascii_of_nat 34) ") to str"))
              end
          | PList l => res_bind (py_iter b) (fun m => Ok (PList (l ++ m)%list))
          | _ => Raise (operand_error "+=" a b)
          end = Raise e -> exn_class e <> ZeroDivisionError) as Seq.
  { destruct a, b; simpl; intros E; raised_type_error E. }
  destruct (as_num a) as [x|], (as_num b) as [y|]; try (now apply Seq).
  apply (num_arith_class num_add) in H; [rewrite H; discriminate | auto].
Qed.

Lemma py_gt_class list_gt a b e :
  (forall l, b <> PList l) ->
  py_gt list_gt a b = Raise e -> exn_class e = TypeError.
Proof.
  intros N. unfold py_gt.
  destruct (as_num a), (as_num b); intros H; try discriminate H;
    destruct a; try (injection H as <-; reflexivity);
    destruct b; try discriminate H; try (injection H as <-; reflexivity);
    now destruct (N l0).
Qed.

Lemma percentage_formula_guarded price threshold t e :
  as_num threshold = Some t -> num_gt t (NInt 0) = true ->
  percentage_formula price threshold = Raise e ->
  exn_class e <> ZeroDivisionError.
Proof.
  intros T G. unfold percentage_formula.
  destruct (py_sub price threshold) as [d|e1] eqn:S; simpl;
    [|intros [= <-]; eapply py_sub_class; eauto].
  destruct (py_truediv d threshold) as [q|e2] eqn:D; simpl;
    [|intros [= <-]; eapply py_truediv_guarded; eauto].
  apply py_mul_class.
Qed.

Lemma num_sub_number n t d :
  num_sub n t = Ok d -> exists k, as_num d = Some k.
Proof.
  destruct n, t; simpl; unfold float_binop;
    try (intros [= <-]; eexists; reflexivity);
    destruct (to_float _); simpl; try discriminate;
    try (destruct (float_of_int _); simpl; try discriminate);
    intros [= <-]; eexists; reflexivity.
Qed.

Lemma num_truediv_float a b q :
  num_truediv a b = Ok q -> exists f, q = PFloat f.
Proof.
  unfold num_truediv.
  assert (forall x y,
             res_bind (to_float x) (fun x' =>
             res_bind (to_float y) (fun y' =>
               match y' with
               | S754_zero _ => Raise float_zero_division
               | _ => Ok (PFloat (SFdiv prec emax x' y'))
               end)) = Ok q -> exists f, q = PFloat f) as Mixed.
  { intros x y. destruct (to_float x); simpl; [|discriminate].
    destruct (to_float y) as [[]|]; simpl; try discriminate;
      intros [= <-]; eexists; reflexivity. }
  destruct a as [x|x], b as [y|y]; try apply Mixed.
  destruct (y =? 0); [discriminate|].
  destruct (SFdiv prec emax (exact_float x) (exact_float y));
    try discriminate; intros [= <-]; eexists; reflexivity.
Qed.

(** On two numbers the subtraction raises nothing but [OverflowError]. *)
Lemma py_sub_overflow price threshold n t e :
  as_num price = Some n -> as_num threshold = Some t ->
  py_sub price threshold = Raise e -> exn_class e = OverflowError.
Proof.
  intros N T. unfold py_sub. rewrite N, T.
  apply (num_arith_class num_sub). auto.
Qed.

(** On two numbers, the threshold positive, the percentage raises nothing
    but [OverflowError]. *)
Lemma percentage_formula_overflow price threshold n t e :
  as_num price = Some n -> as_num threshold = Some t ->
  num_gt t (NInt 0) = true ->
  percentage_formula price threshold = Raise e ->
  exn_class e = OverflowError.
Proof.
  intros N T G. unfold percentage_formula.
  destruct (py_sub price threshold) as [d|e1] eqn:S; simpl;
    [|intros [= <-]; exact (py_sub_overflow _ _ _ _ _ N T S)].
  unfold py_sub in S. rewrite N, T in S.
  destruct (num_sub_number _ _ _ S) as [k K].
  unfold py_truediv. rewrite K, T.
  destruct (num_truediv k t) as [q|e2] eqn:D; simpl.
  - destruct (num_truediv_float _ _ _ D) as [f ->].
    unfold py_mul. cbn [as_num]. apply (num_arith_class num_mul). auto.
  - intros [= <-]. apply num_truediv_raises in D.
    apply num_gt_zero_nonzero in G.
    destruct D as [D | [_ Z]]; [exact D | congruence].
Qed.

(** C8, as the code has it.  [is_price_above] never raises
    [ZeroDivisionError] (for a list threshold the ordering of lists is the
    host's and is left out).  When the fetch succeeds with a price that is
    a number and the threshold is a number, the call returns unless
    [current_price - threshold] or, for [threshold > 0], the percentage
    cannot be computed because an integer is too large for a float: it
    raises that [OverflowError] then.  When it returns, [percentage_diff]
    is [(current_price - threshold) / threshold * 100] if [threshold > 0]
    and [0] otherwise -- for a zero, a negative and a NaN threshold
    alike. *)
Theorem is_price_above_guards_percentage :
  forall llm json_loads list_gt symbol threshold currency st,
    ((forall l, threshold <> PList l) ->
     forall e,
       fst (PriceFeedLibrary.is_price_above
              llm json_loads list_gt symbol threshold currency st) = Raise e ->
       exn_class e <> ZeroDivisionError)
    /\ (forall q st1 price n t,
          PriceFeedLibrary.get_price llm json_loads symbol currency st
          = (Ok q, st1) ->
          succeeded q = true ->
          py_get q "price" (PInt 0) = Ok price ->
          as_num price = Some n -> as_num threshold = Some t ->
          let run := PriceFeedLibrary.is_price_above
                       llm json_loads list_gt symbol threshold currency st in
          (forall difference,
              py_sub price threshold = Ok difference ->
              (num_gt t (NInt 0) = true ->
               forall percentage_diff,
                 percentage_formula price threshold = Ok percentage_diff ->
                 run = (Ok (above_result symbol price threshold (num_gt n t)
                                         difference percentage_diff), st1))
              /\ (num_gt t (NInt 0) = false ->
                  run = (Ok (above_result symbol price threshold (num_gt n t)
                                          difference (PInt 0)), st1)))
          /\ (forall e,
                py_sub price threshold = Raise e ->
                exn_class e = OverflowError /\ run = (Raise e, st1))
          /\ (forall e,
                num_gt t (NInt 0) = true ->
                percentage_formula price threshold = Raise e ->
                exn_class e = OverflowError /\ run = (Raise e, st1))).
Proof.
  intros llm json_loads list_gt symbol threshold currency st. split.
  - intros NL e. unfold PriceFeedLibrary.is_price_above, bind.
    rewrite get_price_run.
    destruct (get_price_result_dict llm json_loads symbol currency st)
      as [d ->].
    unfold lift, ret. simpl.
    destruct (negb (truthy _)); simpl; [discriminate|].
    set (p := match dict_find d "price" with Some x => x | None => PInt 0 end).
    destruct (py_gt list_gt p threshold) as [above|e1] eqn:A; simpl;
      [|intros [= <-]; rewrite (py_gt_class _ _ _ _ NL A); discriminate].
    destruct (py_sub p threshold) as [diff|e2] eqn:S; simpl;
      [|intros [= <-]; eapply py_sub_class; eauto].
    rewrite (py_gt_number list_gt threshold (PInt 0) (NInt 0) eq_refl).
    destruct (as_num threshold) as [t|] eqn:T; simpl;
      [|intros [= <-]; discriminate].
    destruct (num_gt t (NInt 0)) eqn:G; simpl; [|discriminate].
    destruct (py_truediv diff threshold) as [quot|e3] eqn:D; simpl;
      [|intros [= <-]; eapply py_truediv_guarded; eauto].
    destruct (py_mul quot (PInt 100)) as [pct|e4] eqn:M; simpl;
      [discriminate|intros [= <-]; eapply py_mul_class; eauto].
  - intros q st1 price n t R S P N T run. subst run.
    unfold PriceFeedLibrary.is_price_above, bind. rewrite R.
    unfold succeeded in S. unfold lift, ret.
    destruct (py_get q "success" PNone) as [ok|]; [|discriminate].
    rewrite S. simpl. rewrite P.
    rewrite (py_gt_number list_gt price threshold t T), N.
    rewrite (py_gt_number list_gt threshold (PInt 0) (NInt 0) eq_refl), T.
    split; [|split].
    + intros difference Diff. rewrite Diff. split.
      * intros G pct F. rewrite G. unfold percentage_formula in F.
        rewrite Diff in *. simpl in F.
        destruct (py_truediv difference threshold) as [quot|]; [|discriminate].
        simpl in F. rewrite F. reflexivity.
      * intros G. rewrite G. reflexivity.
    + intros e Diff. split; [exact (py_sub_overflow _ _ _ _ _ N T Diff)|].
      rewrite Diff. reflexivity.
    + intros e G F.
      split; [exact (percentage_formula_overflow _ _ _ _ _ N T G F)|].
      rewrite G. unfold percentage_formula in F.
      destruct (py_sub price threshold) as [difference|e1]; simpl in F;
        [|injection F as <-; reflexivity].
      destruct (py_truediv difference threshold) as [quot|e2]; simpl in F;
        [|injection F as <-; reflexivity].
      rewrite F. reflexivity.
Qed.

(** ** Alerts *)

Lemma py_eq_str_true v s : py_eq_str v s = true -> v = PStr s.
Proof.
  destruct v; simpl; try discriminate.
  intros H. apply String.eqb_eq in H. now subst.
Qed.

Section CheckAlerts.
Variable llm : list string -> string -> Res string.
Variable json_loads : string -> Res val.
Variable list_gt : list val -> list val -> Res bool.

Lemma check_alerts_loop_reports alerts :
  forall (known : val -> Prop) triggered st out st',
    (forall alert, In alert alerts -> known alert) ->
    PriceFeedExample.check_alerts_loop
      llm json_loads list_gt alerts triggered st = (Ok out, st') ->
    Forall (fun entry => exists alert, known alert /\ triggered_by alert entry)
           triggered ->
    Forall (fun entry => exists alert, known alert /\ triggered_by alert entry)
           out.
Proof.
  induction alerts as [|alert rest IH]; intros known triggered st out st' K R F.
  - simpl in R. injection R as <- <-. exact F.
  - assert (forall a, In a rest -> known a) as K' by (intros; apply K; now right).
    assert (known alert) as Ka by (apply K; now left).
    simpl in R. unfold bind, lift, ret in R.
    repeat step R;
      (eapply IH; [exact K' | exact R | ]); try exact F;
      (apply Forall_app; split; [exact F | constructor; [|constructor]]);
      exists alert; (split; [exact Ka|]);
      do 4 eexists; (repeat split; try eassumption);
      match goal with
      | T : py_eq_str _ "above" && _ = true |- _ =>
          left; apply andb_prop in T; now apply py_eq_str_true
      | T : py_eq_str _ "below" && _ = true |- _ =>
          right; apply andb_prop in T; now apply py_eq_str_true
      end.
Qed.
End CheckAlerts.

Lemma is_price_above_succeeded llm json_loads list_gt symbol threshold currency
      st result st1 :
  PriceFeedLibrary.is_price_above
    llm json_loads list_gt symbol threshold currency st = (Ok result, st1) ->
  succeeded result = true ->
  exists price above difference percentage_diff,
    result = above_result symbol price threshold above
                          difference percentage_diff
    /\ py_gt list_gt price threshold = Ok above.
Proof.
  unfold PriceFeedLibrary.is_price_above, bind. rewrite get_price_run.
  destruct (get_price_result_dict llm json_loads symbol currency st) as [d ->].
  unfold lift, ret. simpl. intros R S.
  destruct (truthy _) eqn:T; simpl in R.
  - repeat step R; injection R as <- <-; do 4 eexists;
      (split; [reflexivity | eassumption]).
  - injection R as <- <-. unfold succeeded in S. simpl in S. congruence.
Qed.

(** C6, as the code has it.  Take an active alert as [set_price_alert]
    stores it, for which [is_price_above] reports success.  Its turn in the
    loop of [check_alerts] adds its entry to the triggered ones exactly
    when its type is "above" and [current_price > threshold] holds, or its
    type is "below" and [current_price > threshold] does not hold.  For two
    numbers that can be ordered the latter is [current_price <= threshold]
    -- so at equality a "below" alert triggers and an "above" alert does
    not -- and when one of them is NaN it holds as well. *)
Theorem alert_triggers_on_above_or_its_negation :
  forall llm json_loads list_gt symbol threshold alert_type rest triggered
         st result st1,
    PriceFeedLibrary.is_price_above
      llm json_loads list_gt symbol threshold "usd" st = (Ok result, st1) ->
    succeeded result = true ->
    exists price above,
      py_get result "current_price" PNone = Ok price
      /\ py_gt list_gt price threshold = Ok above
      /\ PriceFeedExample.check_alerts_loop
           llm json_loads list_gt
           (alert_of (PStr symbol) threshold alert_type :: rest) triggered st
         = PriceFeedExample.check_alerts_loop
             llm json_loads list_gt rest
             (if (py_eq_str alert_type "above" && above)
                 || (py_eq_str alert_type "below" && negb above)
              then (triggered ++
                      [triggered_entry (PStr symbol) threshold price
                                       alert_type])%list
              else triggered)
             st1
      /\ (forall n t,
            as_num price = Some n -> as_num threshold = Some t ->
            above = num_gt n t
            /\ (num_compare n t <> None -> negb above = num_le n t)
            /\ (num_compare n t = Some Eq -> above = false)
            /\ (num_compare n t = None -> above = false)).
Proof.
  intros llm json_loads list_gt symbol threshold alert_type rest triggered
         st result st1 R S.
  destruct (is_price_above_succeeded _ _ _ _ _ _ _ _ _ R S)
    as (price & above & difference & pct & -> & G).
  exists price, above. split; [reflexivity|]. split; [exact G|]. split.
  - cbn [PriceFeedExample.check_alerts_loop]. unfold bind, lift, ret.
    cbn -[PriceFeedLibrary.is_price_above PriceFeedExample.check_alerts_loop].
    rewrite R.
    cbn -[PriceFeedLibrary.is_price_above PriceFeedExample.check_alerts_loop].
    destruct (py_eq_str alert_type "above" && above) eqn:A;
      cbn -[PriceFeedExample.check_alerts_loop].
    + reflexivity.
    + destruct (py_eq_str alert_type "below" && negb above); reflexivity.
  - intros n t N T. rewrite (py_gt_number list_gt price threshold t T), N in G.
    injection G as <-. unfold num_gt, num_le.
    destruct (num_compare n t) as [[]|]; repeat split; congruence.
Qed.

(** C10: [set_price_alert] stores an alert of any type, appended to the
    sender's list, and reports success; and whatever [check_alerts] reports
    as triggered comes from an alert of the sender whose type is the string
    "above" or the string "below", the entry carrying that type: an alert
    of any other type is never reported, whatever the price. *)
Theorem alert_of_unknown_type_is_stored_and_never_triggers :
  forall llm json_loads list_gt py_str,
    (forall sender symbol threshold alert_type self,
        let r := PriceFeedExample.set_price_alert
                   py_str sender symbol threshold alert_type self in
        let before :=
          match dict_find (PriceFeedExample.user_alerts self) sender with
          | Some alerts => alerts
          | None => []
          end in
        succeeded (fst r) = true
        /\ py_get (fst r) "alert" PNone
           = Ok (alert_of symbol threshold alert_type)
        /\ dict_find (PriceFeedExample.user_alerts (snd r)) sender
           = Some (before ++ [alert_of symbol threshold alert_type])%list)
    /\ (forall sender self st out st',
          PriceFeedExample.check_alerts llm json_loads list_gt sender self st
          = (Ok out, st') ->
          exists triggered,
            py_get out "triggered_alerts" PNone = Ok (PList triggered)
            /\ Forall
                 (fun entry =>
                    exists alerts alert,
                      dict_find (PriceFeedExample.user_alerts self) sender
                      = Some alerts
                      /\ In alert alerts
                      /\ triggered_by alert entry
                      /\ (py_get entry "type" PNone = Ok (PStr "above")
                          \/ py_get entry "type" PNone = Ok (PStr "below")))
                 triggered).
Proof.
  intros llm json_loads list_gt py_str. split.
  - intros sender symbol threshold alert_type self r before.
    subst r before. unfold PriceFeedExample.set_price_alert. simpl.
    split; [reflexivity|]. split; [reflexivity|].
    rewrite dict_find_set_same. unfold dict_mem.
    destruct (dict_find (PriceFeedExample.user_alerts self) sender) eqn:F.
    + now rewrite F.
    + now rewrite dict_find_set_same.
  - intros sender self st out st' R.
    unfold PriceFeedExample.check_alerts in R.
    destruct (dict_find (PriceFeedExample.user_alerts self) sender)
      as [alerts|] eqn:F.
    + unfold bind, ret in R.
      destruct (PriceFeedExample.check_alerts_loop
                  llm json_loads list_gt alerts [] st) as [[triggered|e] st2]
                                                          eqn:L;
        [|discriminate].
      injection R as <- <-. exists triggered. split; [reflexivity|].
      assert (Forall (fun entry =>
                        exists alert, In alert alerts
                                      /\ triggered_by alert entry) triggered)
        as A.
      { eapply (check_alerts_loop_reports
                  llm json_loads list_gt alerts (fun a => In a alerts));
          eauto. }
      eapply Forall_impl; [|exact A].
      intros entry (alert & I & T). exists alerts, alert.
      repeat split; auto.
      destruct T as (sy & th & ty & pr & _ & _ & _ & [-> | ->] & ->);
        [left | right]; reflexivity.
    + injection R as <- <-. exists []. split; [reflexivity | constructor].
Qed.

(** ** check_portfolio_value *)

Section Portfolio.
Variable llm : list string -> string -> Res string.
Variable json_loads : string -> Res val.
Variable list_gt : list val -> list val -> Res bool.

Lemma call_get_price symbol st :
  PriceFeedExample.call_contract
    llm json_loads list_gt "get_price" [PStr symbol; PStr "usd"] st
  = PriceFeedLibrary.get_price llm json_loads symbol "usd" st.
Proof.
  unfold PriceFeedExample.call_contract, bind, lift.
  cbn -[PriceFeedLibrary.get_price].
  now destruct (PriceFeedLibrary.get_price llm json_loads symbol "usd" st)
    as [[|] ?].
Qed.
End Portfolio.

Lemma dict_set_fresh {V} (d : list (string * V)) k v :
  dict_find d k = None -> dict_set d k v = (d ++ [(k, v)])%list.
Proof.
  induction d as [|[k' v'] d IH]; simpl; auto.
  destruct (String.eqb k' k); [discriminate|].
  intros H. now rewrite IH.
Qed.

Lemma dict_find_app_fresh {V} (d : list (string * V)) k k' v :
  dict_find d k = None -> k' <> k ->
  dict_find (d ++ [(k', v)])%list k = None.
Proof.
  intros H N. induction d as [|[k0 v0] d IH]; simpl in *.
  - apply String.eqb_neq in N. now rewrite N.
  - destruct (String.eqb k0 k); [discriminate | auto].
Qed.

Section PortfolioLoop.
Variable llm : list string -> string -> Res string.
Variable json_loads : string -> Res val.
Variable list_gt : list val -> list val -> Res bool.

Lemma quotes_of_total holdings :
  forall st, exists quotes st',
    quotes_of llm json_loads holdings st = (Ok quotes, st')
    /\ map holding_of quotes = holdings.
Proof.
  induction holdings as [|[symbol amount] rest IH]; intros st.
  - exists [], st. split; reflexivity.
  - simpl. unfold bind at 1. rewrite get_price_run.
    destruct (IH (get_price_state llm json_loads symbol "usd" st))
      as (quotes & st' & Q & H).
    unfold bind, ret. rewrite Q.
    eexists; eexists. split; [reflexivity|]. simpl. now rewrite H.
Qed.

Lemma check_portfolio_value_loop_spec holdings :
  forall total breakdown st total' breakdown' st',
    PriceFeedExample.check_portfolio_value_loop
      llm json_loads list_gt holdings total breakdown st
    = (Ok (total', breakdown'), st') ->
    NoDup (map fst holdings) ->
    (forall s, In s (map fst holdings) -> dict_find breakdown s = None) ->
    exists quotes items,
      quotes_of llm json_loads holdings st = (Ok quotes, st')
      /\ valued quotes = Ok items
      /\ breakdown' = (breakdown ++ items)%list
      /\ sum_values total items = Ok total'.
Proof.
  induction holdings as [|[symbol amount] rest IH];
    intros total breakdown st total' breakdown' st' R N Fresh.
  - simpl in R. injection R as <- <- <-.
    exists [], []. simpl. rewrite app_nil_r. repeat split; reflexivity.
  - cbn [PriceFeedExample.check_portfolio_value_loop] in R.
    unfold bind at 1 in R. rewrite call_get_price, get_price_run in R.
    cbn [quotes_of]. unfold bind at 1. rewrite get_price_run.
    set (q := get_price_result llm json_loads symbol "usd" st) in *.
    set (st1 := get_price_state llm json_loads symbol "usd" st) in *.
    inversion N as [|? ? NI N']; subst.
    destruct (get_price_result_dict llm json_loads symbol "usd" st)
      as [d Hq]. fold q in Hq.
    assert (succeeded q
            = truthy match dict_find d "success" with
                     | Some x => x | None => PNone end) as Hs.
    { rewrite Hq. reflexivity. }
    unfold bind, lift in R. rewrite Hq in R. cbn [py_get] in R.
    destruct (truthy _) eqn:T in R.
    + destruct (py_mul _ amount) as [value|] eqn:Mu in R; [|discriminate].
      destruct (py_iadd total value) as [total1|] eqn:Ad in R; [|discriminate].
      rewrite dict_set_fresh in R by (apply Fresh; now left).
      apply IH in R; auto.
      * destruct R as (quotes & items & Q & V & -> & S).
        unfold bind, ret. rewrite Q.
        eexists; eexists. split; [reflexivity|].
        cbn [valued]. rewrite Hs, T, Hq. cbn [py_get res_bind].
        rewrite Mu. cbn [res_bind]. rewrite V. cbn [res_bind].
        split; [reflexivity|]. split; [now rewrite <- app_assoc|].
        cbn [sum_values breakdown_item py_get dict_find String.eqb
                        Ascii.eqb Bool.eqb res_bind].
        rewrite Ad. exact S.
      * intros s I. apply dict_find_app_fresh.
        -- apply Fresh. now right.
        -- intros ->. contradiction.
    + apply IH in R; auto; try (intros s I; apply Fresh; now right).
      destruct R as (quotes & items & Q & V & -> & S).
      unfold bind, ret. rewrite Q.
      exists ((symbol, amount, q) :: quotes), items.
      split; [reflexivity|].
      cbn [valued]. rewrite Hs, T. repeat split; assumption.
Qed.
End PortfolioLoop.

Lemma valued_keys quotes :
  forall items, valued quotes = Ok items ->
  forall s, In s (dict_keys items) <->
            exists amount q, In (s, amount, q) quotes /\ succeeded q = true.
Proof.
  induction quotes as [|[[symbol amount] q] rest IH]; intros items V s.
  - injection V as <-. simpl. split; [tauto|]. now intros (? & ? & [] & _).
  - cbn [valued] in V. destruct (succeeded q) eqn:S.
    + destruct (py_get q "price" (PInt 0)) as [price|]; [|discriminate].
      cbn [res_bind] in V.
      destruct (py_mul price amount) as [value|]; [|discriminate].
      cbn [res_bind] in V.
      destruct (valued rest) as [items'|]; [|discriminate].
      injection V as <-. simpl. rewrite (IH items' eq_refl s). split.
      * intros [<- | (a & q' & I & S')]; eauto 6.
      * intros (a & q' & [E | I] & S'); [left; congruence | right; eauto].
    + rewrite (IH items V s). split.
      * intros (a & q' & I & S'). exists a, q'. split; [now right | auto].
      * intros (a & q' & [E | I] & S'); [congruence | eauto].
Qed.

Lemma valued_entry quotes :
  forall items, valued quotes = Ok items ->
  NoDup (map symbol_of quotes) ->
  forall s amount q,
    In (s, amount, q) quotes -> succeeded q = true ->
    exists price value,
      py_get q "price" (PInt 0) = Ok price
      /\ py_mul price amount = Ok value
      /\ dict_find items s = Some (breakdown_item amount price value).
Proof.
  induction quotes as [|[[symbol amount0] q0] rest IH];
    intros items V N s amount q I S; [destruct I|].
  inversion N as [|? ? NI N']; subst.
  cbn [valued] in V. destruct I as [E | I].
  - injection E as -> -> ->. rewrite S in V.
    destruct (py_get q "price" (PInt 0)) as [price|] eqn:P; [|discriminate].
    cbn [res_bind] in V.
    destruct (py_mul price amount) as [value|] eqn:M; [|discriminate].
    cbn [res_bind] in V.
    destruct (valued rest) as [items'|]; [|discriminate].
    injection V as <-. exists price, value.
    cbn [dict_find]. rewrite String.eqb_refl. repeat split; assumption.
  - assert (symbol <> s) as D.
    { intros ->. apply NI. apply (in_map symbol_of) in I. exact I. }
    destruct (succeeded q0).
    + destruct (py_get q0 "price" (PInt 0)) as [price0|]; [|discriminate].
      cbn [res_bind] in V.
      destruct (py_mul price0 amount0) as [value0|]; [|discriminate].
      cbn [res_bind] in V.
      destruct (valued rest) as [items'|] eqn:V'; [|discriminate].
      injection V as <-.
      destruct (IH items' eq_refl N' s amount q I S) as (p & v & P & M & F).
      exists p, v. cbn [dict_find]. apply String.eqb_neq in D. rewrite D.
      repeat split; assumption.
    + eapply IH; eauto.
Qed.

Lemma valued_excludes quotes items s amount q :
  valued quotes = Ok items ->
  NoDup (map symbol_of quotes) ->
  In (s, amount, q) quotes -> succeeded q = false ->
  dict_find items s = None.
Proof.
  intros V N I S.
  destruct (dict_find items s) eqn:F; [|reflexivity].
  assert (In s (dict_keys items)) as K.
  { apply dict_find_In. congruence. }
  apply (valued_keys quotes items V) in K.
  destruct K as (a' & q' & I' & S').
  assert (q' = q); [|congruence].
  clear - N I I'. induction quotes as [|x rest IH]; [destruct I|].
  inversion N as [|? ? NI N']; subst.
  destruct I as [-> | I], I' as [E | I'].
  - congruence.
  - destruct NI. apply (in_map symbol_of) in I'. exact I'.
  - subst x. destruct NI. apply (in_map symbol_of) in I. exact I.
  - auto.
Qed.

Section PortfolioValue.
Variable llm : list string -> string -> Res string.
Variable json_loads : string -> Res val.
Variable list_gt : list val -> list val -> Res bool.

Lemma check_portfolio_value_loop_returns holdings :
  forall total breakdown st quotes st',
    quotes_of llm json_loads holdings st = (Ok quotes, st') ->
    Forall float_quote quotes ->
    total = PInt 0 \/ (exists f, total = PFloat f) ->
    exists r,
      PriceFeedExample.check_portfolio_value_loop
        llm json_loads list_gt holdings total breakdown st = (Ok r, st').
Proof.
  induction holdings as [|[symbol amount] rest IH];
    intros total breakdown st quotes st' Q F T.
  - simpl in Q. injection Q as <- <-. eexists. reflexivity.
  - cbn [quotes_of] in Q. unfold bind at 1 in Q. rewrite get_price_run in Q.
    cbn [PriceFeedExample.check_portfolio_value_loop].
    unfold bind at 1. rewrite call_get_price, get_price_run.
    set (q := get_price_result llm json_loads symbol "usd" st) in *.
    set (st1 := get_price_state llm json_loads symbol "usd" st) in *.
    unfold bind, ret in Q.
    destruct (quotes_of llm json_loads rest st1) as [[quotes'|] st2] eqn:Q';
      [|discriminate].
    injection Q as <- <-. inversion F as [|? ? Fq F']; subst.
    destruct (get_price_result_dict llm json_loads symbol "usd" st)
      as [d Hq]. fold q in Hq.
    unfold float_quote, succeeded in Fq. cbn [fst snd] in Fq.
    unfold bind, lift. rewrite Hq in *. cbn [py_get] in *.
    destruct (truthy _).
    + destruct (Fq eq_refl) as (p & a & P & ->). injection P as ->.
      cbn [py_mul as_num num_mul float_binop to_float res_bind].
      destruct T as [-> | [f ->]];
        (eapply IH; [exact Q' | exact F' | right; eexists; reflexivity]).
    + eapply IH; eauto.
Qed.

Lemma quotes_symbols quotes holdings :
  map holding_of quotes = holdings ->
  map symbol_of quotes = map fst holdings.
Proof.
  intros <-. rewrite map_map. reflexivity.
Qed.
End PortfolioValue.

(** What a valuation that returns owes to its quotes.  The valuation
    fetches a quote for every holding, in order.  When it returns, its
    result is
    [{"total_value_usd": ..., "breakdown": ..., "currency": "USD"}] -- no
    flag tells success from partial failure -- where [breakdown] has no
    entry for a symbol whose fetch failed, has the entry
    [{"amount", "price", "value": price * amount}] for every symbol whose
    fetch succeeded, and nothing else, and the total is the sum of those
    values.  It does return when the prices fetched and the amounts held are
    floats; [get_price] passes on a price of any type, and the arithmetic
    on one that is not a number raises. *)
Theorem check_portfolio_value_counts_successes_only :
  forall llm json_loads list_gt holdings st,
    NoDup (map fst holdings) ->
    exists quotes st',
      quotes_of llm json_loads holdings st = (Ok quotes, st')
      /\ map holding_of quotes = holdings
      /\ (Forall float_quote quotes ->
          exists out,
            PriceFeedExample.check_portfolio_value
              llm json_loads list_gt holdings st = (Ok out, st'))
      /\ (forall out st'',
            PriceFeedExample.check_portfolio_value
              llm json_loads list_gt holdings st = (Ok out, st'') ->
            st'' = st'
            /\ exists total breakdown,
                out = PDict [ ("total_value_usd", total);
                              ("breakdown", PDict breakdown);
                              ("currency", PStr "USD") ]
                /\ sum_values (PInt 0) breakdown = Ok total
                /\ (forall symbol,
                      In symbol (dict_keys breakdown) <->
                      exists amount q,
                        In (symbol, amount, q) quotes /\ succeeded q = true)
                /\ (forall symbol amount q,
                      In (symbol, amount, q) quotes ->
                      succeeded q = false ->
                      dict_find breakdown symbol = None)
                /\ (forall symbol amount q,
                      In (symbol, amount, q) quotes ->
                      succeeded q = true ->
                      exists price value,
                        py_get q "price" (PInt 0) = Ok price
                        /\ py_mul price amount = Ok value
                        /\ dict_find breakdown symbol
                           = Some (breakdown_item amount price value))).
Proof.
  intros llm json_loads list_gt holdings st N.
  destruct (quotes_of_total llm json_loads holdings st)
    as (quotes & st' & Q & H).
  exists quotes, st'. split; [exact Q|]. split; [exact H|]. split.
  - intros F.
    destruct (check_portfolio_value_loop_returns
                llm json_loads list_gt holdings (PInt 0) [] st quotes st' Q F
                (or_introl eq_refl)) as [r L].
    unfold PriceFeedExample.check_portfolio_value, bind, ret. rewrite L.
    eexists. reflexivity.
  - intros out st'' R.
    unfold PriceFeedExample.check_portfolio_value, bind, ret in R.
    destruct (PriceFeedExample.check_portfolio_value_loop
                llm json_loads list_gt holdings (PInt 0) [] st)
      as [[[total breakdown]|] st2] eqn:L; [|discriminate].
    injection R as <- <-.
    apply check_portfolio_value_loop_spec in L; auto.
    destruct L as (quotes' & items & Q' & V & -> & S).
    rewrite Q in Q'. injection Q' as <- <-.
    assert (NoDup (map symbol_of quotes)) as N'.
    { now rewrite (quotes_symbols quotes holdings H). }
    split; [reflexivity|]. exists total, items. simpl.
    split; [reflexivity|]. split; [exact S|]. split; [|split].
    + now apply valued_keys.
    + intros. eapply valued_excludes; eauto.
    + intros. eapply valued_entry; eauto.
Qed.

(** A quote that succeeded has its ["price"] key, whatever the payload
    was: the default of [price_data.get("price", 0)] is never taken, and a
    price the payload lacks is read as [None]. *)
Lemma get_price_sets_the_price_key llm json_loads symbol currency st q st1 :
  PriceFeedLibrary.get_price llm json_loads symbol currency st = (Ok q, st1) ->
  succeeded q = true ->
  forall default, py_get q "price" default = py_get q "price" PNone.
Proof.
  rewrite get_price_run. intros [= <- <-] S default.
  unfold get_price_result in *.
  destruct (dict_find PriceFeedLibrary.SUPPORTED_COINS (upper symbol));
    [|discriminate S].
  destruct (fetch llm json_loads s (lower currency) st) as [[]|];
    try discriminate S.
  reflexivity.
Qed.

(** ** Worked examples *)

(** A call on a state whose cache holds a quote for BTC/usd: [get_price]
    sends its prompt, returns the price the model answered (2) and
    overwrites the stored quote (1). *)
Example get_price_overwrites_stored_quote :
  let run := PriceFeedLibrary.get_price
               (Demo.scripted [Ok (Demo.quote_text "2")]) Demo.json_loads
               "BTC" "usd" cached_state in
  dict_find (price_cache cached_state) (cache_key "BTC" "usd")
  = Some (Demo.quote (PInt 1))
  /\ fst run = Ok (quote_result "BTC" "usd"
                                [ ("price", PInt 2); ("change_24h", PInt 2);
                                  ("market_cap", PInt 1000) ])
  /\ llm_calls (snd run) = [PriceFeedLibrary.prompt_of "bitcoin" "usd"]
  /\ dict_find (price_cache (snd run)) (cache_key "BTC" "usd")
     = Some (Demo.quote (PInt 2)).
Proof.
  vm_compute. repeat split.
Qed.

Lemma get_price_always_refetches_witness :
  dict_find PriceFeedLibrary.SUPPORTED_COINS (upper "btc") = Some "bitcoin"
  /\ let run := PriceFeedLibrary.get_price
                  (Demo.scripted [Ok (Demo.quote_text "2")]) Demo.json_loads
                  "btc" "USD" cached_state in
     llm_calls (snd run) = [PriceFeedLibrary.prompt_of "bitcoin" "usd"]
     /\ (forall cache updates,
           fst (PriceFeedLibrary.get_price
                  (Demo.scripted [Ok (Demo.quote_text "2")]) Demo.json_loads
                  "btc" "USD" (mkState [] cache updates)) = fst run)
     /\ (forall result,
           fst run = Ok result -> succeeded result = true ->
           exists payload,
             fetch (Demo.scripted [Ok (Demo.quote_text "2")]) Demo.json_loads
                   "bitcoin" "usd" cached_state = Ok (PDict payload)
             /\ result = quote_result "BTC" "usd" payload
             /\ dict_find (price_cache (snd run)) (cache_key "btc" "USD")
                = Some (PDict payload)).
Proof.
  split; [reflexivity|].
  exact (get_price_always_refetches
           (Demo.scripted [Ok (Demo.quote_text "2")]) Demo.json_loads
           "btc" "USD" cached_state "bitcoin" eq_refl).
Defined.

(** C3 fails on the code: the reply [[1]] parses, but not to an object.
    The call reports "Failed to fetch price", and the entry of the key,
    which held a quote, holds the list now. *)
Lemma get_price_failed_fetch_overwrites_entry :
  let run := PriceFeedLibrary.get_price
               (Demo.scripted [Ok "[1]"]) Demo.json_loads "BTC" "usd"
               cached_state in
  fst run
  = Ok (PDict [ ("success", PBool false);
                ("error",
                 PStr ("Failed to fetch price: "
                         ++ "'list' object has no attribute 'get'"));
                ("symbol", PStr "BTC") ])
  /\ dict_find (price_cache cached_state) (cache_key "BTC" "usd")
     = Some (Demo.quote (PInt 1))
  /\ dict_find (price_cache (snd run)) (cache_key "BTC" "usd")
     = Some (PList [PInt 1])
  /\ price_cache (snd run) <> price_cache cached_state.
Proof.
  vm_compute. repeat split. discriminate.
Qed.

Lemma get_price_failed_fetch_is_surfaced_witness :
  let llm := Demo.scripted [Ok "oops"] in
  let run := PriceFeedLibrary.get_price
               llm Demo.json_loads "btc" "USD" cached_state in
  let failure text :=
    PDict [ ("success", PBool false);
            ("error", PStr ("Failed to fetch price: " ++ text));
            ("symbol", PStr "BTC") ] in
  dict_find PriceFeedLibrary.SUPPORTED_COINS (upper "btc") = Some "bitcoin"
  /\ fetch llm Demo.json_loads "bitcoin" "usd" cached_state
     = Raise (Exn (HostError "JSONDecodeError")
                  "Expecting value: line 1 column 1 (char 0)")
  /\ fst run = Ok (failure "Expecting value: line 1 column 1 (char 0)")
  /\ price_cache (snd run) = price_cache cached_state
  /\ last_update (snd run) = last_update cached_state.
Proof.
  intros llm run failure.
  split; [reflexivity|]. split; [reflexivity|].
  exact (proj1 (get_price_failed_fetch_is_surfaced
                  llm Demo.json_loads "btc" "USD" cached_state "bitcoin"
                  eq_refl)
               _ eq_refl).
Defined.

(** C9 fails on the code: an object with no field at all, and one whose
    price is a string, are both reported as successes. *)
Lemma get_price_succeeds_on_malformed_object :
  Demo.json_loads "{}" = Ok (PDict [])
  /\ fst (PriceFeedLibrary.get_price
            (Demo.scripted [Ok "{}"]) Demo.json_loads "BTC" "usd"
            (PriceFeedLibrary.init []))
     = Ok (PDict [ ("success", PBool true);
                   ("symbol", PStr "BTC");
                   ("currency", PStr "usd");
                   ("price", PNone);
                   ("change_24h", PNone);
                   ("market_cap", PNone);
                   ("timestamp", PStr "current") ])
  /\ exists text,
      Demo.json_loads text = Ok (PDict [("price", PStr "high")])
      /\ fst (PriceFeedLibrary.get_price
                (Demo.scripted [Ok text]) Demo.json_loads "BTC" "usd"
                (PriceFeedLibrary.init []))
         = Ok (PDict [ ("success", PBool true);
                       ("symbol", PStr "BTC");
                       ("currency", PStr "usd");
                       ("price", PStr "high");
                       ("change_24h", PNone);
                       ("market_cap", PNone);
                       ("timestamp", PStr "current") ]).
Proof.
  split; [reflexivity|]. split; [reflexivity|].
  exists ("{" ++ dq ++ "price" ++ dq ++ ": " ++ dq ++ "high" ++ dq ++ "}").
  split; reflexivity.
Qed.

Lemma get_price_does_not_validate_fields_witness :
  dict_find PriceFeedLibrary.SUPPORTED_COINS (upper "eth") = Some "ethereum"
  /\ fst (PriceFeedLibrary.get_price
            (Demo.scripted [Ok "[1]"]) Demo.json_loads "eth" "usd"
            (PriceFeedLibrary.init []))
     = Ok (match fetch (Demo.scripted [Ok "[1]"]) Demo.json_loads
                       "ethereum" "usd" (PriceFeedLibrary.init []) with
           | Raise e => failure_result "ETH" e
           | Ok (PDict payload) =>
               PDict [ ("success", PBool true);
                       ("symbol", PStr "ETH");
                       ("currency", PStr "usd");
                       ("price",
                        match dict_find payload "price" with
                        | Some x => x | None => PNone end);
                       ("change_24h",
                        match dict_find payload "change_24h" with
                        | Some x => x | None => PNone end);
                       ("market_cap",
                        match dict_find payload "market_cap" with
                        | Some x => x | None => PNone end);
                       ("timestamp", PStr "current") ]
           | Ok v => failure_result "ETH" (attribute_error v "get")
           end).
Proof.
  split; [reflexivity|].
  exact (get_price_does_not_validate_fields
           (Demo.scripted [Ok "[1]"]) Demo.json_loads "eth" "usd"
           (PriceFeedLibrary.init []) "ethereum" eq_refl).
Defined.

(** C4 fails on the code: asked for BTC twice, [get_multiple_prices] fetches
    twice and answers [count = 1] for an input of length 2. *)
Lemma get_multiple_prices_merges_repeated_symbol :
  let run := PriceFeedLibrary.get_multiple_prices
               (Demo.scripted [Ok (Demo.quote_text "50000");
                               Ok (Demo.quote_text "50000")])
               Demo.json_loads ["BTC"; "BTC"] "usd"
               (PriceFeedLibrary.init []) in
  py_get match fst run with Ok out => out | Raise _ => PNone end
         "count" PNone = Ok (PInt 1)
  /\ List.length ["BTC"; "BTC"] = 2%nat
  /\ List.length (llm_calls (snd run)) = 2%nat.
Proof.
  vm_compute. repeat split.
Qed.

Lemma get_multiple_prices_counts_entries_witness :
  NoDup ["BTC"; "ZZZ"]
  /\ exists results st',
      PriceFeedLibrary.get_multiple_prices
        (Demo.scripted [Ok (Demo.quote_text "50000")]) Demo.json_loads
        ["BTC"; "ZZZ"] "usd" (PriceFeedLibrary.init [])
      = (Ok (PDict [ ("success", PBool true);
                     ("currency", PStr "usd");
                     ("count", PInt (Z.of_nat (List.length results)));
                     ("prices", PDict results) ]),
         st')
      /\ NoDup (dict_keys results)
      /\ (forall s, In s (dict_keys results) <-> In s ["BTC"; "ZZZ"])
      /\ Forall (price_entry (Demo.scripted [Ok (Demo.quote_text "50000")])
                             Demo.json_loads "usd") results
      /\ (NoDup ["BTC"; "ZZZ"] ->
          dict_keys results = ["BTC"; "ZZZ"]
          /\ List.length results = List.length ["BTC"; "ZZZ"]).
Proof.
  split.
  - constructor; [intros [H|[]]; discriminate H|].
    constructor; [intros []|constructor].
  - exact (get_multiple_prices_counts_entries
             (Demo.scripted [Ok (Demo.quote_text "50000")]) Demo.json_loads
             ["BTC"; "ZZZ"] "usd" (PriceFeedLibrary.init [])).
Defined.

(** C5 fails on the code: with [price2 = -2] the ratio reported is 0, and
    not [6 / -2 = -3.0]. *)
Lemma compare_prices_zero_ratio_for_negative_price :
  fst (PriceFeedLibrary.compare_prices
         (Demo.scripted [Ok (Demo.quote_text "6"); Ok (Demo.quote_text "-2")])
         Demo.json_loads Demo.list_gt "BTC" "ETH" (PriceFeedLibrary.init []))
  = Ok (comparison_result "BTC" "ETH" (PInt 6) (PInt (-2)) (PInt 0) "BTC")
  /\ py_truediv (PInt 6) (PInt (-2)) = Ok (PFloat minus_three)
  /\ num_compare (NInt 0) (NFloat minus_three) = Some Gt.
Proof.
  vm_compute. repeat split.
Qed.

Lemma compare_prices_guards_ratio_witness :
  let llm := Demo.scripted [Ok (Demo.quote_text "6");
                            Ok (Demo.quote_text "0")] in
  (forall e,
      fst (PriceFeedLibrary.compare_prices
             llm Demo.json_loads Demo.list_gt "BTC" "ETH"
             (PriceFeedLibrary.init [])) = Raise e ->
      exn_class e <> ZeroDivisionError)
  /\ num_gt (NInt 0) (NInt 0) = false
  /\ exists st2,
      PriceFeedLibrary.compare_prices
        llm Demo.json_loads Demo.list_gt "BTC" "ETH" (PriceFeedLibrary.init [])
      = (Ok (comparison_result "BTC" "ETH" (PInt 6) (PInt 0) (PInt 0) "BTC"),
         st2).
Proof.
  intros llm.
  destruct (compare_prices_guards_ratio
              llm Demo.json_loads Demo.list_gt "BTC" "ETH"
              (PriceFeedLibrary.init [])) as [never returns].
  split; [exact never|]. split; [reflexivity|].
  eexists.
  exact (proj2 (returns _ _ _ _ (PInt 6) (PInt 0) (NInt 6) (NInt 0)
                        eq_refl eq_refl eq_refl eq_refl eq_refl eq_refl
                        eq_refl eq_refl)
               eq_refl).
Defined.

(** The ordinary cases, run: 6 against 2 gives the ratio 3.0 and the first
    symbol; 2 against 2 gives 1.0 and, the prices being equal, the second
    symbol. *)
Example compare_prices_ratio_and_tie :
  let compare p1 p2 :=
    fst (PriceFeedLibrary.compare_prices
           (Demo.scripted [Ok (Demo.quote_text p1); Ok (Demo.quote_text p2)])
           Demo.json_loads Demo.list_gt "BTC" "ETH"
           (PriceFeedLibrary.init [])) in
  compare "6" "2"
  = Ok (comparison_result
          "BTC" "ETH" (PInt 6) (PInt 2)
          (PFloat (S754_finite false 6755399441055744 (-51))) "BTC")
  /\ compare "2" "2"
     = Ok (comparison_result
             "BTC" "ETH" (PInt 2) (PInt 2)
             (PFloat (S754_finite false 4503599627370496 (-52))) "ETH").
Proof.
  vm_compute. split; reflexivity.
Qed.

(** C8 fails on the code: with [threshold = -50] the percentage reported is
    0, and not [(100 - -50) / -50 * 100 = -300.0]. *)
Lemma is_price_above_zero_percentage_for_negative_threshold :
  fst (PriceFeedLibrary.is_price_above
         (Demo.scripted [Ok (Demo.quote_text "100")]) Demo.json_loads
         Demo.list_gt "BTC" (PInt (-50)) "usd" (PriceFeedLibrary.init []))
  = Ok (above_result "BTC" (PInt 100) (PInt (-50)) true (PInt 150) (PInt 0))
  /\ percentage_formula (PInt 100) (PInt (-50))
     = Ok (PFloat minus_three_hundred)
  /\ num_compare (NInt 0) (NFloat minus_three_hundred) = Some Gt.
Proof.
  vm_compute. repeat split.
Qed.

Lemma is_price_above_guards_percentage_witness :
  let llm := Demo.scripted [Ok (Demo.quote_text "100")] in
  let run := PriceFeedLibrary.is_price_above
               llm Demo.json_loads Demo.list_gt "BTC" (PInt 0) "usd"
               (PriceFeedLibrary.init []) in
  (forall e, fst run = Raise e -> exn_class e <> ZeroDivisionError)
  /\ py_sub (PInt 100) (PInt 0) = Ok (PInt 100)
  /\ num_gt (NInt 0) (NInt 0) = false
  /\ run
     = (Ok (above_result "BTC" (PInt 100) (PInt 0) true (PInt 100) (PInt 0)),
        snd run).
Proof.
  intros llm run.
  destruct (is_price_above_guards_percentage
              llm Demo.json_loads Demo.list_gt "BTC" (PInt 0) "usd"
              (PriceFeedLibrary.init [])) as [never returns].
  split; [apply never; discriminate|]. split; [reflexivity|].
  split; [reflexivity|].
  exact (proj2 (proj1 (returns _ _ (PInt 100) (NInt 100) (NInt 0)
                               eq_refl eq_refl eq_refl eq_refl eq_refl)
                      (PInt 100) eq_refl)
               eq_refl).
Defined.

(** The overflow, run: a price of [10 ** 400] against a threshold of [0.0].
    The comparison is exact and answers; the difference needs the price as
    a float and raises [OverflowError]. *)
Example is_price_above_overflows_on_a_large_price :
  let json_loads := fun _ : string => Ok (Demo.quote (PInt (10 ^ 400))) in
  let llm := Demo.scripted [Ok "a quote"] in
  py_gt Demo.list_gt (PInt (10 ^ 400)) (PFloat (S754_zero false)) = Ok true
  /\ fst (PriceFeedLibrary.is_price_above
            llm json_loads Demo.list_gt "BTC" (PFloat (S754_zero false)) "usd"
            (PriceFeedLibrary.init []))
     = Raise (Exn OverflowError "int too large to convert to float").
Proof.
  vm_compute. split; reflexivity.
Qed.

(** The ordinary case, run: 100 against a threshold of 50 is above it, by
    50, that is by 100.0 percent. *)
Example is_price_above_percentage :
  fst (PriceFeedLibrary.is_price_above
         (Demo.scripted [Ok (Demo.quote_text "100")]) Demo.json_loads
         Demo.list_gt "BTC" (PInt 50) "usd" (PriceFeedLibrary.init []))
  = Ok (above_result "BTC" (PInt 100) (PInt 50) true (PInt 50)
                     (PFloat (S754_finite false 7036874417766400 (-46)))).
Proof.
  vm_compute. reflexivity.
Qed.

(** C6 fails on the code: a "below" alert at threshold 100 triggers on a NaN
    price, for which [current_price <= threshold] is false. *)
Lemma below_alert_triggers_on_nan_price :
  fst (PriceFeedExample.check_alerts
         (Demo.scripted [Ok (Demo.quote_text "NaN")]) Demo.json_loads
         Demo.list_gt "alice" (alice_alert (PInt 100) (PStr "below"))
         (PriceFeedLibrary.init []))
  = Ok (PDict
          [ ("success", PBool true);
            ("triggered_count", PInt 1);
            ("triggered_alerts",
             PList [triggered_entry (PStr "BTC") (PInt 100) (PFloat S754_nan)
                                    (PStr "below")]) ])
  /\ num_le (NFloat S754_nan) (NInt 100) = false.
Proof.
  vm_compute. repeat split.
Qed.

Lemma alert_triggers_on_above_or_its_negation_witness :
  let llm := Demo.scripted [Ok (Demo.quote_text "100")] in
  let result := above_result "BTC" (PInt 100) (PInt 100) false (PInt 0)
                             (PFloat (S754_zero false)) in
  let st1 := snd (PriceFeedLibrary.is_price_above
                    llm Demo.json_loads Demo.list_gt "BTC" (PInt 100) "usd"
                    (PriceFeedLibrary.init [])) in
  PriceFeedLibrary.is_price_above
    llm Demo.json_loads Demo.list_gt "BTC" (PInt 100) "usd"
    (PriceFeedLibrary.init []) = (Ok result, st1)
  /\ succeeded result = true
  /\ exists price above,
      py_get result "current_price" PNone = Ok price
      /\ py_gt Demo.list_gt price (PInt 100) = Ok above
      /\ PriceFeedExample.check_alerts_loop
           llm Demo.json_loads Demo.list_gt
           [alert_of (PStr "BTC") (PInt 100) (PStr "below")] []
           (PriceFeedLibrary.init [])
         = PriceFeedExample.check_alerts_loop
             llm Demo.json_loads Demo.list_gt []
             (if (py_eq_str (PStr "below") "above" && above)
                 || (py_eq_str (PStr "below") "below" && negb above)
              then [triggered_entry (PStr "BTC") (PInt 100) price
                                    (PStr "below")]
              else [])
             st1
      /\ (forall n t,
            as_num price = Some n -> as_num (PInt 100) = Some t ->
            above = num_gt n t
            /\ (num_compare n t <> None -> negb above = num_le n t)
            /\ (num_compare n t = Some Eq -> above = false)
            /\ (num_compare n t = None -> above = false)).
Proof.
  intros llm result st1.
  split; [reflexivity|]. split; [reflexivity|].
  exact (alert_triggers_on_above_or_its_negation
           llm Demo.json_loads Demo.list_gt "BTC" (PInt 100) (PStr "below")
           [] [] (PriceFeedLibrary.init []) result st1 eq_refl eq_refl).
Defined.

(** The boundary case of the specification, run: at a price of 100 a
    "below" alert at 100 triggers and an "above" alert at 100 does not. *)
Example alert_boundary_at_equal_price :
  let llm := Demo.scripted [Ok (Demo.quote_text "100")] in
  let triggered self :=
    match fst (PriceFeedExample.check_alerts
                 llm Demo.json_loads Demo.list_gt "alice" self
                 (PriceFeedLibrary.init [])) with
    | Ok out => py_get out "triggered_alerts" PNone
    | Raise e => Raise e
    end in
  triggered (alice_alert (PInt 100) (PStr "below"))
  = Ok (PList [triggered_entry (PStr "BTC") (PInt 100) (PInt 100)
                               (PStr "below")])
  /\ triggered (alice_alert (PInt 100) (PStr "above")) = Ok (PList []).
Proof.
  vm_compute. split; reflexivity.
Qed.

(** C10 at work: an alert of type "sideways" is stored and is not reported,
    though the price is above its threshold. *)
Lemma alert_of_unknown_type_is_stored_and_never_triggers_witness :
  let llm := Demo.scripted [Ok (Demo.quote_text "50000")] in
  let self := alice_alert (PInt 100) (PStr "sideways") in
  let out := PDict [ ("success", PBool true);
                     ("triggered_count", PInt 0);
                     ("triggered_alerts", PList []) ] in
  let st' := snd (PriceFeedExample.check_alerts
                    llm Demo.json_loads Demo.list_gt "alice" self
                    (PriceFeedLibrary.init [])) in
  dict_find (PriceFeedExample.user_alerts self) "alice"
  = Some [alert_of (PStr "BTC") (PInt 100) (PStr "sideways")]
  /\ PriceFeedExample.check_alerts
       llm Demo.json_loads Demo.list_gt "alice" self (PriceFeedLibrary.init [])
     = (Ok out, st')
  /\ exists triggered,
      py_get out "triggered_alerts" PNone = Ok (PList triggered)
      /\ Forall
           (fun entry =>
              exists alerts alert,
                dict_find (PriceFeedExample.user_alerts self) "alice"
                = Some alerts
                /\ In alert alerts
                /\ triggered_by alert entry
                /\ (py_get entry "type" PNone = Ok (PStr "above")
                    \/ py_get entry "type" PNone = Ok (PStr "below")))
           triggered.
Proof.
  intros llm self out st'.
  split; [reflexivity|]. split; [reflexivity|].
  exact (proj2 (alert_of_unknown_type_is_stored_and_never_triggers
                  llm Demo.json_loads Demo.list_gt Demo.py_str)
               "alice" self (PriceFeedLibrary.init []) out st' eq_refl).
Defined.

(** C7, where the code misses it.  The model answers [{}] for BTC:
    [get_price] reports success with the key ["price"] set to [None].  The
    valuation reads the price with [price_data.get("price", 0)], but the
    key is there, so the default [0] is not taken; the price is [None], and
    [None * 1] raises [TypeError] out of [check_portfolio_value]: a fetch
    that succeeded contributes nothing, and the call reports no result. *)
Lemma check_portfolio_value_raises_on_missing_price :
  let llm := Demo.scripted [Ok "{}"] in
  let q := fst (PriceFeedLibrary.get_price
                  llm Demo.json_loads "BTC" "usd" (PriceFeedLibrary.init [])) in
  q = Ok (quote_result "BTC" "usd" [])
  /\ succeeded (quote_result "BTC" "usd" []) = true
  /\ py_get (quote_result "BTC" "usd" []) "price" (PInt 0) = Ok PNone
  /\ fst (PriceFeedExample.check_portfolio_value
            llm Demo.json_loads Demo.list_gt [("BTC", PInt 1)]
            (PriceFeedLibrary.init []))
     = Raise (Exn TypeError
                  "unsupported operand type(s) for *: 'NoneType' and 'int'").
Proof.
  vm_compute. repeat split.
Qed.

(** The partial failure of the specification, run: ZZZ is not supported, so
    only BTC is in the breakdown and in the total. *)
Example check_portfolio_value_partial_failure :
  fst (PriceFeedExample.check_portfolio_value
         (Demo.scripted [Ok (Demo.quote_text "2.5")]) Demo.json_loads
         Demo.list_gt [("BTC", PInt 1); ("ZZZ", PInt 1)]
         (PriceFeedLibrary.init []))
  = Ok (PDict
          [ ("total_value_usd", PFloat two_and_a_half);
            ("breakdown",
             PDict [("BTC", breakdown_item (PInt 1) (PFloat two_and_a_half)
                                           (PFloat two_and_a_half))]);
            ("currency", PStr "USD") ]).
Proof.
  vm_compute. reflexivity.
Qed.

Lemma check_portfolio_value_counts_successes_only_witness :
  let llm := Demo.scripted [Ok (Demo.quote_text "2.5")] in
  let holdings := [("BTC", PFloat two_and_a_half); ("ZZZ", PInt 1)] in
  let st := PriceFeedLibrary.init [] in
  NoDup (map fst holdings)
  /\ exists quotes st',
      quotes_of llm Demo.json_loads holdings st = (Ok quotes, st')
      /\ map holding_of quotes = holdings
      /\ (Forall float_quote quotes ->
          exists out,
            PriceFeedExample.check_portfolio_value
              llm Demo.json_loads Demo.list_gt holdings st = (Ok out, st'))
      /\ (forall out st'',
            PriceFeedExample.check_portfolio_value
              llm Demo.json_loads Demo.list_gt holdings st = (Ok out, st'') ->
            st'' = st'
            /\ exists total breakdown,
                out = PDict [ ("total_value_usd", total);
                              ("breakdown", PDict breakdown);
                              ("currency", PStr "USD") ]
                /\ sum_values (PInt 0) breakdown = Ok total
                /\ (forall symbol,
                      In symbol (dict_keys breakdown) <->
                      exists amount q,
                        In (symbol, amount, q) quotes /\ succeeded q = true)
                /\ (forall symbol amount q,
                      In (symbol, amount, q) quotes ->
                      succeeded q = false ->
                      dict_find breakdown symbol = None)
                /\ (forall symbol amount q,
                      In (symbol, amount, q) quotes ->
                      succeeded q = true ->
                      exists price value,
                        py_get q "price" (PInt 0) = Ok price
                        /\ py_mul price amount = Ok value
                        /\ dict_find breakdown symbol
                           = Some (breakdown_item amount price value))).
Proof.
  intros llm holdings st.
  assert (NoDup (map fst holdings)) as N.
  { constructor; [intros [H|[]]; discriminate H|].
    constructor; [intros []|constructor]. }
  split; [exact N|].
  exact (check_portfolio_value_counts_successes_only
           llm Demo.json_loads Demo.list_gt holdings st N).
Defined.

(** Two requests for one key in a row: each is answered by its own fetch,
    here with two different prices. *)
Example get_price_twice_observes_two_quotes :
  let llm := Demo.scripted [Ok (Demo.quote_text "2");
                            Ok (Demo.quote_text "6")] in
  let first := PriceFeedLibrary.get_price
                 llm Demo.json_loads "BTC" "usd" (PriceFeedLibrary.init []) in
  let second := PriceFeedLibrary.get_price
                  llm Demo.json_loads "BTC" "usd" (snd first) in
  fst first = Ok (get_price_result (fun _ _ => Ok (Demo.quote_text "2"))
                                   Demo.json_loads "BTC" "usd"
                                   (PriceFeedLibrary.init []))
  /\ fst second = Ok (get_price_result (fun _ _ => Ok (Demo.quote_text "6"))
                                       Demo.json_loads "BTC" "usd"
                                       (PriceFeedLibrary.init []))
  /\ List.length (llm_calls (snd second)) = 2%nat.
Proof.
  vm_compute. repeat split.
Qed.

(** The scenario of the specification, run: at a price of 50000 an "above"
    alert at 49000 triggers; with a second "above" alert at 60000 set, the
    first one alone is reported. *)
Example alerts_end_to_end :
  let one := alice_alert (PInt 49000) (PStr "above") in
  let two := snd (PriceFeedExample.set_price_alert
                    Demo.py_str "alice" (PStr "BTC") (PInt 60000)
                    (PStr "above") one) in
  let triggered self replies :=
    match fst (PriceFeedExample.check_alerts
                 (Demo.scripted replies) Demo.json_loads Demo.list_gt
                 "alice" self (PriceFeedLibrary.init [])) with
    | Ok out => py_get out "triggered_alerts" PNone
    | Raise e => Raise e
    end in
  let entry := triggered_entry (PStr "BTC") (PInt 49000) (PInt 50000)
                               (PStr "above") in
  triggered one [Ok (Demo.quote_text "50000")] = Ok (PList [entry])
  /\ triggered two [Ok (Demo.quote_text "50000");
                    Ok (Demo.quote_text "50000")] = Ok (PList [entry]).
Proof.
  vm_compute. split; reflexivity.
Qed.

(** * Further properties of the two contracts *)

(** ** get_price: normalisation, the registry, the cache *)

Lemma ascii_upper_idempotent c : ascii_upper (ascii_upper c) = ascii_upper c.
Proof.
  destruct c as [[] [] [] [] [] [] [] []]; reflexivity.
Qed.

Lemma ascii_lower_idempotent c : ascii_lower (ascii_lower c) = ascii_lower c.
Proof.
  destruct c as [[] [] [] [] [] [] [] []]; reflexivity.
Qed.

Lemma upper_idempotent s : upper (upper s) = upper s.
Proof.
  unfold upper. induction s as [|c s IH]; cbn [str_map]; [reflexivity|].
  now rewrite ascii_upper_idempotent, IH.
Qed.

Lemma lower_idempotent s : lower (lower s) = lower s.
Proof.
  unfold lower. induction s as [|c s IH]; cbn [str_map]; [reflexivity|].
  now rewrite ascii_lower_idempotent, IH.
Qed.

(** X1: [get_price] does not tell the case of its arguments apart: two
    calls whose symbols agree once in upper case and whose currencies
    agree once in lower case return the same result and leave the same
    state; in particular a call on the normalised arguments is the call
    itself. *)
Theorem get_price_ignores_case :
  forall llm json_loads symbol currency st,
    (forall symbol' currency',
        upper symbol' = upper symbol -> lower currency' = lower currency ->
        PriceFeedLibrary.get_price llm json_loads symbol' currency' st
        = PriceFeedLibrary.get_price llm json_loads symbol currency st)
    /\ PriceFeedLibrary.get_price llm json_loads (upper symbol)
                                  (lower currency) st
       = PriceFeedLibrary.get_price llm json_loads symbol currency st.
Proof.
  intros llm json_loads symbol currency st.
  assert (forall symbol' currency',
             upper symbol' = upper symbol -> lower currency' = lower currency ->
             PriceFeedLibrary.get_price llm json_loads symbol' currency' st
             = PriceFeedLibrary.get_price llm json_loads symbol currency st)
    as Same.
  { intros symbol' currency' U L.
    unfold PriceFeedLibrary.get_price. now rewrite U, L. }
  split; [exact Same|].
  apply Same; [apply upper_idempotent | apply lower_idempotent].
Qed.

Lemma supported_keys_are_upper_case :
  Forall (fun k => upper k = k /\ no_underscore k = true)
         (dict_keys PriceFeedLibrary.SUPPORTED_COINS).
Proof.
  repeat constructor.
Qed.

(** X2: the list [get_supported_coins] returns is the one [get_price]
    checks against.  A symbol passes the check exactly when its upper-case
    form is in that list; one that does not is answered with the failure
    carrying the same list, nothing is sent to the model and the state is
    left as it was; and [count] is the length of the list, 15. *)
Theorem get_price_accepts_the_supported_coins :
  forall llm json_loads symbol currency st,
  exists coins,
    PriceFeedLibrary.get_supported_coins st
    = (Ok (PDict [ ("success", PBool true);
                   ("count", PInt (Z.of_nat (List.length coins)));
                   ("supported_coins", PList (map PStr coins)) ]),
       st)
    /\ List.length coins = 15%nat
    /\ (In (upper symbol) coins ->
        exists coin_id,
          dict_find PriceFeedLibrary.SUPPORTED_COINS (upper symbol)
          = Some coin_id
          /\ llm_calls
               (snd (PriceFeedLibrary.get_price
                       llm json_loads symbol currency st))
             = (llm_calls st
                  ++ [PriceFeedLibrary.prompt_of coin_id (lower currency)])%list)
    /\ (~ In (upper symbol) coins ->
        PriceFeedLibrary.get_price llm json_loads symbol currency st
        = (Ok (PDict
                 [ ("success", PBool false);
                   ("error", PStr ("Unsupported symbol: " ++ upper symbol));
                   ("supported_coins", PList (map PStr coins)) ]),
           st)).
Proof.
  intros llm json_loads symbol currency st.
  exists (dict_keys PriceFeedLibrary.SUPPORTED_COINS).
  split; [reflexivity|]. split; [reflexivity|]. split.
  - intros I. apply dict_find_In in I.
    destruct (dict_find PriceFeedLibrary.SUPPORTED_COINS (upper symbol))
      as [coin_id|] eqn:F; [|congruence].
    exists coin_id. split; [reflexivity|].
    rewrite get_price_run. simpl. unfold get_price_state. rewrite F.
    now destruct (fetch llm json_loads coin_id (lower currency) st).
  - intros N. apply get_price_unsupported.
    destruct (dict_find PriceFeedLibrary.SUPPORTED_COINS (upper symbol)) eqn:F;
      [|reflexivity].
    destruct N. apply dict_find_In. congruence.
Qed.

Lemma separator_splits a : forall a' b b',
  no_underscore a = true -> no_underscore a' = true ->
  a ++ "_" ++ b = a' ++ "_" ++ b' -> a = a' /\ b = b'.
Proof.
  induction a as [|c a IH]; intros [|c' a'] b b' Na Na' E; simpl in *.
  - injection E as ->. auto.
  - injection E as <- _. discriminate Na'.
  - injection E as -> _. discriminate Na.
  - injection E as -> E.
    apply andb_prop in Na, Na'.
    destruct (IH a' b b') as [-> ->]; tauto.
Qed.

Lemma supported_no_underscore symbol coin_id :
  dict_find PriceFeedLibrary.SUPPORTED_COINS (upper symbol) = Some coin_id ->
  no_underscore (upper symbol) = true.
Proof.
  intros F.
  assert (In (upper symbol) (dict_keys PriceFeedLibrary.SUPPORTED_COINS)) as I.
  { apply dict_find_In. congruence. }
  pose proof supported_keys_are_upper_case as K.
  rewrite Forall_forall in K. now apply K.
Qed.

(** X3: two requests for supported symbols use the same cache entry only
    when they are the same request after normalisation: the key
    [SYMBOL_currency] determines the symbol and the currency, whatever
    underscores the currency has. *)
Theorem cache_key_determines_the_request :
  forall symbol currency symbol' currency' coin_id coin_id',
    dict_find PriceFeedLibrary.SUPPORTED_COINS (upper symbol) = Some coin_id ->
    dict_find PriceFeedLibrary.SUPPORTED_COINS (upper symbol')
    = Some coin_id' ->
    cache_key symbol currency = cache_key symbol' currency' ->
    upper symbol = upper symbol' /\ lower currency = lower currency'.
Proof.
  intros symbol currency symbol' currency' coin_id coin_id' F F' E.
  unfold cache_key in E.
  eapply separator_splits; eauto using supported_no_underscore.
Qed.

(** X4: a call writes at most one entry of the cache, the one of its own
    key: every other entry is after the call what it was before, whether
    the fetch failed or not; [last_update] is never written; and the
    prompts sent before the call stay, in order, at the head of the log. *)
Theorem get_price_changes_only_its_own_entry :
  forall llm json_loads symbol currency st key,
    key <> cache_key symbol currency ->
    let st' := snd (PriceFeedLibrary.get_price
                      llm json_loads symbol currency st) in
    dict_find (price_cache st') key = dict_find (price_cache st) key
    /\ last_update st' = last_update st
    /\ llm_calls st' = (llm_calls st ++ prompt_for symbol currency)%list.
Proof.
  intros llm json_loads symbol currency st key N st'. subst st'.
  split; [now apply get_price_touches_one_key|].
  rewrite get_price_run. simpl. unfold get_price_state, prompt_for.
  destruct (dict_find PriceFeedLibrary.SUPPORTED_COINS (upper symbol));
    [|now rewrite app_nil_r].
  destruct (fetch llm json_loads s (lower currency) st); split; reflexivity.
Qed.

(** ** get_multiple_prices: one fetch per request, the last result kept *)

Lemma get_price_state_calls llm json_loads symbol currency st :
  llm_calls (get_price_state llm json_loads symbol currency st)
  = (llm_calls st ++ prompt_for symbol currency)%list.
Proof.
  unfold get_price_state, prompt_for.
  destruct (dict_find PriceFeedLibrary.SUPPORTED_COINS (upper symbol));
    [|now rewrite app_nil_r].
  now destruct (fetch llm json_loads s (lower currency) st).
Qed.

Lemma get_price_state_last_update llm json_loads symbol currency st :
  last_update (get_price_state llm json_loads symbol currency st)
  = last_update st.
Proof.
  unfold get_price_state.
  destruct (dict_find PriceFeedLibrary.SUPPORTED_COINS (upper symbol));
    [|reflexivity].
  now destruct (fetch llm json_loads s (lower currency) st).
Qed.

Section MultipleLoop.
Variable llm : list string -> string -> Res string.
Variable json_loads : string -> Res val.
Variable currency : string.

Local Abbreviation loop :=
  (PriceFeedLibrary.get_multiple_prices_loop llm json_loads).

Lemma get_multiple_prices_loop_total symbols results st :
  exists results' st', loop symbols currency results st = (Ok results', st').
Proof.
  destruct (get_multiple_prices_loop_spec
              llm json_loads currency symbols results st)
    as (r & st' & R & _).
  eauto.
Qed.

Lemma get_multiple_prices_loop_cons symbol rest results st :
  loop (symbol :: rest) currency results st
  = loop rest currency
         (dict_set results symbol
                   (get_price_result llm json_loads symbol currency st))
         (get_price_state llm json_loads symbol currency st).
Proof.
  cbn [PriceFeedLibrary.get_multiple_prices_loop]. unfold bind at 1.
  now rewrite get_price_run.
Qed.

Lemma get_multiple_prices_loop_calls symbols :
  forall results st,
    llm_calls (snd (loop symbols currency results st))
    = (llm_calls st ++ prompts_for symbols currency)%list
    /\ last_update (snd (loop symbols currency results st)) = last_update st.
Proof.
  induction symbols as [|symbol rest IH]; intros results st.
  - simpl. now rewrite app_nil_r.
  - rewrite get_multiple_prices_loop_cons.
    destruct (IH (dict_set results symbol
                           (get_price_result llm json_loads symbol currency st))
                 (get_price_state llm json_loads symbol currency st))
      as [C U].
    rewrite C, U, get_price_state_calls, get_price_state_last_update.
    unfold prompts_for. simpl. now rewrite app_assoc.
Qed.

Lemma get_multiple_prices_loop_app pre :
  forall post results st results1 st1,
    loop pre currency results st = (Ok results1, st1) ->
    loop (pre ++ post) currency results st = loop post currency results1 st1.
Proof.
  induction pre as [|symbol rest IH]; intros post results st results1 st1 R.
  - simpl in R. now injection R as <- <-.
  - cbn [app]. rewrite get_multiple_prices_loop_cons in *. now apply IH.
Qed.

Lemma get_multiple_prices_loop_state symbols :
  forall results results' st,
    snd (loop symbols currency results st)
    = snd (loop symbols currency results' st).
Proof.
  induction symbols as [|symbol rest IH]; intros results results' st.
  - reflexivity.
  - rewrite !get_multiple_prices_loop_cons. apply IH.
Qed.

Lemma get_multiple_prices_loop_keeps symbols s :
  ~ In s symbols ->
  forall results st results' st',
    loop symbols currency results st = (Ok results', st') ->
    dict_find results' s = dict_find results s.
Proof.
  induction symbols as [|symbol rest IH]; intros N results st results' st' R.
  - simpl in R. now injection R as <- <-.
  - rewrite get_multiple_prices_loop_cons in R.
    apply IH in R; [|intros I; apply N; now right].
    rewrite R. apply dict_find_set_other.
    intros ->. apply N. now left.
Qed.
End MultipleLoop.

(** X5: [get_multiple_prices] sends one prompt for every symbol of the
    input that is supported, a repeated symbol included each time, in the
    order of the input, and none for an unsupported one; it never writes
    [last_update]. *)
Theorem get_multiple_prices_fetches_every_symbol :
  forall llm json_loads symbols currency st,
    let st' := snd (PriceFeedLibrary.get_multiple_prices
                      llm json_loads symbols currency st) in
    llm_calls st' = (llm_calls st ++ prompts_for symbols currency)%list
    /\ last_update st' = last_update st.
Proof.
  intros llm json_loads symbols currency st st'. subst st'.
  unfold PriceFeedLibrary.get_multiple_prices, bind, ret.
  destruct (get_multiple_prices_loop_calls
              llm json_loads currency symbols [] st) as [C U].
  destruct (PriceFeedLibrary.get_multiple_prices_loop
              llm json_loads symbols currency [] st) as [[r|e] st1];
    simpl in *; auto.
Qed.

(** X6: the entry [get_multiple_prices] returns for a symbol is what the
    call made for its last occurrence in the input returned: the results
    of earlier occurrences are overwritten, and the symbol is the key as it
    was given, not in upper case. *)
Theorem get_multiple_prices_keeps_the_last_result :
  forall llm json_loads pre symbol post currency st,
    ~ In symbol post ->
    let before := snd (PriceFeedLibrary.get_multiple_prices
                         llm json_loads pre currency st) in
    exists results st' last,
      PriceFeedLibrary.get_multiple_prices
        llm json_loads (pre ++ symbol :: post) currency st
      = (Ok (PDict [ ("success", PBool true);
                     ("currency", PStr currency);
                     ("count", PInt (Z.of_nat (List.length results)));
                     ("prices", PDict results) ]),
         st')
      /\ fst (PriceFeedLibrary.get_price
                llm json_loads symbol currency before) = Ok last
      /\ dict_find results symbol = Some last.
Proof.
  intros llm json_loads pre symbol post currency st N before.
  destruct (get_multiple_prices_loop_total llm json_loads currency pre [] st)
    as (r1 & st1 & R1).
  assert (before = st1) as ->.
  { subst before. unfold PriceFeedLibrary.get_multiple_prices, bind, ret.
    now rewrite R1. }
  set (last := get_price_result llm json_loads symbol currency st1).
  destruct (get_multiple_prices_loop_total
              llm json_loads currency post (dict_set r1 symbol last)
              (get_price_state llm json_loads symbol currency st1))
    as (r & st' & R).
  exists r, st', last.
  unfold PriceFeedLibrary.get_multiple_prices, bind, ret.
  rewrite (get_multiple_prices_loop_app _ _ _ _ _ _ _ _ _ R1).
  rewrite get_multiple_prices_loop_cons. fold last. rewrite R.
  split; [reflexivity|]. split; [now rewrite get_price_run|].
  rewrite (get_multiple_prices_loop_keeps _ _ _ _ _ N _ _ _ _ R).
  apply dict_find_set_same.
Qed.

(** ** compare_prices, is_price_above, should_buy_signal, check_btc_price *)

(** One step through a method body run in the goal. *)
Ltac step_goal :=
  match goal with
  | |- context [if ?b then _ else _] => destruct b; simpl
  | |- context [match ?r with Ok _ => _ | Raise _ => _ end] =>
      destruct r; simpl
  end.

Lemma succeeded_dict d :
  succeeded (PDict d)
  = truthy match dict_find d "success" with Some x => x | None => PNone end.
Proof.
  reflexivity.
Qed.

(** X7: [compare_prices] always makes both fetches, the second one also
    when the first one failed, and leaves the state two [get_price] calls
    in a row leave, whatever it returns or raises; when either fetch fails
    it returns the one failure
    [{"success": False, "error": "Failed to fetch one or both prices"}],
    which does not tell which of the two failed. *)
Theorem compare_prices_fetches_both_and_fails_as_a_whole :
  forall llm json_loads list_gt symbol1 symbol2 st,
    let first := PriceFeedLibrary.get_price llm json_loads symbol1 "usd" st in
    let second :=
      PriceFeedLibrary.get_price llm json_loads symbol2 "usd" (snd first) in
    let run := PriceFeedLibrary.compare_prices
                 llm json_loads list_gt symbol1 symbol2 st in
    snd run = snd second
    /\ llm_calls (snd run)
       = (llm_calls st ++ prompts_for [symbol1; symbol2] "usd")%list
    /\ (forall q1 q2,
          fst first = Ok q1 -> fst second = Ok q2 ->
          succeeded q1 = false \/ succeeded q2 = false ->
          fst run = Ok comparison_failure).
Proof.
  intros llm json_loads list_gt symbol1 symbol2 st first second run.
  subst first second run.
  assert (snd (PriceFeedLibrary.compare_prices
                 llm json_loads list_gt symbol1 symbol2 st)
          = get_price_state llm json_loads symbol2 "usd"
              (get_price_state llm json_loads symbol1 "usd" st)) as S.
  { unfold PriceFeedLibrary.compare_prices, bind.
    rewrite get_price_run. rewrite get_price_run.
    destruct (get_price_result_dict llm json_loads symbol1 "usd" st)
      as [d1 ->].
    destruct (get_price_result_dict
                llm json_loads symbol2 "usd"
                (get_price_state llm json_loads symbol1 "usd" st))
      as [d2 ->].
    unfold lift, ret. simpl. repeat step_goal; reflexivity. }
  rewrite !get_price_run. simpl. split; [exact S|]. split.
  - rewrite S, !get_price_state_calls. unfold prompts_for. simpl.
    now rewrite app_nil_r, app_assoc.
  - intros q1 q2 [= <-] [= <-] F.
    unfold PriceFeedLibrary.compare_prices, bind.
    rewrite get_price_run. rewrite get_price_run.
    destruct (get_price_result_dict llm json_loads symbol1 "usd" st)
      as [d1 E1].
    destruct (get_price_result_dict
                llm json_loads symbol2 "usd"
                (get_price_state llm json_loads symbol1 "usd" st))
      as [d2 E2].
    rewrite E1, E2 in *. rewrite !succeeded_dict in F.
    unfold lift, ret. simpl.
    destruct (truthy match dict_find d1 "success" with
                     | Some x => x | None => PNone end); simpl;
      [|reflexivity].
    destruct F as [F|F]; [discriminate|]. now rewrite F.
Qed.

Lemma is_price_above_on_failure llm json_loads list_gt symbol threshold
      currency st q st1 :
  PriceFeedLibrary.get_price llm json_loads symbol currency st = (Ok q, st1) ->
  succeeded q = false ->
  PriceFeedLibrary.is_price_above
    llm json_loads list_gt symbol threshold currency st = (Ok q, st1).
Proof.
  intros R F.
  unfold PriceFeedLibrary.is_price_above, bind. rewrite R.
  unfold succeeded in F. unfold lift.
  destruct (py_get q "success" PNone) as [ok|] eqn:G.
  - now rewrite F.
  - rewrite get_price_run in R. injection R as <- <-.
    destruct (get_price_result_dict llm json_loads symbol currency st)
      as [d E].
    rewrite E in G. discriminate.
Qed.

(** X8: when the fetch fails, [is_price_above] hands back the result of
    [get_price] as it is -- for an unsupported symbol the failure with the
    list of supported coins -- and does not look at the threshold, which
    may then be of any type. *)
Theorem is_price_above_passes_a_failure_on :
  forall llm json_loads list_gt symbol threshold currency st q st1,
    PriceFeedLibrary.get_price llm json_loads symbol currency st
    = (Ok q, st1) ->
    succeeded q = false ->
    PriceFeedLibrary.is_price_above
      llm json_loads list_gt symbol threshold currency st = (Ok q, st1).
Proof.
  intros llm json_loads list_gt symbol threshold currency st q st1 R F.
  now apply is_price_above_on_failure.
Qed.

Lemma py_lt_number list_lt a b n :
  as_num b = Some n ->
  py_lt list_lt a b =
  match as_num a with
  | Some m => Ok (num_lt m n)
  | None => Raise (order_error "<" a b)
  end.
Proof.
  intros B. unfold py_lt. rewrite B.
  destruct (as_num a) eqn:A; [reflexivity|].
  destruct a; try reflexivity; destruct b; try reflexivity; discriminate.
Qed.

(** X9: the decision of [should_buy_signal] on a fetched price and a
    threshold that are numbers.  When the price is not below the threshold
    the answer is "Conditions not met" and [change_24h] is not looked at,
    so a missing one does no harm.  When the price is below it, the answer
    is to buy exactly when [change_24h > 0]; a [change_24h] that is not a
    number, a missing one included, makes the call raise [TypeError]. *)
Theorem should_buy_signal_decides :
  forall llm json_loads list_gt list_lt symbol ma_threshold st q st1
         price change n m,
    PriceFeedLibrary.get_price llm json_loads symbol "usd" st = (Ok q, st1) ->
    succeeded q = true ->
    py_get q "price" (PInt 0) = Ok price ->
    py_get q "change_24h" (PInt 0) = Ok change ->
    as_num price = Some n -> as_num ma_threshold = Some m ->
    let run := PriceFeedExample.should_buy_signal
                 llm json_loads list_gt list_lt (PStr symbol) ma_threshold st in
    (num_lt n m = false ->
     run = (Ok (signal_result (PStr symbol) price ma_threshold change false),
            st1))
    /\ (num_lt n m = true ->
        forall k, as_num change = Some k ->
        run = (Ok (signal_result (PStr symbol) price ma_threshold change
                                 (num_gt k (NInt 0))), st1))
    /\ (num_lt n m = true -> as_num change = None ->
        run = (Raise (order_error ">" change (PInt 0)), st1)).
Proof.
  intros llm json_loads list_gt list_lt symbol ma_threshold st q st1
         price change n m R S P C N M run.
  subst run. unfold PriceFeedExample.should_buy_signal, bind.
  rewrite call_get_price, R. unfold succeeded in S. unfold lift, ret.
  destruct (py_get q "success" PNone) as [ok|]; [|discriminate].
  rewrite S. simpl. rewrite P, C.
  rewrite (py_lt_number list_lt price ma_threshold m M), N.
  rewrite (py_gt_number list_gt change (PInt 0) (NInt 0) eq_refl).
  split; [|split].
  - intros L. rewrite L. reflexivity.
  - intros L k K. rewrite L, K. reflexivity.
  - intros L K. rewrite L, K. reflexivity.
Qed.

(** X10: when the fetch fails, [should_buy_signal] hands back the result of
    [get_price] as it is, whatever the threshold; no signal is computed. *)
Theorem should_buy_signal_passes_a_failure_on :
  forall llm json_loads list_gt list_lt symbol ma_threshold st q st1,
    PriceFeedLibrary.get_price llm json_loads symbol "usd" st = (Ok q, st1) ->
    succeeded q = false ->
    PriceFeedExample.should_buy_signal
      llm json_loads list_gt list_lt (PStr symbol) ma_threshold st
    = (Ok q, st1).
Proof.
  intros llm json_loads list_gt list_lt symbol ma_threshold st q st1 R F.
  unfold PriceFeedExample.should_buy_signal, bind.
  rewrite call_get_price, R. unfold succeeded in F. unfold lift.
  destruct (py_get q "success" PNone) as [ok|] eqn:G.
  - now rewrite F.
  - rewrite get_price_run in R. injection R as <- <-.
    destruct (get_price_result_dict llm json_loads symbol "usd" st) as [d E].
    rewrite E in G. discriminate.
Qed.

(** X11: [check_btc_price] reads [result['price']] without looking at
    [success]: when the fetch for BTC fails it raises [KeyError: 'price']
    instead of reporting the failure; when the fetch succeeds and the
    price can be formatted, it returns the message with the formatted
    price and the whole result of [get_price] as [data]. *)
Theorem check_btc_price_raises_on_a_failed_fetch :
  forall llm json_loads list_gt format_money st q st1,
    PriceFeedLibrary.get_price llm json_loads "BTC" "usd" st = (Ok q, st1) ->
    let run := PriceFeedExample.check_btc_price
                 llm json_loads list_gt format_money st in
    (succeeded q = false -> run = (Raise (Exn KeyError "'price'"), st1))
    /\ (succeeded q = true ->
        forall price text,
          py_get q "price" PNone = Ok price ->
          format_money price = Ok text ->
          run = (Ok (PDict [ ("message",
                              PStr ("Current BTC price: $" ++ text));
                             ("data", q) ]),
                 st1)).
Proof.
  intros llm json_loads list_gt format_money st q st1 R run. subst run.
  unfold PriceFeedExample.check_btc_price, bind.
  rewrite call_get_price, R. unfold lift, ret.
  rewrite get_price_run in R. injection R as <- <-.
  unfold get_price_result.
  change (dict_find PriceFeedLibrary.SUPPORTED_COINS (upper "BTC"))
    with (Some "bitcoin").
  cbv iota beta.
  destruct (fetch llm json_loads "bitcoin" (lower "usd") st) as [[]|];
    (split; [intros F; try discriminate F; reflexivity
            | intros T price text P Fm; try discriminate T;
              cbn in P; injection P as <-; cbn; rewrite Fm; reflexivity]).
Qed.

(** ** The alert store *)

Lemma set_price_alert_lookup py_str sender symbol threshold alert_type self user :
  dict_find
    (PriceFeedExample.user_alerts
       (snd (PriceFeedExample.set_price_alert
               py_str sender symbol threshold alert_type self)))
    user
  = if String.eqb sender user then
      Some (match dict_find (PriceFeedExample.user_alerts self) sender with
            | Some alerts => alerts
            | None => []
            end ++ [alert_of symbol threshold alert_type])%list
    else dict_find (PriceFeedExample.user_alerts self) user.
Proof.
  unfold PriceFeedExample.set_price_alert. cbn [snd PriceFeedExample.user_alerts].
  destruct (String.eqb_spec sender user) as [<- | N].
  - rewrite dict_find_set_same. unfold dict_mem.
    destruct (dict_find (PriceFeedExample.user_alerts self) sender) eqn:F.
    + now rewrite F.
    + now rewrite dict_find_set_same.
  - rewrite dict_find_set_other by congruence. unfold dict_mem.
    destruct (dict_find (PriceFeedExample.user_alerts self) sender);
      [reflexivity|].
    apply dict_find_set_other. congruence.
Qed.

(** X12: [set_price_alert] touches the list of its sender only: the alerts
    of every other user, and the address of the price feed, are after the
    call what they were before. *)
Theorem set_price_alert_leaves_other_users_alone :
  forall py_str sender symbol threshold alert_type self other,
    other <> sender ->
    let self' := snd (PriceFeedExample.set_price_alert
                        py_str sender symbol threshold alert_type self) in
    dict_find (PriceFeedExample.user_alerts self') other
    = dict_find (PriceFeedExample.user_alerts self) other
    /\ PriceFeedExample.price_feed_address self'
       = PriceFeedExample.price_feed_address self.
Proof.
  intros py_str sender symbol threshold alert_type self other N self'.
  subst self'. rewrite set_price_alert_lookup.
  destruct (String.eqb_spec sender other); [congruence|].
  split; reflexivity.
Qed.

Lemma set_alerts_lookup py_str calls :
  forall self user,
    dict_find (PriceFeedExample.user_alerts (set_alerts py_str calls self)) user
    = match dict_find (PriceFeedExample.user_alerts self) user,
            alerts_asked user calls with
      | Some alerts, asked => Some (alerts ++ asked)%list
      | None, [] => None
      | None, asked => Some asked
      end.
Proof.
  induction calls as [|c rest IH]; intros self user.
  - cbn. destruct (dict_find _ user); [now rewrite app_nil_r | reflexivity].
  - cbn [set_alerts]. rewrite IH, set_price_alert_lookup.
    unfold alerts_asked. cbn [filter].
    destruct (String.eqb_spec (call_sender c) user) as [E | N]; cbn [map].
    + rewrite E.
      destruct (dict_find (PriceFeedExample.user_alerts self) user).
      * now rewrite <- app_assoc.
      * reflexivity.
    + destruct (dict_find (PriceFeedExample.user_alerts self) user);
        reflexivity.
Qed.

(** X13: the store is append-only.  After any history of [set_price_alert]
    calls on a fresh contract, a user who sent none has no entry, and a
    user who sent some has exactly the alerts asked for, one per call, in
    the order of the calls, each of them active: no call removes, reorders,
    rewrites or deactivates an alert. *)
Theorem set_price_alert_history_is_kept :
  forall py_str calls address user,
    dict_find
      (PriceFeedExample.user_alerts
         (set_alerts py_str calls (PriceFeedExample.init address)))
      user
    = match alerts_asked user calls with
      | [] => None
      | asked => Some asked
      end
    /\ Forall (fun alert => py_get alert "active" PNone = Ok (PBool true))
              (alerts_asked user calls).
Proof.
  intros py_str calls address user. split.
  - now rewrite set_alerts_lookup.
  - unfold alerts_asked. apply Forall_forall. intros alert I.
    apply in_map_iff in I. destruct I as (c & <- & _). reflexivity.
Qed.

(** ** check_alerts *)

Lemma subseq_length {A} (l m : list A) :
  subseq l m -> (List.length l <= List.length m)%nat.
Proof.
  induction 1; simpl; lia.
Qed.

Section CheckAlertsOrder.
Variable llm : list string -> string -> Res string.
Variable json_loads : string -> Res val.
Variable list_gt : list val -> list val -> Res bool.

Lemma check_alerts_loop_in_order alerts :
  forall triggered st out st',
    PriceFeedExample.check_alerts_loop
      llm json_loads list_gt alerts triggered st = (Ok out, st') ->
    exists checks,
      checks_of llm json_loads list_gt alerts st = (Ok checks, st')
      /\ subseq (map fst checks) alerts
      /\ out = (triggered ++ map report (filter due checks))%list.
Proof.
  induction alerts as [|alert rest IH]; intros triggered st out st' R.
  - simpl in R. injection R as <- <-. exists []. split; [reflexivity|].
    split; [constructor|]. simpl. now rewrite app_nil_r.
  - simpl in R. simpl. unfold bind, lift, ret in *.
    repeat (step R; simpl).
    all: apply IH in R; destruct R as (checks & C & S & ->); rewrite C.
    1: { exists checks. split; [reflexivity|]. split; [now constructor|].
         reflexivity. }
    all: eexists; (split; [reflexivity|]); (split; [now constructor|]);
      cbn [filter]; unfold due, report, succeeded, result_field, alert_field;
      cbn [fst snd];
      repeat match goal with
             | Q : ?x = _ |- context [?x] => rewrite Q
             end;
      cbn [andb orb map]; unfold report, result_field, alert_field;
      cbn [fst snd];
      repeat match goal with
             | Q : ?x = _ |- context [?x] => rewrite Q
             end;
      try rewrite <- app_assoc; reflexivity.
Qed.

End CheckAlertsOrder.

(** X14: [check_alerts] reports in the order the alerts were set, each
    alert at the price fetched for it.  Take the [is_price_above] calls the
    check makes, one for every active alert, in the order of the sender's
    list, each in the state the calls before it left.  When the check
    returns, what it returns is [success], the entries of the alerts that
    are due and their number: an entry carries the symbol, the threshold
    and the type of its alert and the [current_price] the call made for
    that alert returned, and the entries are in the order of the calls; so
    [triggered_count] is never more than the number of alerts set. *)
Theorem check_alerts_reports_in_insertion_order :
  forall llm json_loads list_gt sender self st alerts out st',
    dict_find (PriceFeedExample.user_alerts self) sender = Some alerts ->
    PriceFeedExample.check_alerts llm json_loads list_gt sender self st
    = (Ok out, st') ->
    exists checks,
      checks_of llm json_loads list_gt alerts st = (Ok checks, st')
      /\ subseq (map fst checks) alerts
      /\ out = PDict [ ("success", PBool true);
                       ("triggered_count",
                        PInt (Z.of_nat (List.length (filter due checks))));
                       ("triggered_alerts",
                        PList (map report (filter due checks))) ]
      /\ (List.length (filter due checks) <= List.length alerts)%nat.
Proof.
  intros llm json_loads list_gt sender self st alerts out st' F R.
  unfold PriceFeedExample.check_alerts in R. rewrite F in R.
  unfold bind, ret in R.
  destruct (PriceFeedExample.check_alerts_loop
              llm json_loads list_gt alerts [] st) as [[triggered|] st2] eqn:L;
    [|discriminate].
  injection R as <- <-.
  apply check_alerts_loop_in_order in L. destruct L as (checks & C & S & ->).
  exists checks. split; [exact C|]. split; [exact S|]. split.
  - cbn [app]. now rewrite length_map.
  - apply subseq_length in S. rewrite length_map in S.
    pose proof (filter_length_le due checks). lia.
Qed.

(** X15: who gets "No alerts set".  On a contract built from a fresh one by
    a history of [set_price_alert] calls, [check_alerts] answers
    "No alerts set" -- sending nothing to the model -- exactly to the users
    who sent none of the calls; to a user who sent one, whenever it
    returns, it answers with [triggered_count] and no [message]. *)
Theorem check_alerts_knows_who_set_an_alert :
  forall llm json_loads list_gt py_str calls address user st,
    let self := set_alerts py_str calls (PriceFeedExample.init address) in
    let run := PriceFeedExample.check_alerts
                 llm json_loads list_gt user self st in
    (alerts_asked user calls = [] ->
     run = (Ok (PDict [ ("success", PBool true);
                        ("message", PStr "No alerts set");
                        ("triggered_alerts", PList []) ]),
            st))
    /\ (alerts_asked user calls <> [] ->
        forall out st',
          run = (Ok out, st') ->
          py_get out "message" PNone = Ok PNone
          /\ exists n, py_get out "triggered_count" PNone = Ok (PInt n)).
Proof.
  intros llm json_loads list_gt py_str calls address user st self run.
  subst self run.
  unfold PriceFeedExample.check_alerts. rewrite set_alerts_lookup.
  cbn [PriceFeedExample.init PriceFeedExample.user_alerts dict_find].
  destruct (alerts_asked user calls) as [|a l]; split;
    [reflexivity | congruence | discriminate |].
  intros _ out st' R. unfold bind, ret in R.
  destruct (PriceFeedExample.check_alerts_loop _ _ _ _ _ _) as [[t|] s];
    [|discriminate].
  injection R as <- <-. split; [reflexivity|]. eexists. reflexivity.
Qed.

(** ** When no quote can be fetched *)

Lemma outage_no_quote llm json_loads symbol currency st :
  outage llm ->
  succeeded (get_price_result llm json_loads symbol currency st) = false.
Proof.
  intros O. unfold get_price_result.
  destruct (dict_find PriceFeedLibrary.SUPPORTED_COINS (upper symbol))
    as [coin_id|]; [|reflexivity].
  unfold fetch.
  destruct (O (llm_calls st)
              (PriceFeedLibrary.prompt_of coin_id (lower currency)))
    as [e ->].
  reflexivity.
Qed.

Section Outage.
Variable llm : list string -> string -> Res string.
Variable json_loads : string -> Res val.
Variable list_gt : list val -> list val -> Res bool.

Lemma call_is_price_above symbol threshold st :
  PriceFeedExample.call_contract
    llm json_loads list_gt "is_price_above"
    [PStr symbol; threshold; PStr "usd"] st
  = PriceFeedLibrary.is_price_above
      llm json_loads list_gt symbol threshold "usd" st.
Proof.
  unfold PriceFeedExample.call_contract, bind, lift.
  cbn -[PriceFeedLibrary.is_price_above].
  now destruct (PriceFeedLibrary.is_price_above
                  llm json_loads list_gt symbol threshold "usd" st)
    as [[|] ?].
Qed.

Lemma check_alerts_loop_in_outage alerts :
  outage llm ->
  Forall (fun alert => exists symbol threshold alert_type,
              alert = alert_of (PStr symbol) threshold alert_type) alerts ->
  forall triggered st,
  exists st',
    PriceFeedExample.check_alerts_loop
      llm json_loads list_gt alerts triggered st = (Ok triggered, st').
Proof.
  intros O W. induction W as [|alert rest (symbol & threshold & ty & ->) W IH];
    intros triggered st.
  - exists st. reflexivity.
  - cbn [PriceFeedExample.check_alerts_loop]. unfold bind, lift.
    cbn -[PriceFeedExample.call_contract PriceFeedExample.check_alerts_loop].
    rewrite call_is_price_above.
    rewrite (is_price_above_on_failure
               llm json_loads list_gt symbol threshold "usd" st
               _ _ (get_price_run llm json_loads symbol "usd" st)
               (outage_no_quote llm json_loads symbol "usd" st O)).
    pose proof (outage_no_quote llm json_loads symbol "usd" st O) as F.
    unfold succeeded in F.
    destruct (py_get (get_price_result llm json_loads symbol "usd" st)
                     "success" PNone) as [ok|] eqn:G.
    + rewrite F. apply IH.
    + destruct (get_price_result_dict llm json_loads symbol "usd" st)
        as [d E].
      rewrite E in G. discriminate.
Qed.

Lemma check_portfolio_value_loop_without_quotes holdings :
  forall total breakdown st quotes st',
    quotes_of llm json_loads holdings st = (Ok quotes, st') ->
    Forall (fun quote => succeeded (snd quote) = false) quotes ->
    PriceFeedExample.check_portfolio_value_loop
      llm json_loads list_gt holdings total breakdown st
    = (Ok (total, breakdown), st').
Proof.
  induction holdings as [|[symbol amount] rest IH];
    intros total breakdown st quotes st' Q F.
  - simpl in Q. injection Q as <- <-. reflexivity.
  - cbn [quotes_of] in Q. unfold bind at 1 in Q. rewrite get_price_run in Q.
    cbn [PriceFeedExample.check_portfolio_value_loop].
    unfold bind at 1. rewrite call_get_price, get_price_run.
    unfold bind, ret in Q.
    destruct (quotes_of llm json_loads rest _) as [[quotes'|] st2] eqn:Q';
      [|discriminate].
    injection Q as <- <-. inversion F as [|? ? Fq F']; subst.
    cbn [snd] in Fq. unfold succeeded in Fq. unfold bind, lift.
    destruct (py_get (get_price_result llm json_loads symbol "usd" st)
                     "success" PNone) as [ok|] eqn:G.
    + rewrite Fq. eapply IH; eauto.
    + destruct (get_price_result_dict llm json_loads symbol "usd" st)
        as [d E].
      rewrite E in G. discriminate.
Qed.

Lemma check_portfolio_value_loop_on_integers holdings :
  forall total breakdown st quotes st',
    quotes_of llm json_loads holdings st = (Ok quotes, st') ->
    Forall int_quote quotes ->
    exists breakdown',
      PriceFeedExample.check_portfolio_value_loop
        llm json_loads list_gt holdings (PInt total) breakdown st
      = (Ok (PInt (total + int_total quotes), breakdown'), st').
Proof.
  induction holdings as [|[symbol amount] rest IH];
    intros total breakdown st quotes st' Q F.
  - simpl in Q. injection Q as <- <-. exists breakdown. simpl.
    now rewrite Z.add_0_r.
  - cbn [quotes_of] in Q. unfold bind at 1 in Q. rewrite get_price_run in Q.
    cbn [PriceFeedExample.check_portfolio_value_loop].
    unfold bind at 1. rewrite call_get_price, get_price_run.
    unfold bind, ret in Q.
    destruct (quotes_of llm json_loads rest _) as [[quotes'|] st2] eqn:Q';
      [|discriminate].
    injection Q as <- <-. inversion F as [|? ? Fq F']; subst.
    unfold int_quote in Fq. cbn [fst snd] in Fq. cbn [int_total].
    unfold succeeded in *. unfold bind, lift.
    destruct (py_get (get_price_result llm json_loads symbol "usd" st)
                     "success" PNone) as [ok|] eqn:G.
    + destruct (truthy ok).
      * destruct (Fq eq_refl) as (p & a & P & ->). rewrite P.
        cbn [py_mul as_num num_mul py_iadd num_add].
        destruct (IH (total + p * a) (dict_set breakdown symbol
                        (PDict [("amount", PInt a); ("price", PInt p);
                                ("value", PInt (p * a))]))
                     _ _ _ Q' F') as [b' R].
        exists b'. rewrite R. now rewrite Z.add_assoc.
      * destruct (IH total breakdown _ _ _ Q' F') as [b' R].
        exists b'. now rewrite R.
    + destruct (get_price_result_dict llm json_loads symbol "usd" st)
        as [d E].
      rewrite E in G. discriminate.
Qed.
End Outage.

(** X16: an outage does not make [check_alerts] fail.  When every call of
    the model raises, the check of a user whose alerts are as
    [set_price_alert] stored them, with strings for symbols, returns
    [success] with nothing triggered: every alert is skipped silently, and
    the answer is the one given when no alert is due. *)
Theorem check_alerts_is_silent_in_an_outage :
  forall llm json_loads list_gt sender self st alerts,
    outage llm ->
    dict_find (PriceFeedExample.user_alerts self) sender = Some alerts ->
    Forall (fun alert => exists symbol threshold alert_type,
                alert = alert_of (PStr symbol) threshold alert_type) alerts ->
    exists st',
      PriceFeedExample.check_alerts llm json_loads list_gt sender self st
      = (Ok (PDict [ ("success", PBool true);
                     ("triggered_count", PInt 0);
                     ("triggered_alerts", PList []) ]),
         st').
Proof.
  intros llm json_loads list_gt sender self st alerts O F W.
  destruct (check_alerts_loop_in_outage llm json_loads list_gt alerts O W [] st)
    as [st' L].
  exists st'. unfold PriceFeedExample.check_alerts. rewrite F.
  unfold bind, ret. now rewrite L.
Qed.

(** X17: a portfolio none of whose quotes could be fetched is valued at 0.
    When every fetch of a valuation fails -- the model is down, the symbols
    are unsupported, or there is no holding at all -- the valuation returns
    the integer 0 and an empty breakdown, whatever the amounts are, and
    nothing in the result tells it from a portfolio worth nothing. *)
Theorem check_portfolio_value_is_zero_without_quotes :
  forall llm json_loads list_gt holdings st quotes st',
    quotes_of llm json_loads holdings st = (Ok quotes, st') ->
    Forall (fun quote => succeeded (snd quote) = false) quotes ->
    PriceFeedExample.check_portfolio_value
      llm json_loads list_gt holdings st
    = (Ok (PDict [ ("total_value_usd", PInt 0);
                   ("breakdown", PDict []);
                   ("currency", PStr "USD") ]),
       st').
Proof.
  intros llm json_loads list_gt holdings st quotes st' Q F.
  unfold PriceFeedExample.check_portfolio_value, bind, ret.
  now rewrite (check_portfolio_value_loop_without_quotes
                 llm json_loads list_gt holdings (PInt 0) [] st quotes st' Q F).
Qed.

(** X18: integer holdings at integer prices are valued exactly.  When the
    prices fetched and the amounts held are integers, the valuation
    returns, and its total is the integer sum of [price * amount] over the
    quotes that succeeded: no rounding, whatever the size. *)
Theorem check_portfolio_value_is_exact_on_integers :
  forall llm json_loads list_gt holdings st quotes st',
    quotes_of llm json_loads holdings st = (Ok quotes, st') ->
    Forall int_quote quotes ->
    exists breakdown,
      PriceFeedExample.check_portfolio_value
        llm json_loads list_gt holdings st
      = (Ok (PDict [ ("total_value_usd", PInt (int_total quotes));
                     ("breakdown", PDict breakdown);
                     ("currency", PStr "USD") ]),
         st').
Proof.
  intros llm json_loads list_gt holdings st quotes st' Q F.
  destruct (check_portfolio_value_loop_on_integers
              llm json_loads list_gt holdings 0 [] st quotes st' Q F)
    as [breakdown L].
  exists breakdown.
  unfold PriceFeedExample.check_portfolio_value, bind, ret.
  now rewrite L.
Qed.

(** ** The further properties at work *)

Lemma down_is_an_outage : outage down.
Proof.
  intros calls prompt. unfold down, Demo.scripted.
  destruct (List.length calls); eexists; reflexivity.
Defined.

Lemma get_price_ignores_case_witness :
  let llm := Demo.scripted [Ok (Demo.quote_text "2")] in
  upper "Btc" = upper "bTC"
  /\ lower "USD" = lower "Usd"
  /\ PriceFeedLibrary.get_price llm Demo.json_loads "Btc" "USD" cached_state
     = PriceFeedLibrary.get_price llm Demo.json_loads "bTC" "Usd" cached_state.
Proof.
  intros llm. split; [reflexivity|]. split; [reflexivity|].
  exact (proj1 (get_price_ignores_case llm Demo.json_loads "bTC" "Usd"
                                       cached_state)
               "Btc" "USD" eq_refl eq_refl).
Defined.

Lemma get_price_accepts_the_supported_coins_witness :
  let llm := Demo.scripted [Ok (Demo.quote_text "2")] in
  let st := PriceFeedLibrary.init [] in
  exists coins,
    PriceFeedLibrary.get_supported_coins st
    = (Ok (PDict [ ("success", PBool true);
                   ("count", PInt (Z.of_nat (List.length coins)));
                   ("supported_coins", PList (map PStr coins)) ]),
       st)
    /\ List.length coins = 15%nat
    /\ (In (upper "doge") coins ->
        exists coin_id,
          dict_find PriceFeedLibrary.SUPPORTED_COINS (upper "doge")
          = Some coin_id
          /\ llm_calls
               (snd (PriceFeedLibrary.get_price
                       llm Demo.json_loads "doge" "usd" st))
             = (llm_calls st
                  ++ [PriceFeedLibrary.prompt_of coin_id (lower "usd")])%list)
    /\ (~ In (upper "doge") coins ->
        PriceFeedLibrary.get_price llm Demo.json_loads "doge" "usd" st
        = (Ok (PDict
                 [ ("success", PBool false);
                   ("error", PStr ("Unsupported symbol: " ++ upper "doge"));
                   ("supported_coins", PList (map PStr coins)) ]),
           st)).
Proof.
  intros llm st.
  exact (get_price_accepts_the_supported_coins
           llm Demo.json_loads "doge" "usd" st).
Defined.

Lemma cache_key_determines_the_request_witness :
  dict_find PriceFeedLibrary.SUPPORTED_COINS (upper "btc") = Some "bitcoin"
  /\ dict_find PriceFeedLibrary.SUPPORTED_COINS (upper "BTC") = Some "bitcoin"
  /\ cache_key "btc" "USD_t" = cache_key "BTC" "usd_T"
  /\ upper "btc" = upper "BTC" /\ lower "USD_t" = lower "usd_T".
Proof.
  split; [reflexivity|]. split; [reflexivity|]. split; [reflexivity|].
  exact (cache_key_determines_the_request
           "btc" "USD_t" "BTC" "usd_T" "bitcoin" "bitcoin"
           eq_refl eq_refl eq_refl).
Defined.

Lemma get_price_changes_only_its_own_entry_witness :
  let llm := Demo.scripted [Ok (Demo.quote_text "2")] in
  let st := mkState [] [("BTC_usd", Demo.quote (PInt 1));
                        ("ETH_usd", Demo.quote (PInt 6))] [] in
  let st' := snd (PriceFeedLibrary.get_price
                    llm Demo.json_loads "BTC" "usd" st) in
  "ETH_usd" <> cache_key "BTC" "usd"
  /\ dict_find (price_cache st') "ETH_usd"
     = dict_find (price_cache st) "ETH_usd"
  /\ last_update st' = last_update st
  /\ llm_calls st' = (llm_calls st ++ prompt_for "BTC" "usd")%list.
Proof.
  intros llm st st'.
  assert ("ETH_usd" <> cache_key "BTC" "usd") as N by discriminate.
  split; [exact N|].
  exact (get_price_changes_only_its_own_entry
           llm Demo.json_loads "BTC" "usd" st "ETH_usd" N).
Defined.

Lemma get_multiple_prices_keeps_the_last_result_witness :
  let llm := Demo.scripted [Ok (Demo.quote_text "2");
                            Ok (Demo.quote_text "6")] in
  let st := PriceFeedLibrary.init [] in
  let before := snd (PriceFeedLibrary.get_multiple_prices
                       llm Demo.json_loads ["BTC"] "usd" st) in
  ~ In "BTC" ["ZZZ"]
  /\ exists results st' last,
      PriceFeedLibrary.get_multiple_prices
        llm Demo.json_loads (["BTC"] ++ "BTC" :: ["ZZZ"]) "usd" st
      = (Ok (PDict [ ("success", PBool true);
                     ("currency", PStr "usd");
                     ("count", PInt (Z.of_nat (List.length results)));
                     ("prices", PDict results) ]),
         st')
      /\ fst (PriceFeedLibrary.get_price
                llm Demo.json_loads "BTC" "usd" before) = Ok last
      /\ dict_find results "BTC" = Some last.
Proof.
  intros llm st before.
  assert (~ In "BTC" ["ZZZ"]) as N by (intros [H|[]]; discriminate H).
  split; [exact N|].
  exact (get_multiple_prices_keeps_the_last_result
           llm Demo.json_loads ["BTC"] "BTC" ["ZZZ"] "usd" st N).
Defined.

Lemma compare_prices_fetches_both_and_fails_as_a_whole_witness :
  let llm := Demo.scripted [Ok "oops"; Ok (Demo.quote_text "2")] in
  let st := PriceFeedLibrary.init [] in
  let first := PriceFeedLibrary.get_price llm Demo.json_loads "BTC" "usd" st in
  let second :=
    PriceFeedLibrary.get_price llm Demo.json_loads "ETH" "usd" (snd first) in
  let run := PriceFeedLibrary.compare_prices
               llm Demo.json_loads Demo.list_gt "BTC" "ETH" st in
  succeeded (get_price_result llm Demo.json_loads "BTC" "usd" st) = false
  /\ snd run = snd second
  /\ llm_calls (snd run)
     = (llm_calls st ++ prompts_for ["BTC"; "ETH"] "usd")%list
  /\ fst run = Ok comparison_failure.
Proof.
  intros llm st first second run.
  destruct (compare_prices_fetches_both_and_fails_as_a_whole
              llm Demo.json_loads Demo.list_gt "BTC" "ETH" st)
    as (S & C & F).
  split; [reflexivity|]. split; [exact S|]. split; [exact C|].
  exact (F _ _ eq_refl eq_refl (or_introl eq_refl)).
Defined.

Lemma is_price_above_passes_a_failure_on_witness :
  let st := PriceFeedLibrary.init [] in
  PriceFeedLibrary.get_price down Demo.json_loads "ZZZ" "usd" st
  = (Ok (unsupported_result "ZZZ"), st)
  /\ succeeded (unsupported_result "ZZZ") = false
  /\ PriceFeedLibrary.is_price_above
       down Demo.json_loads Demo.list_gt "ZZZ" PNone "usd" st
     = (Ok (unsupported_result "ZZZ"), st).
Proof.
  intros st. split; [reflexivity|]. split; [reflexivity|].
  exact (is_price_above_passes_a_failure_on
           down Demo.json_loads Demo.list_gt "ZZZ" PNone "usd" st
           (unsupported_result "ZZZ") st eq_refl eq_refl).
Defined.

Lemma should_buy_signal_decides_witness :
  let llm := Demo.scripted [Ok (Demo.quote_text "100")] in
  let st := PriceFeedLibrary.init [] in
  let q := quote_result "BTC" "usd"
                        [ ("price", PInt 100); ("change_24h", PInt 2);
                          ("market_cap", PInt 1000) ] in
  let st1 := snd (PriceFeedLibrary.get_price
                    llm Demo.json_loads "BTC" "usd" st) in
  let run := PriceFeedExample.should_buy_signal
               llm Demo.json_loads Demo.list_gt Demo.list_lt
               (PStr "BTC") (PInt 150) st in
  PriceFeedLibrary.get_price llm Demo.json_loads "BTC" "usd" st = (Ok q, st1)
  /\ succeeded q = true
  /\ num_lt (NInt 100) (NInt 150) = true
  /\ run = (Ok (signal_result (PStr "BTC") (PInt 100) (PInt 150) (PInt 2)
                              (num_gt (NInt 2) (NInt 0))), st1).
Proof.
  intros llm st q st1 run.
  split; [reflexivity|]. split; [reflexivity|]. split; [reflexivity|].
  exact (proj1 (proj2 (should_buy_signal_decides
                         llm Demo.json_loads Demo.list_gt Demo.list_lt
                         "BTC" (PInt 150) st q st1 (PInt 100) (PInt 2)
                         (NInt 100) (NInt 150)
                         eq_refl eq_refl eq_refl eq_refl eq_refl eq_refl))
               eq_refl (NInt 2) eq_refl).
Defined.

Lemma should_buy_signal_passes_a_failure_on_witness :
  let st := PriceFeedLibrary.init [] in
  let q := failure_result "BTC" (Exn (HostError "TimeoutError") "no reply") in
  let st1 := snd (PriceFeedLibrary.get_price
                    down Demo.json_loads "BTC" "usd" st) in
  PriceFeedLibrary.get_price down Demo.json_loads "BTC" "usd" st = (Ok q, st1)
  /\ succeeded q = false
  /\ PriceFeedExample.should_buy_signal
       down Demo.json_loads Demo.list_gt Demo.list_lt (PStr "BTC") (PInt 150) st
     = (Ok q, st1).
Proof.
  intros st q st1. split; [reflexivity|]. split; [reflexivity|].
  exact (should_buy_signal_passes_a_failure_on
           down Demo.json_loads Demo.list_gt Demo.list_lt "BTC" (PInt 150)
           st q st1 eq_refl eq_refl).
Defined.

Lemma check_btc_price_raises_on_a_failed_fetch_witness :
  let st := PriceFeedLibrary.init [] in
  let q := failure_result "BTC" (Exn (HostError "TimeoutError") "no reply") in
  let st1 := snd (PriceFeedLibrary.get_price
                    down Demo.json_loads "BTC" "usd" st) in
  PriceFeedLibrary.get_price down Demo.json_loads "BTC" "usd" st = (Ok q, st1)
  /\ succeeded q = false
  /\ PriceFeedExample.check_btc_price
       down Demo.json_loads Demo.list_gt Demo.format_money st
     = (Raise (Exn KeyError "'price'"), st1).
Proof.
  intros st q st1. split; [reflexivity|]. split; [reflexivity|].
  exact (proj1 (check_btc_price_raises_on_a_failed_fetch
                  down Demo.json_loads Demo.list_gt Demo.format_money
                  st q st1 eq_refl)
               eq_refl).
Defined.

(** The message of [check_btc_price], run, at a price of 50000. *)
Example check_btc_price_message :
  fst (PriceFeedExample.check_btc_price
         (Demo.scripted [Ok (Demo.quote_text "50000")]) Demo.json_loads
         Demo.list_gt Demo.format_money (PriceFeedLibrary.init []))
  = Ok (PDict [ ("message", PStr "Current BTC price: $50,000.00");
                ("data",
                 quote_result "BTC" "usd"
                              [ ("price", PInt 50000); ("change_24h", PInt 2);
                                ("market_cap", PInt 1000) ]) ]).
Proof.
  vm_compute. reflexivity.
Qed.

Lemma set_price_alert_leaves_other_users_alone_witness :
  let self := alice_alert (PInt 100) (PStr "below") in
  let self' := snd (PriceFeedExample.set_price_alert
                      Demo.py_str "bob" (PStr "ETH") (PInt 5) (PStr "above")
                      self) in
  "alice" <> "bob"
  /\ dict_find (PriceFeedExample.user_alerts self') "alice"
     = dict_find (PriceFeedExample.user_alerts self) "alice"
  /\ PriceFeedExample.price_feed_address self'
     = PriceFeedExample.price_feed_address self.
Proof.
  intros self self'.
  assert ("alice" <> "bob") as N by discriminate.
  split; [exact N|].
  exact (set_price_alert_leaves_other_users_alone
           Demo.py_str "bob" (PStr "ETH") (PInt 5) (PStr "above") self
           "alice" N).
Defined.

Lemma check_alerts_reports_in_insertion_order_witness :
  let llm := Demo.scripted [Ok (Demo.quote_text "100");
                            Ok (Demo.quote_text "6")] in
  let self := snd (PriceFeedExample.set_price_alert
                     Demo.py_str "alice" (PStr "BTC") (PInt 50) (PStr "below")
                     (alice_alert (PInt 100) (PStr "below"))) in
  let first := alert_of (PStr "BTC") (PInt 100) (PStr "below") in
  let second := alert_of (PStr "BTC") (PInt 50) (PStr "below") in
  let st := PriceFeedLibrary.init [] in
  let run := PriceFeedExample.check_alerts
               llm Demo.json_loads Demo.list_gt "alice" self st in
  let reported :=
    PDict [ ("success", PBool true);
            ("triggered_count", PInt 2);
            ("triggered_alerts",
             PList [ triggered_entry (PStr "BTC") (PInt 100) (PInt 100)
                                     (PStr "below");
                     triggered_entry (PStr "BTC") (PInt 50) (PInt 6)
                                     (PStr "below") ]) ] in
  dict_find (PriceFeedExample.user_alerts self) "alice" = Some [first; second]
  /\ run = (Ok reported, snd run)
  /\ exists checks,
      checks_of llm Demo.json_loads Demo.list_gt [first; second] st
      = (Ok checks, snd run)
      /\ subseq (map fst checks) [first; second]
      /\ reported
         = PDict [ ("success", PBool true);
                   ("triggered_count",
                    PInt (Z.of_nat (List.length (filter due checks))));
                   ("triggered_alerts",
                    PList (map report (filter due checks))) ]
      /\ (List.length (filter due checks) <= 2)%nat.
Proof.
  intros llm self first second st run reported.
  split; [reflexivity|]. split; [reflexivity|].
  exact (check_alerts_reports_in_insertion_order
           llm Demo.json_loads Demo.list_gt "alice" self st [first; second]
           reported (snd run) eq_refl eq_refl).
Defined.

Lemma check_alerts_knows_who_set_an_alert_witness :
  let llm := Demo.scripted [Ok (Demo.quote_text "100")] in
  let calls := [mkAlertCall "alice" (PStr "BTC") (PInt 50) (PStr "above")] in
  let self := set_alerts Demo.py_str calls
                         (PriceFeedExample.init (PStr "0xfeed")) in
  let st := PriceFeedLibrary.init [] in
  alerts_asked "bob" calls = []
  /\ PriceFeedExample.check_alerts
       llm Demo.json_loads Demo.list_gt "bob" self st
     = (Ok (PDict [ ("success", PBool true);
                    ("message", PStr "No alerts set");
                    ("triggered_alerts", PList []) ]),
        st).
Proof.
  intros llm calls self st. split; [reflexivity|].
  exact (proj1 (check_alerts_knows_who_set_an_alert
                  llm Demo.json_loads Demo.list_gt Demo.py_str calls
                  (PStr "0xfeed") "bob" st)
               eq_refl).
Defined.

Lemma check_alerts_is_silent_in_an_outage_witness :
  let self := alice_alert (PInt 100) (PStr "below") in
  let alerts := [alert_of (PStr "BTC") (PInt 100) (PStr "below")] in
  outage down
  /\ dict_find (PriceFeedExample.user_alerts self) "alice" = Some alerts
  /\ exists st',
      PriceFeedExample.check_alerts
        down Demo.json_loads Demo.list_gt "alice" self
        (PriceFeedLibrary.init [])
      = (Ok (PDict [ ("success", PBool true);
                     ("triggered_count", PInt 0);
                     ("triggered_alerts", PList []) ]),
         st').
Proof.
  intros self alerts.
  split; [exact down_is_an_outage|]. split; [reflexivity|].
  refine (check_alerts_is_silent_in_an_outage
            down Demo.json_loads Demo.list_gt "alice" self
            (PriceFeedLibrary.init []) alerts down_is_an_outage eq_refl _).
  constructor; [|constructor].
  exists "BTC", (PInt 100), (PStr "below"). reflexivity.
Defined.

Lemma check_portfolio_value_is_zero_without_quotes_witness :
  let holdings := [("BTC", PStr "a lot"); ("ZZZ", PNone)] in
  let st := PriceFeedLibrary.init [] in
  let quotes := [ ("BTC", PStr "a lot",
                   failure_result
                     "BTC" (Exn (HostError "TimeoutError") "no reply"));
                  ("ZZZ", PNone, unsupported_result "ZZZ") ] in
  let st' := snd (quotes_of down Demo.json_loads holdings st) in
  quotes_of down Demo.json_loads holdings st = (Ok quotes, st')
  /\ Forall (fun quote => succeeded (snd quote) = false) quotes
  /\ PriceFeedExample.check_portfolio_value
       down Demo.json_loads Demo.list_gt holdings st
     = (Ok (PDict [ ("total_value_usd", PInt 0);
                    ("breakdown", PDict []);
                    ("currency", PStr "USD") ]),
        st').
Proof.
  intros holdings st quotes st'.
  assert (Forall (fun quote => succeeded (snd quote) = false) quotes) as F.
  { repeat constructor. }
  split; [reflexivity|]. split; [exact F|].
  exact (check_portfolio_value_is_zero_without_quotes
           down Demo.json_loads Demo.list_gt holdings st quotes st'
           eq_refl F).
Defined.

Lemma check_portfolio_value_is_exact_on_integers_witness :
  let llm := Demo.scripted [Ok (Demo.quote_text "50000");
                            Ok (Demo.quote_text "6")] in
  let holdings := [("BTC", PInt 2); ("ZZZ", PInt 1); ("ETH", PInt 3)] in
  let st := PriceFeedLibrary.init [] in
  let quotes := fst (quotes_of llm Demo.json_loads holdings st) in
  let st' := snd (quotes_of llm Demo.json_loads holdings st) in
  exists qs,
    quotes_of llm Demo.json_loads holdings st = (Ok qs, st')
    /\ Forall int_quote qs
    /\ int_total qs = 100018
    /\ exists breakdown,
        PriceFeedExample.check_portfolio_value
          llm Demo.json_loads Demo.list_gt holdings st
        = (Ok (PDict [ ("total_value_usd", PInt (int_total qs));
                       ("breakdown", PDict breakdown);
                       ("currency", PStr "USD") ]),
           st').
Proof.
  intros llm holdings st quotes st'.
  destruct quotes as [qs|e] eqn:Q; [|discriminate Q].
  exists qs.
  assert (quotes_of llm Demo.json_loads holdings st = (Ok qs, st')) as R.
  { subst st'. rewrite <- Q. subst quotes.
    now destruct (quotes_of llm Demo.json_loads holdings st). }
  assert (Forall int_quote qs) as F.
  { vm_compute in Q. injection Q as <-.
    repeat constructor; intros S; try discriminate S;
      do 2 eexists; split; reflexivity. }
  split; [exact R|]. split; [exact F|]. split.
  - vm_compute in Q. injection Q as <-. reflexivity.
  - exact (check_portfolio_value_is_exact_on_integers
             llm Demo.json_loads Demo.list_gt holdings st qs st' R F).
Defined.
